(** * withings_sync/server.py: the HTTP file server, embedded and verified

    The request handler [FileServerHandler] of [withings_sync/server.py] is
    translated function by function:

    - Python [str] values are lists of Unicode code points ([Py.str]);
      [bytes] values are lists of [Byte.byte];
    - the pieces of the Python library the handler calls ([str] methods,
      [posixpath], [html.escape], [urllib.parse.unquote], the UTF-8 codec)
      are written out from their CPython definitions;
    - effects (calls on the [BaseHTTPRequestHandler] API and on the logger)
      are collected as a trace by a small writer/exception monad;
    - the file system, the MIME table, [str.lower] and the local-time
      formatting of timestamps are parameters of the handler. *)

From Stdlib Require Import List ZArith NArith QArith Qround Bool Ascii String Lia.
From Stdlib Require Import Permutation Sorted DecimalString.
From Equations Require Import Equations.
From Equations.Prop Require Import Logic.
Import ListNotations.

Set Implicit Arguments.

(* ===================================================================== *)
(** * Python strings *)
(* ===================================================================== *)

Module Py.

(** A Python [str] is a sequence of code points. *)
Definition char := N.
Definition str := list char.

Definition ch (a : ascii) : char := N_of_ascii a.

(** An ASCII literal of the source. *)
Definition lit (s : string) : str := map N_of_ascii (list_ascii_of_string s).

(** The double quote, U+0022. *)
Definition dquote : char := 34%N.

Definition char_eqb : char -> char -> bool := N.eqb.

Fixpoint eqb (a b : str) : bool :=
  match a, b with
  | [], [] => true
  | x :: a', y :: b' => char_eqb x y && eqb a' b'
  | _, _ => false
  end.

(** [s.startswith(p)] *)
Fixpoint startswith (s p : str) {struct p} : bool :=
  match p, s with
  | [], _ => true
  | _ :: _, [] => false
  | y :: p', x :: s' => char_eqb x y && startswith s' p'
  end.

(** [s.endswith(p)] *)
Definition endswith (s p : str) : bool := startswith (rev s) (rev p).

(** [s.lstrip(c)] for a one-character argument. *)
Fixpoint lstrip (c : char) (s : str) : str :=
  match s with
  | x :: s' => if char_eqb x c then lstrip c s' else s
  | [] => []
  end.

(** [s.rstrip(c)] for a one-character argument. *)
Definition rstrip (c : char) (s : str) : str := rev (lstrip c (rev s)).

(** [s.split(c)] for a one-character separator: never the empty list. *)
Fixpoint split (c : char) (s : str) : list str :=
  match s with
  | [] => [[]]
  | x :: s' =>
      if char_eqb x c then [] :: split c s'
      else match split c s' with
           | w :: ws => (x :: w) :: ws
           | [] => [[x]]
           end
  end.

(** [sep.join(parts)] *)
Fixpoint join (sep : str) (parts : list str) : str :=
  match parts with
  | [] => []
  | [p] => p
  | p :: ps => p ++ sep ++ join sep ps
  end.

(** [s.replace(c, r)] for a one-character pattern. *)
Definition replace (c : char) (r : str) (s : str) : str :=
  flat_map (fun x => if char_eqb x c then r else [x]) s.

(** [c in s] *)
Definition contains (c : char) (s : str) : bool := existsb (char_eqb c) s.

(** [a < b] on [str]: lexicographic on code points. *)
Fixpoint ltb (a b : str) : bool :=
  match a, b with
  | _, [] => false
  | [], _ :: _ => true
  | x :: a', y :: b' => (x <? y)%N || ((x =? y)%N && ltb a' b')
  end.

(** [a <= b] on [str]. *)
Definition leb (a b : str) : bool := negb (ltb b a).

(** [str(n)] for an [int]. *)
Definition of_Z (n : Z) : str := lit (NilZero.string_of_int (Z.to_int n)).

(** [len(s)] *)
Definition len (A : Type) (s : list A) : Z := Z.of_nat (List.length s).

End Py.

Notation "'$' s" := (Py.lit s) (at level 1, s at level 0, format "'$' s").
Definition pystr : Type := Py.str.

(* ===================================================================== *)
(** * The UTF-8 codec *)
(* ===================================================================== *)

Module Utf8.

Definition bytes := list Byte.byte.

Definition byte_of_N (n : N) : Byte.byte :=
  match Byte.of_N n with Some b => b | None => Byte.x00 end.

(** One code point, as [str.encode('utf-8')] (error handler [strict])
    writes it; [None] is [UnicodeEncodeError] (a lone surrogate, which
    [os.listdir] produces for file names that are not UTF-8). *)
Definition encode_char (c : N) : option (list N) :=
  (if c <? 0x80 then Some [c]
   else if c <? 0x800 then
     Some [N.lor 0xC0 (N.shiftr c 6); N.lor 0x80 (N.land c 0x3F)]
   else if c <? 0x10000 then
     if (0xD800 <=? c) && (c <=? 0xDFFF) then None
     else Some [N.lor 0xE0 (N.shiftr c 12);
                N.lor 0x80 (N.land (N.shiftr c 6) 0x3F);
                N.lor 0x80 (N.land c 0x3F)]
   else if c <? 0x110000 then
     Some [N.lor 0xF0 (N.shiftr c 18);
           N.lor 0x80 (N.land (N.shiftr c 12) 0x3F);
           N.lor 0x80 (N.land (N.shiftr c 6) 0x3F);
           N.lor 0x80 (N.land c 0x3F)]
   else None)%N.

Fixpoint encode_N (s : pystr) : option (list N) :=
  match s with
  | [] => Some []
  | c :: s' =>
      match encode_char c, encode_N s' with
      | Some bs, Some rest => Some (bs ++ rest)
      | _, _ => None
      end
  end.

(** [s.encode('utf-8')] *)
Definition encode (s : pystr) : option bytes :=
  option_map (map byte_of_N) (encode_N s).

Definition replacement : N := 0xFFFD.

Definition is_cont (b : N) : bool := ((0x80 <=? b) && (b <=? 0xBF))%N.

(** The second byte of a three- or four-byte sequence is restricted by
    its lead byte (no overlong forms, no surrogates, nothing above
    U+10FFFF). *)
Definition second_ok (b0 b1 : N) : bool :=
  (is_cont b1
   && negb ((b0 =? 0xE0) && (b1 <? 0xA0))
   && negb ((b0 =? 0xED) && (0xA0 <=? b1))
   && negb ((b0 =? 0xF0) && (b1 <? 0x90))
   && negb ((b0 =? 0xF4) && (0x90 <=? b1)))%N.

Definition low6 (b : N) : N := N.land b 0x3F.

(** [b.decode('utf-8', 'replace')]: every maximal ill-formed run (an
    invalid start byte, or a lead byte with the continuation bytes that
    were still acceptable) becomes one U+FFFD, and decoding resumes at
    the byte that broke the sequence. *)
Fixpoint decode_replace (s : list N) : pystr :=
  match s with
  | [] => []
  | b0 :: s1 =>
    if (b0 <? 0x80)%N then b0 :: decode_replace s1
    else if (b0 <? 0xC2)%N then replacement :: decode_replace s1
    else if (b0 <? 0xE0)%N then
      match s1 with
      | [] => [replacement]
      | b1 :: s2 =>
        if is_cont b1
        then N.lor (N.shiftl (N.land b0 0x1F) 6) (low6 b1) :: decode_replace s2
        else replacement :: decode_replace s1
      end
    else if (b0 <? 0xF0)%N then
      match s1 with
      | [] => [replacement]
      | b1 :: s2 =>
        if negb (second_ok b0 b1) then replacement :: decode_replace s1
        else match s2 with
             | [] => [replacement]
             | b2 :: s3 =>
               if is_cont b2
               then N.lor (N.shiftl (N.land b0 0x0F) 12)
                      (N.lor (N.shiftl (low6 b1) 6) (low6 b2))
                    :: decode_replace s3
               else replacement :: decode_replace s2
             end
      end
    else if (b0 <? 0xF5)%N then
      match s1 with
      | [] => [replacement]
      | b1 :: s2 =>
        if negb (second_ok b0 b1) then replacement :: decode_replace s1
        else match s2 with
             | [] => [replacement]
             | b2 :: s3 =>
               if negb (is_cont b2) then replacement :: decode_replace s2
               else match s3 with
                    | [] => [replacement]
                    | b3 :: s4 =>
                      if is_cont b3
                      then N.lor (N.shiftl (N.land b0 0x07) 18)
                             (N.lor (N.shiftl (low6 b1) 12)
                                (N.lor (N.shiftl (low6 b2) 6) (low6 b3)))
                           :: decode_replace s4
                      else replacement :: decode_replace s3
                    end
             end
      end
    else replacement :: decode_replace s1
  end.

End Utf8.

Definition bytes : Type := Utf8.bytes.

(* ===================================================================== *)
(** * [html.escape] and [urllib.parse.unquote] *)
(* ===================================================================== *)

Module Html.

(** [html.escape(s)] ([quote=True]): five replacements, [&] first. *)
Definition escape (s : pystr) : pystr :=
  let s := Py.replace (Py.ch "&") $"&amp;" s in
  let s := Py.replace (Py.ch "<") $"&lt;" s in
  let s := Py.replace (Py.ch ">") $"&gt;" s in
  let s := Py.replace Py.dquote $"&quot;" s in
  let s := Py.replace (Py.ch "'") $"&#x27;" s in
  s.

(** The same as a map on characters. *)
Definition escape_char (c : N) : pystr :=
  if Py.char_eqb c (Py.ch "&") then $"&amp;"
  else if Py.char_eqb c (Py.ch "<") then $"&lt;"
  else if Py.char_eqb c (Py.ch ">") then $"&gt;"
  else if Py.char_eqb c Py.dquote then $"&quot;"
  else if Py.char_eqb c (Py.ch "'") then $"&#x27;"
  else [c].

(** The characters that open or close markup or an attribute value. *)
Definition markup_char (c : N) : bool :=
  Py.char_eqb c (Py.ch "<") || Py.char_eqb c (Py.ch ">")
  || Py.char_eqb c Py.dquote || Py.char_eqb c (Py.ch "'").

End Html.

Module Urllib.

Definition hex_digit (c : N) : option N :=
  (if (48 <=? c) && (c <=? 57) then Some (c - 48)
   else if (65 <=? c) && (c <=? 70) then Some (c - 55)
   else if (97 <=? c) && (c <=? 102) then Some (c - 87)
   else None)%N.

(** One item of [string.split(b'%')] after the first: two hexadecimal
    digits give a byte, anything else keeps its percent sign. *)
Definition unquote_item (item : list N) : list N :=
  match item with
  | a :: b :: tl =>
      match hex_digit a, hex_digit b with
      | Some h, Some l => (16 * h + l)%N :: tl
      | _, _ => Py.ch "%" :: item
      end
  | _ => Py.ch "%" :: item
  end.

(** [unquote_to_bytes] on an ASCII string. *)
Definition unquote_to_bytes (s : list N) : list N :=
  match Py.split (Py.ch "%") s with
  | first :: rest => first ++ flat_map unquote_item rest
  | [] => []
  end.

(** The loop of [unquote]: [run] is the current maximal ASCII run
    (reversed); ASCII runs are percent-decoded and read as UTF-8, the
    other characters are kept. *)
Fixpoint unquote_runs (run : list N) (s : pystr) : pystr :=
  match s with
  | [] => Utf8.decode_replace (unquote_to_bytes (rev run))
  | c :: s' =>
      if (c <? 128)%N then unquote_runs (c :: run) s'
      else Utf8.decode_replace (unquote_to_bytes (rev run))
           ++ c :: unquote_runs [] s'
  end.

(** [urllib.parse.unquote(string)] *)
Definition unquote (s : pystr) : pystr :=
  if negb (Py.contains (Py.ch "%") s) then s else unquote_runs [] s.

End Urllib.

(* ===================================================================== *)
(** * [posixpath] *)
(* ===================================================================== *)

Module PosixPath.

Definition sep : Py.char := Py.ch "/".

(** [os.path.isabs(p)] *)
Definition isabs (p : pystr) : bool := Py.startswith p [sep].

(** [os.path.join(a, b)] *)
Definition join (a b : pystr) : pystr :=
  if Py.startswith b [sep] then b
  else if Py.eqb a [] || Py.endswith a [sep] then a ++ b
  else a ++ [sep] ++ b.

(** The body of the loop of [normpath] over the components. *)
Definition normpath_step (initial_slashes : nat) (new_comps : list pystr)
    (comp : pystr) : list pystr :=
  if Py.eqb comp [] || Py.eqb comp $"." then new_comps
  else if negb (Py.eqb comp $"..")
          || (Nat.eqb initial_slashes 0
              && match new_comps with [] => true | _ => false end)
          || (match new_comps with
              | [] => false
              | _ => Py.eqb (last new_comps []) $".."
              end)
       then new_comps ++ [comp]
       else removelast new_comps.

(** [os.path.normpath(path)] *)
Definition normpath (path : pystr) : pystr :=
  if Py.eqb path [] then $"."
  else
    let initial_slashes :=
      if Py.startswith path [sep] then
        if Py.startswith path [sep; sep]
           && negb (Py.startswith path [sep; sep; sep])
        then 2%nat else 1%nat
      else 0%nat in
    let comps := Py.split sep path in
    let new_comps := fold_left (normpath_step initial_slashes) comps [] in
    let path := Py.join [sep] new_comps in
    let path := repeat sep initial_slashes ++ path in
    if Py.eqb path [] then $"." else path.

(** [os.path.abspath(path)], [cwd] being [os.getcwd()]. *)
Definition abspath (cwd path : pystr) : pystr :=
  normpath (if isabs path then path else join cwd path).

(** [head] and [tail] of [p] around its last separator:
    [p[:p.rfind('/') + 1]] and [p[p.rfind('/') + 1:]]. *)
Fixpoint rsplit_sep (p : pystr) : pystr * pystr :=
  match p with
  | [] => ([], [])
  | c :: p' =>
      let (h, t) := rsplit_sep p' in
      if Py.contains sep p then (c :: h, t) else ([], p)
  end.

Definition all_seps (s : pystr) : bool := forallb (Py.char_eqb sep) s.

(** [os.path.dirname(p)] *)
Definition dirname (p : pystr) : pystr :=
  let head := fst (rsplit_sep p) in
  if negb (Py.eqb head []) && negb (all_seps head)
  then Py.rstrip sep head else head.

(** [os.path.basename(p)] *)
Definition basename (p : pystr) : pystr := snd (rsplit_sep p).

End PosixPath.

(* ===================================================================== *)
(** * Exceptions, the trace of effects and the handler monad *)
(* ===================================================================== *)

(** A raised exception: its class name and [str(e)]. *)
Inductive exn := Exn (cls : pystr) (msg : pystr).

Definition exn_str (e : exn) : pystr := let (_, m) := e in m.

Inductive outcome (A : Type) :=
| Ret (a : A)
| Raise (e : exn).
Arguments Ret {A} a.
Arguments Raise {A} e.

Inductive level := INFO | WARNING | ERROR.

(** What the handler does to the outside: the calls it makes on the
    [BaseHTTPRequestHandler] API and on the logger, in order.
    [send_response] and [send_header] append to the header buffer,
    [end_headers] writes the buffer to the socket, [wfile_write] writes
    body bytes, and [send_error code message] is the library's complete
    error response (status line, headers, end of headers, HTML body).
    A call is recorded when it has its effect: [send_header] and
    [send_error] raise, and leave the buffer as it was, when the line
    they build cannot be encoded ([self_send_header], [self_send_error]
    below).  The request names a protocol version (for a request of
    HTTP/0.9 the library builds no header lines), and the socket takes
    every write: a client that goes away is not modelled. *)
Inductive call :=
| send_response (code : Z)
| send_header (keyword value : pystr)
| end_headers
| wfile_write (b : bytes)
| send_error (code : Z) (message : pystr)
| logger (l : level) (msg : pystr).

Definition is_log (c : call) : bool :=
  match c with logger _ _ => true | _ => false end.

(** A computation of the handler: the calls made so far, and a value or
    the exception that interrupted it. *)
Definition M (A : Type) : Type := list call * outcome A.

Definition ret {A} (a : A) : M A := ([], Ret a).

Definition bind {A B} (m : M A) (k : A -> M B) : M B :=
  match m with
  | (t, Ret a) => let (t', r) := k a in (t ++ t', r)
  | (t, Raise e) => (t, Raise e)
  end.

Definition emit (c : call) : M unit := ([c], Ret tt).

(** A library call that returns or raises, without an effect of its own. *)
Definition lift {A} (o : outcome A) : M A := ([], o).

(** [try: m  except Exception as e: h e] *)
Definition try_except {A} (m : M A) (h : exn -> M A) : M A :=
  match m with
  | (t, Ret a) => (t, Ret a)
  | (t, Raise e) => let (t', r) := h e in (t ++ t', r)
  end.

Declare Scope handler_scope.
Delimit Scope handler_scope with handler.
Notation "x <- m ;; k" := (bind m (fun x => k))
  (at level 61, m at next level, right associativity) : handler_scope.
Notation "m ;; k" := (bind m (fun _ => k))
  (at level 61, right associativity) : handler_scope.
Open Scope handler_scope.

Definition trace {A} (m : M A) : list call := fst m.
Definition result {A} (m : M A) : outcome A := snd m.

(* ===================================================================== *)
(** * Strict encoders and their [UnicodeEncodeError] *)
(* ===================================================================== *)

Module Codec.

Definition hex_digit (d : N) : N := (if d <? 10 then 48 + d else 87 + d)%N.

(** [n] in [width] lower-case hexadecimal digits. *)
Fixpoint hex (width : nat) (n : N) : pystr :=
  match width with
  | O => []
  | S w => hex w (n / 16) ++ [hex_digit (n mod 16)]
  end.

(** A code point as the message of the exception shows it. *)
Definition escaped (c : N) : pystr :=
  (if c <=? 0xFF then $"\x" ++ hex 2 c
   else if c <=? 0xFFFF then $"\u" ++ hex 4 c
   else $"\U" ++ hex 8 c)%N.

Fixpoint take_while (p : N -> bool) (s : pystr) : pystr :=
  match s with
  | c :: s' => if p c then c :: take_while p s' else []
  | [] => []
  end.

(** [str(e)] for the [UnicodeEncodeError] of a strict encoder on a
    string [s] that holds a code point the codec refuses ([bad]): the
    exception names the first run of such code points, by its position
    and, when it is a single one, by the code point. *)
Definition error_message (codec reason : pystr) (bad : N -> bool) (s : pystr)
  : pystr :=
  let start := List.length (take_while (fun c => negb (bad c)) s) in
  let run := take_while bad (skipn start s) in
  $"'" ++ codec ++ $"' codec can't encode "
  ++ match run with
     | [c] => $"character '" ++ escaped c ++ $"' in position "
              ++ Py.of_Z (Z.of_nat start)
     | _ => $"characters in position " ++ Py.of_Z (Z.of_nat start) ++ $"-"
            ++ Py.of_Z (Z.of_nat (start + List.length run) - 1)
     end
  ++ $": " ++ reason.

End Codec.

(** The code points UTF-8 does not encode: the surrogates. *)
Definition unencodable (c : N) : bool :=
  match Utf8.encode_char c with Some _ => false | None => true end.

(** [html_content.encode('utf-8')] raising. *)
Definition unicode_error (s : pystr) : exn :=
  Exn $"UnicodeEncodeError"
    (Codec.error_message $"utf-8" $"surrogates not allowed" unencodable s).

(** [s.encode('latin-1', 'strict')] succeeds on the code points below
    256. *)
Definition latin1 (s : pystr) : bool := forallb (fun c => (c <? 256)%N) s.

Definition latin1_error (s : pystr) : exn :=
  Exn $"UnicodeEncodeError"
    (Codec.error_message $"latin-1" $"ordinal not in range(256)"
       (fun c => (256 <=? c)%N) s).

(** The line of a header and the status line of a response, as the
    library builds them. *)
Definition header_line (keyword value : pystr) : pystr :=
  keyword ++ $": " ++ value ++ [13%N; 10%N].

Definition status_line (code : Z) (message : pystr) : pystr :=
  $"HTTP/1.0 " ++ Py.of_Z code ++ $" " ++ message ++ [13%N; 10%N].

(** [self.send_header(keyword, value)]: the header line is encoded as
    latin-1 before it is appended to the buffer. *)
Definition self_send_header (keyword value : pystr) : M unit :=
  if latin1 (header_line keyword value) then emit (send_header keyword value)
  else lift (Raise (latin1_error (header_line keyword value))).

(** [self.send_error(code, message)]: the status line, which carries
    the message, is encoded as latin-1 before anything is sent. *)
Definition self_send_error (code : Z) (message : pystr) : M unit :=
  if latin1 (status_line code message) then emit (send_error code message)
  else lift (Raise (latin1_error (status_line code message))).

(* ===================================================================== *)
(** * [format_size] *)
(* ===================================================================== *)

(** The [float] values [format_size] computes.  [size / 1024.0] on an
    [int] converts it to binary64 (round to nearest, ties to even, 53
    bits; [OverflowError] from 2^1024 on) and scales it by 2^-10; every
    later division scales again.  Scaling a value of at least 1024 by
    2^-10 is exact, so the value is the dyadic rational
    [mant / 2^scale]. *)
Open Scope Z_scope.

Module Float.

Record float := mk { mant : Z; scale : Z }.

(** Quotient of [a] by [b > 0] rounded to nearest, ties to even. *)
Definition div_half_even (a b : Z) : Z :=
  let q := a / b in
  let r := a mod b in
  if 2 * r <? b then q
  else if b <? 2 * r then q + 1
  else if Z.even q then q else q + 1.

(** Nearest integer with at most 53 significant bits, for [n >= 0]. *)
Definition round53 (n : Z) : Z :=
  let bits := Z.log2 n + 1 in
  if bits <=? 53 then n
  else let ulp := 2 ^ (bits - 53) in div_half_even n ulp * ulp.

(** [float(n)] for an [int] [n >= 0]. *)
Definition of_int (n : Z) : outcome float :=
  let r := round53 n in
  if r <? 2 ^ 1024 then Ret (mk r 0)
  else Raise (Exn $"OverflowError" $"int too large to convert to float").

(** [x / 1024.0] *)
Definition div1024 (x : float) : float := mk (mant x) (scale x + 10).

(** [x < 1024.0] *)
Definition lt1024 (x : float) : bool := mant x <? 1024 * 2 ^ scale x.

(** The value in tenths, correctly rounded (ties to even on the exact
    binary value), as the format [.1f] prints it. *)
Definition tenths (x : float) : Z := div_half_even (10 * mant x) (2 ^ scale x).

(** [f"{x:.1f}"] for [x >= 0]. *)
Definition format_1f (x : float) : pystr :=
  Py.of_Z (tenths x / 10) ++ $"." ++ Py.of_Z (tenths x mod 10).

End Float.

(** The iterations of the loop of [format_size] after the first one:
    there [size] is a [float] and [unit] is not ['B']. *)
Fixpoint format_size_units (units : list pystr) (size : Float.float) : pystr :=
  match units with
  | [] => Float.format_1f size ++ $" PB"
  | unit :: units' =>
      if Float.lt1024 size then Float.format_1f size ++ $" " ++ unit
      else format_size_units units' (Float.div1024 size)
  end.

(** [format_size(size)] for an [int]: in the first iteration ([unit] is
    ['B']) [size] is still the [int], printed as it is; [size /= 1024.0]
    then makes it a [float]. *)
Definition format_size (size : Z) : outcome pystr :=
  if size <? 1024 then Ret (Py.of_Z size ++ $" " ++ $"B")
  else
    match Float.of_int size with
    | Ret x => Ret (format_size_units [$"KB"; $"MB"; $"GB"; $"TB"] (Float.div1024 x))
    | Raise e => Raise e
    end.

(* ===================================================================== *)
(** * The world of the handler *)
(* ===================================================================== *)

Inductive file_kind := Directory | RegularFile | Special.

(** [st_mtime], left to [datetime.fromtimestamp] to interpret. *)
Definition timestamp : Type := Z.

(** What [os.stat(path)] (which follows symbolic links) reports. *)
Record stat_result := mk_stat {
  st_kind : file_kind;
  st_size : Z;
  st_mtime : timestamp
}.

(** An open binary file: the bytes that can be read, and the error that
    strikes once they are consumed, if any. *)
Record file := mk_file {
  data : bytes;
  read_error : option exn
}.

(** The file system as one request sees it. *)
Record FileSystem := {
  os_stat : pystr -> outcome stat_result;
  os_listdir : pystr -> outcome (list pystr);
  open_rb : pystr -> outcome file;
  getcwd : pystr
}.

(** The module-level variables read from the environment. *)
Record Config := {
  SERVE_DIRECTORY : pystr;
  BASE_PATH : pystr;
  BUFFER_SIZE : Z
}.

(** Library functions that are tables or depend on the locale. *)
Record Library := {
  guess_type : pystr -> option pystr;       (* mimetypes.guess_type(p)[0] *)
  lower : pystr -> pystr;                   (* str.lower *)
  strftime_local : timestamp -> outcome pystr;
    (* datetime.fromtimestamp(t).strftime('%Y-%m-%d %H:%M:%S') *)
  format_exc : exn -> pystr;                (* traceback.format_exc() *)
  (* the messages of the exceptions of datetime are ASCII *)
  strftime_error_latin1 :
    forall t e, strftime_local t = Raise e -> latin1 (exn_str e) = true
}.

(** The dict built for each child in [serve_directory]. *)
Record Item := mk_item {
  name : pystr;
  path : pystr;
  is_dir : bool;
  size : Z;
  mtime : timestamp
}.

(** [f.read(n)] on a buffered binary file: the chunk and the file after
    it.  A size below -1 is refused, -1 reads to the end of the file. *)
Definition f_read (f : file) (n : Z) : outcome (bytes * file) :=
  if n <? -1
  then Raise (Exn $"ValueError" $"read length must be non-negative or -1")
  else if n =? 0 then Ret ([], f)
  else match data f with
       | [] => match read_error f with
               | Some e => Raise e
               | None => Ret ([], f)
               end
       | _ :: _ =>
           if n <? 0 then Ret (data f, mk_file [] (read_error f))
           else Ret (firstn (Z.to_nat n) (data f),
                     mk_file (skipn (Z.to_nat n) (data f)) (read_error f))
       end.

Definition quoted (s : pystr) : pystr := [Py.dquote] ++ s ++ [Py.dquote].

Section Handler.

Variable cfg : Config.
Variable fs : FileSystem.
Variable lib : Library.

(** [os.path.isdir] and [os.path.isfile]: [os.stat], [False] on error. *)
Definition isdir (p : pystr) : bool :=
  match os_stat fs p with
  | Ret st => match st_kind st with Directory => true | _ => false end
  | Raise _ => false
  end.

Definition isfile (p : pystr) : bool :=
  match os_stat fs p with
  | Ret st => match st_kind st with RegularFile => true | _ => false end
  | Raise _ => false
  end.

(** [os.path.getsize] *)
Definition getsize (p : pystr) : outcome Z :=
  match os_stat fs p with
  | Ret st => Ret (st_size st)
  | Raise e => Raise e
  end.

(** ** [serve_file] *)

(** The [while True] loop of [serve_file]; its value is [bytes_sent]. *)
Equations? send_chunks (f : file) (bytes_sent : Z) : M Z
  by wf (List.length (data f)) lt :=
send_chunks f bytes_sent with inspect (f_read f (BUFFER_SIZE cfg)) := {
  | exist _ (Raise e) _ => lift (Raise e)
  | exist _ (Ret ([], _)) _ => ret bytes_sent
  | exist _ (Ret (c :: cs, f')) Hread =>
      emit (wfile_write (c :: cs)) ;;
      send_chunks f' (bytes_sent + Py.len (c :: cs))
  }.
Proof.
  (* a chunk that is not empty shortens what is left of the file *)
  revert Hread. unfold f_read.
  destruct (BUFFER_SIZE cfg <? -1) eqn:Hlow; [discriminate|].
  destruct (BUFFER_SIZE cfg =? 0) eqn:Hn0; [discriminate|].
  destruct (data f) as [|d ds] eqn:Hd.
  - destruct (read_error f); discriminate.
  - destruct (BUFFER_SIZE cfg <? 0) eqn:Hneg; intros H; inversion H; subst;
      cbn [data].
    + simpl; lia.
    + apply Z.eqb_neq in Hn0. apply Z.ltb_ge in Hneg.
      rewrite length_skipn. simpl List.length. lia.
Qed.

(** The [except] clause of [serve_file]. *)
Definition serve_file_except (file_path : pystr) (e : exn) : M unit :=
  emit (logger ERROR ($"Error serving file " ++ file_path ++ $": "
                      ++ exn_str e ++ [10%N] ++ format_exc lib e)) ;;
  self_send_error 500 ($"Error serving file: " ++ exn_str e).

(** [content_type] after [if not content_type]. *)
Definition content_type_of (file_path : pystr) : pystr :=
  match guess_type lib file_path with
  | Some ((_ :: _) as t) => t
  | _ => $"application/octet-stream"
  end.

Definition served_file_message (file_path : pystr) (bytes_sent : Z) : pystr :=
  $"Successfully served file: " ++ file_path ++ $" ("
  ++ Py.of_Z bytes_sent ++ $" bytes)".

(** The value of the [Content-Disposition] header. *)
Definition content_disposition (file_path : pystr) : pystr :=
  $"inline; filename=" ++ quoted (PosixPath.basename file_path).

(** The calls of [serve_file] up to the end of the headers. *)
Definition file_headers (file_path : pystr) (file_size : Z) : list call :=
  [ send_response 200;
    send_header $"Content-Type" (content_type_of file_path);
    send_header $"Content-Length" (Py.of_Z file_size);
    send_header $"Content-Disposition" (content_disposition file_path);
    end_headers ].

(** The [with open(...)] block of [serve_file] and the line after it. *)
Definition send_content (file_path : pystr) : M unit :=
  f <- lift (open_rb fs file_path) ;;
  bytes_sent <- send_chunks f 0 ;;
  emit (logger INFO (served_file_message file_path bytes_sent)).

Definition serve_file (file_path : pystr) : M unit :=
  try_except
    (file_size <- lift (getsize file_path) ;;
     let content_type := content_type_of file_path in
     emit (send_response 200) ;;
     self_send_header $"Content-Type" content_type ;;
     self_send_header $"Content-Length" (Py.of_Z file_size) ;;
     self_send_header $"Content-Disposition" (content_disposition file_path) ;;
     emit end_headers ;;
     send_content file_path)
    (serve_file_except file_path).

(** ** [generate_directory_html] *)

(** The lines from the doctype to the header row of the table;
    [url_path] already ends with a slash. *)
Definition html_head (url_path : pystr) : list pystr :=
  [ $"<!DOCTYPE html>";
    $"<html>";
    $"<head>";
    $"<meta charset=" ++ quoted $"utf-8" ++ $">";
    $"<title>Directory listing for " ++ Html.escape url_path ++ $"</title>";
    $"<style>";
    $"body { font-family: monospace; margin: 20px; }";
    $"table { border-collapse: collapse; }";
    $"th, td { padding: 5px 15px; text-align: left; }";
    $"th { background-color: #f0f0f0; border-bottom: 2px solid #ddd; }";
    $"tr:hover { background-color: #f5f5f5; }";
    $"a { text-decoration: none; color: #0066cc; }";
    $"a:hover { text-decoration: underline; }";
    $".dir { font-weight: bold; }";
    $".size { text-align: right; }";
    $"</style>";
    $"</head>";
    $"<body>";
    $"<h1>Directory listing for " ++ Html.escape url_path ++ $"</h1>";
    $"<table>";
    $"<tr><th>Name</th><th>Size</th><th>Last Modified</th></tr>" ].

(** [parent_path] of the parent-directory link. *)
Definition parent_path (url_path : pystr) : pystr :=
  let parent_path := PosixPath.dirname (Py.rstrip PosixPath.sep url_path) in
  if negb (Py.endswith parent_path [PosixPath.sep])
  then parent_path ++ [PosixPath.sep] else parent_path.

Definition parent_row (url_path : pystr) : pystr :=
  $"<tr><td colspan=" ++ quoted $"3" ++ $"><a href="
  ++ quoted (BASE_PATH cfg ++ parent_path url_path)
  ++ $">[Parent Directory]</a></td></tr>".

(** The lines that are a parent-directory link. *)
Definition is_parent_row (line : pystr) : bool :=
  Py.startswith line $"<tr><td colspan=".

(** The parent-directory link, when there is one. *)
Definition parent_rows (url_path : pystr) : list pystr :=
  if negb (Py.eqb url_path $"/")
     && negb (Py.eqb (Py.rstrip PosixPath.sep url_path) [])
  then [parent_row url_path] else [].

(** The first cell of a row: the link to the entry. *)
Definition name_html (url_path : pystr) (item : Item) : pystr :=
  let name := Html.escape (name item) in
  if is_dir item then
    $"<a href=" ++ quoted (BASE_PATH cfg ++ url_path ++ name ++ $"/")
    ++ $" class=" ++ quoted $"dir" ++ $">" ++ name ++ $"/</a>"
  else
    $"<a href=" ++ quoted (BASE_PATH cfg ++ url_path ++ name)
    ++ $">" ++ name ++ $"</a>".

Definition table_row (name_html size_html mtime : pystr) : pystr :=
  $"<tr><td>" ++ name_html ++ $"</td><td class=" ++ quoted $"size" ++ $">"
  ++ size_html ++ $"</td><td>" ++ mtime ++ $"</td></tr>".

(** The body of the loop over [items]: the row of one entry. *)
Definition item_row (url_path : pystr) (item : Item) : M pystr :=
  size_html <- (if is_dir item then ret $"&lt;DIR&gt;"
                else lift (format_size (size item))) ;;
  mtime <- lift (strftime_local lib (mtime item)) ;;
  ret (table_row (name_html url_path item) size_html mtime).

Fixpoint item_rows (url_path : pystr) (items : list Item) : M (list pystr) :=
  match items with
  | [] => ret []
  | item :: items' =>
      row <- item_row url_path item ;;
      rows <- item_rows url_path items' ;;
      ret (row :: rows)
  end.

Definition html_foot (items : list Item) : list pystr :=
  [ $"</table>";
    $"<hr>";
    $"<p>" ++ Py.of_Z (Py.len items) ++ $" items</p>";
    $"</body>";
    $"</html>" ].

(** [if not url_path.endswith('/'): url_path += '/'] *)
Definition with_slash (url_path : pystr) : pystr :=
  if negb (Py.endswith url_path $"/") then url_path ++ $"/" else url_path.

(** The list [html_parts] at the end of [generate_directory_html]. *)
Definition html_parts (items : list Item) (url_path : pystr) : M (list pystr) :=
  let url_path := with_slash url_path in
  rows <- item_rows url_path items ;;
  ret (html_head url_path ++ parent_rows url_path ++ rows ++ html_foot items).

Definition generate_directory_html (items : list Item) (url_path : pystr)
  : M pystr :=
  parts <- html_parts items url_path ;;
  ret (Py.join [10%N] parts).

(** ** [serve_directory] *)

(** The key of [items.sort]: [(not x['is_dir'], x['name'].lower())]. *)
Definition sort_key (x : Item) : bool * pystr :=
  (negb (is_dir x), lower lib (name x)).

(** The entries whose key is [k]. *)
Definition has_key (k : bool * pystr) (x : Item) : bool :=
  Bool.eqb (fst k) (fst (sort_key x)) && Py.eqb (snd k) (snd (sort_key x)).

(** [a < b] on these tuples: the first components when they differ
    ([False < True]), the second ones otherwise. *)
Definition key_ltb (a b : bool * pystr) : bool :=
  if Bool.eqb (fst a) (fst b) then Py.ltb (snd a) (snd b)
  else negb (fst a) && fst b.

(** [list.sort(key=...)] is stable: an element goes before the first one
    that its key does not exceed. *)
Fixpoint sort_insert (x : Item) (l : list Item) : list Item :=
  match l with
  | [] => [x]
  | y :: l' =>
      if key_ltb (sort_key y) (sort_key x) then y :: sort_insert x l'
      else x :: l
  end.

Definition sort_items (items : list Item) : list Item :=
  fold_right sort_insert [] items.

(** The loop over [os.listdir(dir_path)]. *)
Fixpoint stat_children (dir_path : pystr) (children : list pystr)
    (items : list Item) : M (list Item) :=
  match children with
  | [] => ret items
  | item :: children' =>
      let item_path := PosixPath.join dir_path item in
      items' <-
        try_except
          (stat <- lift (os_stat fs item_path) ;;
           ret (items ++ [ {| name := item;
                              path := item_path;
                              is_dir := isdir item_path;
                              size := st_size stat;
                              mtime := st_mtime stat |} ]))
          (fun e =>
             emit (logger WARNING ($"Failed to stat " ++ item_path ++ $": "
                                   ++ exn_str e)) ;;
             ret items) ;;
      stat_children dir_path children' items'
  end.

(** What the loop leaves in [items]: an entry for each child that
    [os.stat] accepts, in the order of [os.listdir]. *)
Definition listed_item (dir_path item : pystr) : list Item :=
  let item_path := PosixPath.join dir_path item in
  match os_stat fs item_path with
  | Ret stat => [ {| name := item;
                     path := item_path;
                     is_dir := isdir item_path;
                     size := st_size stat;
                     mtime := st_mtime stat |} ]
  | Raise _ => []
  end.

Definition listed_items (dir_path : pystr) (children : list pystr) : list Item :=
  flat_map (listed_item dir_path) children.

(** What the loop logs: a warning for each child that [os.stat] refuses. *)
Definition stat_warning (dir_path item : pystr) : list call :=
  let item_path := PosixPath.join dir_path item in
  match os_stat fs item_path with
  | Ret _ => []
  | Raise e => [logger WARNING ($"Failed to stat " ++ item_path ++ $": "
                                ++ exn_str e)]
  end.

Definition stat_warnings (dir_path : pystr) (children : list pystr) : list call :=
  flat_map (stat_warning dir_path) children.

Definition stat_succeeds (dir_path item : pystr) : bool :=
  match os_stat fs (PosixPath.join dir_path item) with
  | Ret _ => true
  | Raise _ => false
  end.

(** The order of the listing: a directory before anything that is not
    one, and within a group the lower-cased names in lexicographic
    order. *)
Definition dirs_first_then_name (a b : Item) : Prop :=
  (is_dir a = true /\ is_dir b = false)
  \/ (is_dir a = is_dir b
      /\ Py.leb (lower lib (name a)) (lower lib (name b)) = true).

(** [html_content.encode('utf-8')] *)
Definition encode_utf8 (s : pystr) : outcome bytes :=
  match Utf8.encode s with
  | Some b => Ret b
  | None => Raise (unicode_error s)
  end.

(** The [except] clause of [serve_directory]. *)
Definition serve_directory_except (dir_path : pystr) (e : exn) : M unit :=
  emit (logger ERROR ($"Error serving directory " ++ dir_path ++ $": "
                      ++ exn_str e ++ [10%N] ++ format_exc lib e)) ;;
  self_send_error 500 ($"Error listing directory: " ++ exn_str e).

Definition served_directory_message (dir_path : pystr) (items : list Item)
  : pystr :=
  $"Successfully served directory listing for: " ++ dir_path ++ $" ("
  ++ Py.of_Z (Py.len items) ++ $" items)".

Definition serve_directory (dir_path url_path : pystr) : M unit :=
  try_except
    (children <- lift (os_listdir fs dir_path) ;;
     items <- stat_children dir_path children [] ;;
     let items := sort_items items in
     html_content <- generate_directory_html items url_path ;;
     emit (send_response 200) ;;
     self_send_header $"Content-Type" $"text/html; charset=utf-8" ;;
     encoded <- lift (encode_utf8 html_content) ;;
     self_send_header $"Content-Length" (Py.of_Z (Py.len encoded)) ;;
     emit end_headers ;;
     body <- lift (encode_utf8 html_content) ;;
     emit (wfile_write body) ;;
     emit (logger INFO (served_directory_message dir_path items)))
    (serve_directory_except dir_path).

(** ** [do_GET] *)

(** The request path after unquoting, stripping of the base path and of
    the query string: [parsed_path] where [full_path] is computed. *)
Definition parse_path (request_path : pystr) : pystr :=
  let parsed_path := Urllib.unquote request_path in
  let parsed_path :=
    if Py.startswith parsed_path (BASE_PATH cfg)
    then skipn (List.length (BASE_PATH cfg)) parsed_path else parsed_path in
  let parsed_path :=
    if negb (Py.startswith parsed_path $"/")
    then $"/" ++ parsed_path else parsed_path in
  hd [] (Py.split (Py.ch "?") parsed_path).

Definition full_path_of (parsed_path : pystr) : pystr :=
  PosixPath.normpath
    (PosixPath.join (SERVE_DIRECTORY cfg) (Py.lstrip PosixPath.sep parsed_path)).

(** The security check of [do_GET]. *)
Definition within_serve_directory (full_path : pystr) : bool :=
  Py.startswith full_path (PosixPath.abspath (getcwd fs) (SERVE_DIRECTORY cfg)).

(** The [except] clause of [do_GET]. *)
Definition do_GET_except (request_path : pystr) (e : exn) : M unit :=
  emit (logger ERROR ($"Error handling GET request for " ++ request_path
                      ++ $": " ++ exn_str e ++ [10%N] ++ format_exc lib e)) ;;
  self_send_error 500 ($"Internal server error: " ++ exn_str e).

(** What that clause adds to the calls of a handler that ended as [o]. *)
Definition rescue (request_path : pystr) (o : outcome unit) : list call :=
  match o with
  | Ret _ => []
  | Raise e => trace (do_GET_except request_path e)
  end.

Definition do_GET (request_path : pystr) : M unit :=
  try_except
    (let parsed_path := parse_path request_path in
     let full_path := full_path_of parsed_path in
     if negb (within_serve_directory full_path) then
       emit (logger WARNING ($"Attempted access outside serve directory: "
                             ++ full_path)) ;;
       self_send_error 403 $"Access denied"
     else
       emit (logger INFO ($"Processing request for: " ++ parsed_path
                          ++ $" -> " ++ full_path)) ;;
       if isdir full_path then serve_directory full_path parsed_path
       else if isfile full_path then serve_file full_path
       else
         emit (logger WARNING ($"Path not found: " ++ full_path)) ;;
         self_send_error 404 $"File not found")
    (do_GET_except request_path).

End Handler.

(* ===================================================================== *)
(** * A sample deployment *)
(* ===================================================================== *)

(** The defaults of the module-level variables, a small tree under
    [/withings] and a sibling directory [/withings2], used to run the
    handler on concrete requests. *)
Module Sample.

Definition cfg : Config :=
  {| SERVE_DIRECTORY := $"/withings";
     BASE_PATH := $"/wt";
     BUFFER_SIZE := 1024 * 1024 |}.

(** The same with [BUFFER_SIZE=4] in the environment. *)
Definition cfg4 : Config :=
  {| SERVE_DIRECTORY := $"/withings";
     BASE_PATH := $"/wt";
     BUFFER_SIZE := 4 |}.

(** A relative [SERVE_DIRECTORY]. *)
Definition cfg_relative : Config :=
  {| SERVE_DIRECTORY := $"withings";
     BASE_PATH := $"/wt";
     BUFFER_SIZE := 1024 * 1024 |}.

Fixpoint assoc {A} (tbl : list (pystr * A)) (k : pystr) : option A :=
  match tbl with
  | [] => None
  | (k', v) :: tbl' => if Py.eqb k k' then Some v else assoc tbl' k
  end.

Definition ENOENT : exn := Exn $"FileNotFoundError" $"[Errno 2] No such file or directory".
Definition EACCES : exn := Exn $"PermissionError" $"[Errno 13] Permission denied".
Definition ENOTDIR : exn := Exn $"NotADirectoryError" $"[Errno 20] Not a directory".

Definition hello : bytes :=
  map Utf8.byte_of_N $"hello, world".

(** A directory whose name holds markup: q, a double quote, then [><b>]. *)
Definition odd_name : pystr := $"q" ++ [Py.dquote] ++ $"><b>".
Definition odd_dir : pystr := $"/withings/" ++ odd_name.

Definition stat_table : list (pystr * stat_result) :=
  [ ($"/withings", mk_stat Directory 4096 1700000000);
    ($"/withings/b.txt", mk_stat RegularFile 12 1700000100);
    ($"/withings/A", mk_stat Directory 4096 1700000200);
    ($"/withings/<b>.txt", mk_stat RegularFile 1536 1700000300);
    ($"/withings/sub", mk_stat Directory 4096 1700000400);
    ($"/withings/sub/x.json", mk_stat RegularFile 1073741824 1700000500);
    ($"/withings/locked.bin", mk_stat RegularFile 12 1700000600);
    (odd_dir, mk_stat Directory 4096 1700000900);
    (odd_dir ++ $"/n.txt", mk_stat RegularFile 0 1700001000);
    ($"/withings2", mk_stat Directory 4096 1700000700);
    ($"/withings2/secret.txt", mk_stat RegularFile 12 1700000800) ].

(** [ghost] is a dangling symbolic link: listed, but [os.stat] fails. *)
Definition listdir_table : list (pystr * list pystr) :=
  [ ($"/withings", [$"b.txt"; $"ghost"; $"sub"; $"<b>.txt"; $"A"; $"locked.bin";
                    odd_name]);
    (odd_dir, [$"n.txt"]);
    ($"/withings/A", []);
    ($"/withings/sub", [$"x.json"]);
    ($"/withings2", [$"secret.txt"]) ].

Definition open_table : list (pystr * outcome file) :=
  [ ($"/withings/b.txt", Ret (mk_file hello None));
    ($"/withings/locked.bin", Raise EACCES);
    ($"/withings2/secret.txt", Ret (mk_file hello None)) ].

Definition fs : FileSystem :=
  {| os_stat := fun p => match assoc stat_table p with
                         | Some st => Ret st
                         | None => Raise ENOENT
                         end;
     os_listdir := fun p => match assoc listdir_table p with
                            | Some l => Ret l
                            | None => Raise ENOTDIR
                            end;
     open_rb := fun p => match assoc open_table p with
                         | Some f => f
                         | None => Raise ENOENT
                         end;
     getcwd := $"/" |}.

(** [str.lower] on ASCII letters. *)
Definition ascii_lower (s : pystr) : pystr :=
  map (fun c => if (65 <=? c)%N && (c <=? 90)%N then (c + 32)%N else c) s.

(** A MIME table with two extensions. *)
Definition guess (p : pystr) : option pystr :=
  if Py.endswith p $".txt" then Some $"text/plain"
  else if Py.endswith p $".json" then Some $"application/json"
  else None.

(** Timestamps before the epoch are refused, the others are printed as
    a count of seconds. *)
Definition strftime (t : timestamp) : outcome pystr :=
  if t <? 0 then Raise (Exn $"ValueError" $"year out of range")
  else Ret ($"T+" ++ Py.of_Z t).

Definition strftime_raises_ascii t e :
  strftime t = Raise e -> latin1 (exn_str e) = true :=
  if t <? 0 as b
     return ((if b then Raise (Exn $"ValueError" $"year out of range")
              else Ret ($"T+" ++ Py.of_Z t)) = Raise e
             -> latin1 (exn_str e) = true)
  then fun H => match H in _ = o
                      return match o with
                             | Raise e' => latin1 (exn_str e') = true
                             | Ret _ => True
                             end
                with eq_refl => eq_refl
                end
  else fun H => match match H in _ = o
                            return match o with
                                   | Raise _ => False
                                   | Ret _ => True
                                   end
                      with eq_refl => I
                      end
                with end.

Definition lib : Library :=
  {| guess_type := guess;
     lower := ascii_lower;
     strftime_local := strftime;
     format_exc := fun _ => $"Traceback (most recent call last): ...";
     strftime_error_latin1 := strftime_raises_ascii |}.

(** The listing of the root that the sample deployment renders. *)
Definition root_items : list Item :=
  sort_items lib (listed_items fs $"/withings"
    [$"b.txt"; $"ghost"; $"sub"; $"<b>.txt"; $"A"; $"locked.bin"; odd_name]).

Definition root_html : pystr :=
  match result (generate_directory_html cfg lib root_items $"/") with
  | Ret html_content => html_content
  | Raise _ => []
  end.

Definition root_body : bytes :=
  match Utf8.encode root_html with Some b => b | None => [] end.

(** The lines of the listing of [/withings/sub]. *)
Definition sub_items : list Item :=
  sort_items lib (listed_items fs $"/withings/sub" [$"x.json"]).

Definition sub_parts : list pystr :=
  match result (html_parts cfg lib sub_items $"/sub/") with
  | Ret parts => parts
  | Raise _ => []
  end.

End Sample.

(* ===================================================================== *)
(** * The size formatter in the words of the specification *)
(* ===================================================================== *)

(** Iterate the units, dividing by 1024 while the value is at least
    1024; the value is an exact rational here, where the code has a
    [float]. *)
Module Spec.

(** One decimal place: the nearest tenth (ties to the even one). *)
Definition one_decimal (v : Q) : pystr :=
  let t := Float.div_half_even (10 * Qnum v) (Zpos (Qden v)) in
  Py.of_Z (t / 10) ++ $"." ++ Py.of_Z (t mod 10).

Fixpoint format_units (units : list pystr) (v : Q) : pystr :=
  match units with
  | [] => one_decimal v ++ $" PB"
  | unit :: units' =>
      if Qle_bool 1024 v then format_units units' (v / 1024)
      else (if Py.eqb unit $"B" then Py.of_Z (Qfloor v) else one_decimal v)
           ++ $" " ++ unit
  end.

Definition format_size (n : Z) : pystr :=
  format_units [$"B"; $"KB"; $"MB"; $"GB"; $"TB"] (inject_Z n).

(** The rational [v] is the value of the float [x]. *)
Definition represents (x : Float.float) (v : Q) : Prop :=
  0 <= Float.scale x
  /\ Qnum v * 2 ^ Float.scale x = Float.mant x * Zpos (Qden v).

(** A normalized path lies inside the root when it is the root or
    continues it after a separator: the containment test on whole path
    components. *)
Definition path_inside (root p : pystr) : bool :=
  Py.eqb p root
  || Py.startswith p (if Py.endswith root [PosixPath.sep] then root
                      else root ++ [PosixPath.sep]).

End Spec.

(* ===================================================================== *)
(** * Start-up: [setup_logging] and [main] *)
(* ===================================================================== *)

(** The module-level variables that the handler does not read. *)
Record ServerConfig := {
  SERVER_PORT : Z;
  BIND_ADDRESS : pystr;
  LOG_FILE : pystr
}.

(** What can end a block at start-up: [sys.exit] and Ctrl+C are not
    instances of [Exception]. *)
Inductive raised :=
| Exception (e : exn)
| KeyboardInterrupt
| SystemExit (code : Z).

Inductive ending (A : Type) :=
| Done (a : A)
| Raised (r : raised).
Arguments Done {A} a.
Arguments Raised {A} r.

(** [logging.StreamHandler(sys.stdout)] and [logging.FileHandler(f)]. *)
Inductive log_handler :=
| StreamHandler
| FileHandler (filename : pystr).

(** What start-up does to the outside, in order. *)
Inductive startup_call :=
| set_level (l : level)                      (* logger.setLevel *)
| add_handler (h : log_handler)              (* logger.addHandler *)
| os_makedirs (p : pystr)                    (* os.makedirs *)
| log_line (l : level) (msg : pystr)         (* logger.info, logger.error *)
| http_server (address : pystr) (port : Z)   (* HTTPServer((address, port), ...) *)
| serve_forever                              (* server.serve_forever() *)
| socket_close.                              (* server.socket.close() *)

(** The machine at start-up: its name, whether the log directory can be
    made and the log file opened, how the construction of the server
    ends ([Done] when the socket is bound and listens) and how
    [serve_forever] ends ([Done] after a shutdown; requests are answered
    inside it and their failures do not leave it). *)
Record Host := {
  gethostname : pystr;
  makedirs : pystr -> outcome unit;
  open_log : pystr -> outcome unit;
  bind_server : ending unit;
  serving : ending unit
}.

(** A computation at start-up: the calls made, and how it ends. *)
Definition P (A : Type) : Type := list startup_call * ending A.

Definition retP {A} (a : A) : P A := ([], Done a).

Definition bindP {A B} (m : P A) (k : A -> P B) : P B :=
  match m with
  | (t, Done a) => let (t', r) := k a in (t ++ t', r)
  | (t, Raised r) => (t, Raised r)
  end.

Definition callP (c : startup_call) : P unit := ([c], Done tt).

Definition raiseP {A} (r : raised) : P A := ([], Raised r).

(** A library call of the handler's world, at start-up. *)
Definition liftP {A} (o : outcome A) : P A :=
  match o with
  | Ret a => ([], Done a)
  | Raise e => ([], Raised (Exception e))
  end.

(** [try: body  except KeyboardInterrupt: h1  except Exception as e: h2 e
    finally: final].  A handler runs for what the body raised; what a
    handler raises is caught by no clause; [final] runs in every case. *)
Definition try_statement {A} (body : P A) (on_interrupt : P A)
    (on_exception : exn -> P A) (final : P unit) : P A :=
  let handled :=
    match body with
    | (t, Done a) => (t, Done a)
    | (t, Raised KeyboardInterrupt) =>
        let (t', r) := on_interrupt in (t ++ t', r)
    | (t, Raised (Exception e)) =>
        let (t', r) := on_exception e in (t ++ t', r)
    | (t, Raised (SystemExit c)) => (t, Raised (SystemExit c))
    end in
  match handled, final with
  | (t, r), (t', Done _) => (t ++ t', r)
  | (t, _), (t', Raised r') => (t ++ t', Raised r')
  end.

Declare Scope startup_scope.
Delimit Scope startup_scope with startup.
Notation "x <- m ;; k" := (bindP m (fun x => k))
  (at level 61, m at next level, right associativity) : startup_scope.
Notation "m ;; k" := (bindP m (fun _ => k))
  (at level 61, right associativity) : startup_scope.

(** [os.path.exists]: [os.stat], [False] on error. *)
Definition path_exists (fs : FileSystem) (p : pystr) : bool :=
  match os_stat fs p with Ret _ => true | Raise _ => false end.

Section Startup.

Variable cfg : Config.
Variable scfg : ServerConfig.
Variable fs : FileSystem.
Variable lib : Library.
Variable host : Host.

Local Open Scope startup_scope.

(** ** [setup_logging] *)

(** The [try] block of [setup_logging]. *)
Definition create_file_handler : P unit :=
  let log_dir := PosixPath.dirname (LOG_FILE scfg) in
  (if negb (Py.eqb log_dir []) && negb (path_exists fs log_dir)
   then callP (os_makedirs log_dir) ;; liftP (makedirs host log_dir)
   else retP tt) ;;
  liftP (open_log host (LOG_FILE scfg)) ;;
  callP (add_handler (FileHandler (LOG_FILE scfg))).

Definition setup_logging : P unit :=
  callP (set_level INFO) ;;
  callP (add_handler StreamHandler) ;;
  match create_file_handler with
  | (t, Raised (Exception e)) =>
      (t ++ [log_line ERROR ($"Failed to create log file at " ++ LOG_FILE scfg
                             ++ $": " ++ exn_str e)], Done tt)
  | other => other
  end.

(** ** [main] *)

Definition banner : pystr := repeat (Py.ch "=") 60.

(** The lines logged before the checks of the served root. *)
Definition start_lines : list startup_call :=
  [ log_line INFO banner;
    log_line INFO $"Starting HTTP File Server";
    log_line INFO ($"Serving directory: " ++ SERVE_DIRECTORY cfg);
    log_line INFO ($"Server port: " ++ Py.of_Z (SERVER_PORT scfg));
    log_line INFO ($"Bind address: " ++ BIND_ADDRESS scfg);
    log_line INFO ($"Base URL path: " ++ BASE_PATH cfg);
    log_line INFO banner ].

(** The lines of the [finally] clause. *)
Definition final_lines : list startup_call :=
  [ log_line INFO banner;
    log_line INFO $"File server terminated";
    log_line INFO banner ].

(** The lines logged once the server exists, and the call that serves. *)
Definition serving_lines : list startup_call :=
  [ log_line INFO ($"Server started successfully on " ++ BIND_ADDRESS scfg
                   ++ $":" ++ Py.of_Z (SERVER_PORT scfg));
    log_line INFO ($"Access the server at: http://" ++ gethostname host
                   ++ $":" ++ Py.of_Z (SERVER_PORT scfg) ++ BASE_PATH cfg);
    log_line INFO $"Press Ctrl+C to stop the server";
    serve_forever ].

(** The [try] block of [main] up to the assignment of [server]. *)
Definition main_start : P unit :=
  callP (log_line INFO banner) ;;
  callP (log_line INFO $"Starting HTTP File Server") ;;
  callP (log_line INFO ($"Serving directory: " ++ SERVE_DIRECTORY cfg)) ;;
  callP (log_line INFO ($"Server port: " ++ Py.of_Z (SERVER_PORT scfg))) ;;
  callP (log_line INFO ($"Bind address: " ++ BIND_ADDRESS scfg)) ;;
  callP (log_line INFO ($"Base URL path: " ++ BASE_PATH cfg)) ;;
  callP (log_line INFO banner) ;;
  (if negb (path_exists fs (SERVE_DIRECTORY cfg)) then
     callP (log_line ERROR ($"Serve directory does not exist: "
                            ++ SERVE_DIRECTORY cfg)) ;;
     callP (log_line ERROR
              $"Please create the directory or update SERVE_DIRECTORY variable") ;;
     raiseP (SystemExit 1)
   else retP tt) ;;
  (if negb (isdir fs (SERVE_DIRECTORY cfg)) then
     callP (log_line ERROR ($"Serve path is not a directory: "
                            ++ SERVE_DIRECTORY cfg)) ;;
     raiseP (SystemExit 1)
   else retP tt) ;;
  callP (http_server (BIND_ADDRESS scfg) (SERVER_PORT scfg)) ;;
  (nil, bind_server host).

(** The rest of the [try] block. *)
Definition main_serve : P unit :=
  callP (log_line INFO ($"Server started successfully on " ++ BIND_ADDRESS scfg
                        ++ $":" ++ Py.of_Z (SERVER_PORT scfg))) ;;
  callP (log_line INFO ($"Access the server at: http://" ++ gethostname host
                        ++ $":" ++ Py.of_Z (SERVER_PORT scfg)
                        ++ BASE_PATH cfg)) ;;
  callP (log_line INFO $"Press Ctrl+C to stop the server") ;;
  callP serve_forever ;;
  (nil, serving host).

Definition unbound_server : exn :=
  Exn $"UnboundLocalError"
    $"cannot access local variable 'server' where it is not associated with a value".

Definition interrupt_line : startup_call :=
  log_line INFO ([10%N] ++ $"Received interrupt signal, shutting down server...").

Definition failed_line (e : exn) : startup_call :=
  log_line ERROR ($"Failed to start server: " ++ exn_str e ++ [10%N]
                  ++ format_exc lib e).

(** [except KeyboardInterrupt]: [server] is a local variable of [main],
    assigned by the construction of the server. *)
Definition main_interrupted (server_assigned : bool) : P unit :=
  callP interrupt_line ;;
  (if server_assigned then callP socket_close
   else raiseP (Exception unbound_server)) ;;
  callP (log_line INFO $"Server stopped successfully").

(** [except Exception as e] *)
Definition main_failed (e : exn) : P unit :=
  callP (failed_line e) ;;
  raiseP (SystemExit 1).

(** [finally] *)
Definition main_finally : P unit :=
  callP (log_line INFO banner) ;;
  callP (log_line INFO $"File server terminated") ;;
  callP (log_line INFO banner).

Definition main : P unit :=
  let server_assigned :=
    match main_start with (_, Done _) => true | _ => false end in
  try_statement (main_start ;; main_serve)
    (main_interrupted server_assigned) main_failed main_finally.

End Startup.

(** The defaults of the other module-level variables, and a few
    machines. *)
Module SampleHost.

Definition scfg : ServerConfig :=
  {| SERVER_PORT := 7200;
     BIND_ADDRESS := $"0.0.0.0";
     LOG_FILE := $"/var/log/file_server.log" |}.

(** The server runs until Ctrl+C. *)
Definition host : Host :=
  {| gethostname := $"sidecar";
     makedirs := fun _ => Ret tt;
     open_log := fun _ => Ret tt;
     bind_server := Done tt;
     serving := Raised KeyboardInterrupt |}.

Definition EADDRINUSE : exn := Exn $"OSError" $"[Errno 98] Address already in use".

(** The port is taken, and [/var/log] cannot be written. *)
Definition busy_host : Host :=
  {| gethostname := $"sidecar";
     makedirs := fun _ => Raise Sample.EACCES;
     open_log := fun _ => Raise Sample.EACCES;
     bind_server := Raised (Exception EADDRINUSE);
     serving := Raised KeyboardInterrupt |}.

(** Ctrl+C arrives while the server is constructed. *)
Definition hasty_host : Host :=
  {| gethostname := $"sidecar";
     makedirs := fun _ => Ret tt;
     open_log := fun _ => Ret tt;
     bind_server := Raised KeyboardInterrupt;
     serving := Raised KeyboardInterrupt |}.

(** A configuration whose served root is a regular file. *)
Definition cfg_file_root : Config :=
  {| SERVE_DIRECTORY := $"/withings/b.txt";
     BASE_PATH := $"/wt";
     BUFFER_SIZE := 1024 * 1024 |}.

End SampleHost.

(* ===================================================================== *)
(** * Vocabulary of the further properties *)
(* ===================================================================== *)

(** The calls on the response, without those on the logger: what the
    client is sent. *)
Definition responses (t : list call) : list call :=
  filter (fun c => negb (is_log c)) t.

(** The calls that start a response. *)
Definition starts_response (c : call) : bool :=
  match c with
  | send_response _ | send_error _ _ => true
  | _ => false
  end.

(** The status codes of [serve_directory] and [serve_file]. *)
Definition serving_status (c : call) : Prop :=
  match c with
  | send_response code => code = 200
  | send_error code _ => code = 500
  | _ => True
  end.

(** A path component that [normpath] keeps in an absolute path. *)
Definition plain_component (c : pystr) : Prop :=
  c <> [] /\ c <> $"." /\ c <> $".." /\ ~ In PosixPath.sep c.

(** [initial_slashes] of [normpath]. *)
Definition initial_slashes (path : pystr) : nat :=
  if Py.startswith path [PosixPath.sep] then
    if Py.startswith path [PosixPath.sep; PosixPath.sep]
       && negb (Py.startswith path [PosixPath.sep; PosixPath.sep; PosixPath.sep])
    then 2%nat else 1%nat
  else 0%nat.

(** The components that [normpath] does not skip. *)
Definition kept_component (c : pystr) : bool :=
  negb (Py.eqb c [] || Py.eqb c $".").

(** An entry whose row can be rendered: the size of a file converts to
    a [float] and the timestamp formats. *)
Definition row_renders (lib : Library) (item : Item) : bool :=
  (is_dir item || (Float.round53 (size item) <? 2 ^ 1024))
  && match strftime_local lib (mtime item) with
     | Ret _ => true
     | Raise _ => false
     end.

(** The item with an empty name in the place of its own. *)
Definition unnamed (item : Item) : Item :=
  {| name := [];
     path := path item;
     is_dir := is_dir item;
     size := size item;
     mtime := mtime item |}.

(** The sample deployment with faults: a file whose disk fails after
    twelve bytes, a directory that cannot be read, a file name that is
    not UTF-8, a file dated before the epoch, and a file and a
    directory whose names hold the euro sign, U+20AC. *)
Module SampleFaults.

Definition EIO : exn := Exn $"OSError" $"[Errno 5] Input/output error".

(** A Latin-1 name: [os.listdir] returns its byte E9 as the lone
    surrogate U+DCE9. *)
Definition latin1_name : pystr := $"caf" ++ [0xDCE9%N] ++ $".txt".

Definition euro_name : pystr := [0x20AC%N] ++ $".txt".

(** The directory whose name is the euro sign followed by [sealed]. *)
Definition euro_sealed : pystr := $"/withings/" ++ [0x20AC%N] ++ $"sealed".

(** [str(e)] of the [PermissionError] of [os.listdir] names the path. *)
Definition EACCES_euro_sealed : exn :=
  Exn $"PermissionError"
    ($"[Errno 13] Permission denied: '" ++ euro_sealed ++ $"'").

Definition stat_table : list (pystr * stat_result) :=
  [ ($"/withings/worn.bin", mk_stat RegularFile 4096 1700002000);
    ($"/withings/uni", mk_stat Directory 4096 1700002600);
    ($"/withings/uni/" ++ euro_name, mk_stat RegularFile 12 1700002700);
    (euro_sealed, mk_stat Directory 4096 1700002800);
    ($"/withings/sealed", mk_stat Directory 4096 1700002100);
    ($"/withings/legacy", mk_stat Directory 4096 1700002200);
    ($"/withings/legacy/" ++ latin1_name, mk_stat RegularFile 7 1700002300);
    ($"/withings/old", mk_stat Directory 4096 1700002400);
    ($"/withings/old/a.txt", mk_stat RegularFile 7 (-86400)) ].

Definition listdir_table : list (pystr * list pystr) :=
  [ ($"/withings/uni", [euro_name]);
    ($"/withings/legacy", [latin1_name; $"gone"]);
    ($"/withings/old", [$"a.txt"; $"gone"]) ].

Definition fs : FileSystem :=
  {| os_stat := fun p => match Sample.assoc stat_table p with
                         | Some st => Ret st
                         | None => os_stat Sample.fs p
                         end;
     os_listdir := fun p => if Py.eqb p $"/withings/sealed"
                            then Raise Sample.EACCES
                            else if Py.eqb p euro_sealed
                            then Raise EACCES_euro_sealed
                            else match Sample.assoc listdir_table p with
                                 | Some l => Ret l
                                 | None => os_listdir Sample.fs p
                                 end;
     open_rb := fun p => if Py.eqb p $"/withings/worn.bin"
                         then Ret (mk_file Sample.hello (Some EIO))
                         else if Py.eqb p ($"/withings/uni/" ++ euro_name)
                         then Ret (mk_file Sample.hello None)
                         else open_rb Sample.fs p;
     getcwd := $"/" |}.

(** [BUFFER_SIZE=0] and [BUFFER_SIZE=-1] in the environment. *)
Definition cfg0 : Config :=
  {| SERVE_DIRECTORY := $"/withings";
     BASE_PATH := $"/wt";
     BUFFER_SIZE := 0 |}.

Definition cfg_negative : Config :=
  {| SERVE_DIRECTORY := $"/withings";
     BASE_PATH := $"/wt";
     BUFFER_SIZE := -1 |}.

(** [BUFFER_SIZE=-2] *)
Definition cfg_minus_two : Config :=
  {| SERVE_DIRECTORY := $"/withings";
     BASE_PATH := $"/wt";
     BUFFER_SIZE := -2 |}.

End SampleFaults.

(* ===================================================================== *)
(** * The models on concrete inputs *)
(* ===================================================================== *)

Example split_ex :
  Py.split (Py.ch "?") $"/a/b?x=1?y" = [$"/a/b"; $"x=1"; $"y"].
Proof. reflexivity. Qed.

Example of_Z_ex : Py.of_Z 0 = $"0" /\ Py.of_Z 1023 = $"1023" /\ Py.of_Z (-5) = $"-5".
Proof. repeat split. Qed.

Example rstrip_ex : Py.rstrip (Py.ch "/") $"/a/b//" = $"/a/b".
Proof. reflexivity. Qed.

Example utf8_encode_ex :
  Utf8.encode_N [0x41; 0xE9; 0x20AC; 0x1F600]%N
  = Some [0x41; 0xC3; 0xA9; 0xE2; 0x82; 0xAC; 0xF0; 0x9F; 0x98; 0x80]%N.
Proof. reflexivity. Qed.

Example utf8_decode_ex :
  Utf8.decode_replace [0x41; 0xC3; 0xA9; 0xE2; 0x82; 0xAC; 0xF0; 0x9F; 0x98; 0x80]%N
  = [0x41; 0xE9; 0x20AC; 0x1F600]%N
  /\ Utf8.decode_replace [0xFF; 0x41; 0xE2; 0x82; 0x42; 0xC3]%N
     = [0xFFFD; 0x41; 0xFFFD; 0x42; 0xFFFD]%N.
Proof. split; reflexivity. Qed.

Example unquote_ex :
  Urllib.unquote $"/wt/%2e%2E/a%20b%zz%" = $"/wt/../a b%zz%"
  /\ Urllib.unquote $"/caf%C3%A9" = $"/caf" ++ [0xE9%N]
  /\ Urllib.unquote $"/x%ffy" = $"/x" ++ [0xFFFD%N] ++ $"y".
Proof. repeat split. Qed.

Example escape_ex :
  Html.escape $"<b>.txt" = $"&lt;b&gt;.txt"
  /\ Html.escape ($"a&b" ++ [Py.dquote] ++ $"c'd") = $"a&amp;b&quot;c&#x27;d".
Proof. split; reflexivity. Qed.

Example normpath_ex :
  PosixPath.normpath $"/withings/../withings2/x" = $"/withings2/x"
  /\ PosixPath.normpath $"/withings/" = $"/withings"
  /\ PosixPath.normpath $"//a/./b/../../../c" = $"//c"
  /\ PosixPath.normpath $"///a//b/" = $"/a/b"
  /\ PosixPath.normpath $"a/../../b" = $"../b"
  /\ PosixPath.normpath $"./" = $".".
Proof. repeat split. Qed.

Example dirname_ex :
  PosixPath.dirname $"/a/b" = $"/a"
  /\ PosixPath.dirname $"/a" = $"/"
  /\ PosixPath.dirname $"/a//b" = $"/a"
  /\ PosixPath.dirname $"//a" = $"//"
  /\ PosixPath.dirname $"a" = $""
  /\ PosixPath.basename $"/withings/sub/f.txt" = $"f.txt".
Proof. repeat split. Qed.

Example format_size_ex :
  format_size 1048575 = Ret $"1024.0 KB"
  /\ format_size 1280 = Ret $"1.2 KB"
  /\ format_size 1792 = Ret $"1.8 KB"
  /\ format_size (2 ^ 63 - 1) = Ret $"8192.0 PB"
  /\ format_size (-1) = Ret $"-1 B".
Proof. repeat split. Qed.

(* ===================================================================== *)
(** * [format_size] *)
(* ===================================================================== *)

Section FormatSize.

Import Float.

Lemma div_half_even_scale a b c :
  0 < b -> 0 < c -> div_half_even (c * a) (c * b) = div_half_even a b.
Proof.
  intros Hb Hc. unfold div_half_even.
  rewrite Z.div_mul_cancel_l by lia.
  rewrite Zmult_mod_distr_l.
  pose proof (Z.mod_pos_bound a b Hb) as Hr.
  set (r := a mod b) in *. set (q := a / b).
  destruct (2 * r <? b) eqn:E1, (2 * (c * r) <? c * b) eqn:E1';
    try reflexivity;
    try (apply Z.ltb_lt in E1); try (apply Z.ltb_ge in E1);
    try (apply Z.ltb_lt in E1'); try (apply Z.ltb_ge in E1'); try nia.
  destruct (b <? 2 * r) eqn:E2, (c * b <? 2 * (c * r)) eqn:E2';
    try reflexivity;
    try (apply Z.ltb_lt in E2); try (apply Z.ltb_ge in E2);
    try (apply Z.ltb_lt in E2'); try (apply Z.ltb_ge in E2'); nia.
Qed.

(** The rounded quotient is a nearest integer. *)
Lemma div_half_even_nearest a b :
  0 < b -> 2 * Z.abs (a - div_half_even a b * b) <= b.
Proof.
  intros Hb. unfold div_half_even.
  pose proof (Z.mod_pos_bound a b Hb) as Hr.
  pose proof (Z.div_mod a b ltac:(lia)) as Hdm.
  set (r := a mod b) in *. set (q := a / b) in *.
  destruct (2 * r <? b) eqn:E1.
  - apply Z.ltb_lt in E1. nia.
  - apply Z.ltb_ge in E1. destruct (b <? 2 * r) eqn:E2.
    + apply Z.ltb_lt in E2. nia.
    + apply Z.ltb_ge in E2. destruct (Z.even q); nia.
Qed.

Local Abbreviation represents := Spec.represents.

Lemma represents_tenths x v :
  represents x v ->
  div_half_even (10 * Qnum v) (Zpos (Qden v)) = tenths x.
Proof.
  intros [Hs H]. unfold tenths.
  assert (HP : 0 < 2 ^ scale x) by (apply Z.pow_pos_nonneg; lia).
  rewrite <- (div_half_even_scale (10 * Qnum v) (b := Zpos (Qden v)) (c := 2 ^ scale x))
    by lia.
  rewrite <- (div_half_even_scale (10 * mant x) (b := 2 ^ scale x) (c := Zpos (Qden v)))
    by lia.
  f_equal; nia.
Qed.

Lemma represents_one_decimal x v :
  represents x v -> Spec.one_decimal v = format_1f x.
Proof.
  intros H. unfold Spec.one_decimal, format_1f.
  cbv zeta. rewrite (represents_tenths H). reflexivity.
Qed.

Lemma represents_div1024 x v :
  represents x v -> represents (div1024 x) (v / 1024)%Q.
Proof.
  intros [Hs H]. split; cbn [div1024 scale mant]; [lia|].
  rewrite Z.pow_add_r by lia.
  change (Qnum (v / 1024)%Q) with (Qnum v * 1).
  change (Zpos (Qden (v / 1024)%Q)) with (Zpos (Qden v * 1024)).
  rewrite Pos2Z.inj_mul. change (2 ^ 10) with 1024.
  change (Zpos 1024) with 1024. nia.
Qed.

Lemma represents_lt1024 x v :
  represents x v -> Qle_bool 1024 v = negb (lt1024 x).
Proof.
  intros [Hs H]. unfold Qle_bool, lt1024.
  change (Qnum 1024%Q) with 1024. change (Zpos (Qden 1024%Q)) with 1.
  assert (HP : 0 < 2 ^ scale x) by (apply Z.pow_pos_nonneg; lia).
  destruct (mant x <? 1024 * 2 ^ scale x) eqn:E; cbn [negb].
  - apply Z.ltb_lt in E. apply Z.leb_gt. nia.
  - apply Z.ltb_ge in E. apply Z.leb_le. nia.
Qed.

(** From the second unit on, the loop of the code and the iteration of
    the specification agree on a float and the rational it stands for. *)
Lemma format_size_units_spec units :
  Forall (fun u => Py.eqb u $"B" = false) units ->
  forall x v, represents x v ->
  format_size_units units x = Spec.format_units units v.
Proof.
  induction 1 as [|u units Hu Hus IH]; intros x v Hxv; cbn [format_size_units Spec.format_units].
  - now rewrite (represents_one_decimal Hxv).
  - rewrite (represents_lt1024 Hxv).
    destruct (lt1024 x); cbn [negb].
    + now rewrite Hu, (represents_one_decimal Hxv).
    + apply IH. now apply represents_div1024.
Qed.

Lemma round53_small n : n < 2 ^ 53 -> round53 n = n.
Proof.
  intros Hn. unfold round53.
  destruct (Z.log2 n + 1 <=? 53) eqn:E; [reflexivity|].
  apply Z.leb_gt in E.
  assert (0 < n) by (destruct n; simpl in E; lia).
  assert (Z.log2 n < 53) by (apply Z.log2_lt_pow2; lia).
  lia.
Qed.

Lemma round53_lower n : 1024 <= n -> 1024 <= round53 n.
Proof.
  intros Hn. unfold round53.
  destruct (Z.log2 n + 1 <=? 53) eqn:E; [assumption|].
  apply Z.leb_gt in E.
  set (k := Z.log2 n + 1 - 53). assert (Hk : 0 < k) by lia.
  assert (HP : 0 < 2 ^ k) by (apply Z.pow_pos_nonneg; lia).
  pose proof (div_half_even_nearest n HP) as Hnear.
  pose proof (Z.log2_spec n ltac:(lia)) as [Hlo _].
  replace (Z.log2 n) with (52 + k) in Hlo by lia.
  rewrite Z.pow_add_r in Hlo by lia.
  assert (2 ^ 52 = 4503599627370496) by reflexivity.
  nia.
Qed.

Lemma format_units_cons u us v :
  Spec.format_units (u :: us) v
  = if Qle_bool 1024 v then Spec.format_units us (v / 1024)%Q
    else (if Py.eqb u $"B" then Py.of_Z (Qfloor v) else Spec.one_decimal v)
         ++ $" " ++ u.
Proof. reflexivity. Qed.

(** [format_size] computes what the specification describes, on the
    value that the conversion to [float] keeps of [n]. *)
Lemma format_size_refines n :
  round53 n < 2 ^ 1024 ->
  format_size n = Ret (Spec.format_size (round53 n)).
Proof.
  intros Hov. unfold format_size, Spec.format_size.
  rewrite format_units_cons.
  destruct (n <? 1024) eqn:E.
  - apply Z.ltb_lt in E.
    rewrite round53_small by (assert (1024 < 2 ^ 53) by reflexivity; lia).
    assert (Hq : Qle_bool 1024 (inject_Z n) = false).
    { unfold Qle_bool. cbn. apply Z.leb_gt. lia. }
    rewrite Hq. cbn [Py.eqb]. rewrite Qfloor_Z. reflexivity.
  - apply Z.ltb_ge in E. pose proof (round53_lower E) as Hlow.
    unfold of_int. destruct (round53 n <? 2 ^ 1024) eqn:E2;
      [|apply Z.ltb_ge in E2; lia].
    assert (Hq : Qle_bool 1024 (inject_Z (round53 n)) = true).
    { unfold Qle_bool. cbn. apply Z.leb_le. lia. }
    rewrite Hq. f_equal.
    apply format_size_units_spec.
    + repeat constructor.
    + apply (represents_div1024 (x := mk (round53 n) 0)).
      split; cbn; lia.
Qed.

Lemma of_Z_digit d :
  0 <= d <= 9 -> Py.of_Z d = [Z.to_N (48 + d)].
Proof.
  intros H.
  assert (d = 0 \/ d = 1 \/ d = 2 \/ d = 3 \/ d = 4 \/ d = 5 \/ d = 6
          \/ d = 7 \/ d = 8 \/ d = 9) as Hd by lia.
  repeat (destruct Hd as [-> | Hd]; [reflexivity|]). now subst.
Qed.

Lemma div_half_even_nonneg a b : 0 <= a -> 0 < b -> 0 <= div_half_even a b.
Proof.
  intros Ha Hb. unfold div_half_even.
  pose proof (Z.div_pos a b Ha Hb).
  destruct (2 * (a mod b) <? b); [assumption|].
  destruct (b <? 2 * (a mod b)); [lia|].
  destruct (Z.even (a / b)); lia.
Qed.

(** One decimal place: an integer part, a point, one digit; and the
    number printed is a nearest tenth of the value. *)
Lemma one_decimal_shape v :
  0 <= Qnum v ->
  exists i d,
    0 <= i /\ 0 <= d <= 9
    /\ Spec.one_decimal v = Py.of_Z i ++ $"." ++ [Z.to_N (48 + d)]
    /\ 2 * Z.abs (10 * Qnum v - (10 * i + d) * Zpos (Qden v)) <= Zpos (Qden v).
Proof.
  intros Hv. unfold Spec.one_decimal. cbv zeta.
  set (t := div_half_even (10 * Qnum v) (Zpos (Qden v))).
  assert (Ht : 0 <= t) by (apply div_half_even_nonneg; lia).
  exists (t / 10), (t mod 10).
  pose proof (Z.mod_pos_bound t 10 ltac:(lia)) as Hm.
  split; [apply Z.div_pos; lia|]. split; [lia|]. split.
  - rewrite (of_Z_digit (d := t mod 10)) by lia. reflexivity.
  - rewrite <- Z.div_mod by lia.
    apply div_half_even_nearest. lia.
Qed.

End FormatSize.

(** C2. [format_size] follows the specification: from [B] to [TB] it
    divides by 1024 while the value is at least 1024 and stops at the
    first unit where it is below; a count of bytes is printed as the
    integer, a value in a larger unit, or in [PB] after [TB], with one
    decimal place.  The value is the byte count itself below 2^53 and
    the nearest [float] above, as long as that conversion does not
    overflow.  One decimal place is an integer part, a point and one
    digit, the nearest tenth of the value.  The four sizes of the
    specification print as it says. *)
Theorem format_size_follows_spec :
  (forall n, Float.round53 n < 2 ^ 1024 ->
             format_size n = Ret (Spec.format_size (Float.round53 n)))
  /\ (forall n, n < 2 ^ 53 -> Float.round53 n = n)
  /\ (forall v, 0 <= Qnum v ->
        exists i d,
          0 <= i /\ 0 <= d <= 9
          /\ Spec.one_decimal v = Py.of_Z i ++ $"." ++ [Z.to_N (48 + d)]
          /\ 2 * Z.abs (10 * Qnum v - (10 * i + d) * Zpos (Qden v))
             <= Zpos (Qden v))
  /\ format_size 0 = Ret $"0 B"
  /\ format_size 1023 = Ret $"1023 B"
  /\ format_size 1536 = Ret $"1.5 KB"
  /\ format_size 1073741824 = Ret $"1.0 GB".
Proof.
  split; [exact format_size_refines|].
  split; [exact round53_small|].
  split; [exact one_decimal_shape|].
  repeat split.
Qed.

Lemma format_size_follows_spec_witness :
  Float.round53 1536 < 2 ^ 1024
  /\ format_size 1536 = Ret (Spec.format_size (Float.round53 1536)).
Proof.
  assert (H : Float.round53 1536 < 2 ^ 1024) by (vm_compute; reflexivity).
  split; [exact H | exact (proj1 format_size_follows_spec 1536 H)].
Defined.

(** Beyond the range of [float], the division raises. *)
Lemma format_size_overflow n :
  2 ^ 1024 <= Float.round53 n ->
  format_size n
  = Raise (Exn $"OverflowError" $"int too large to convert to float").
Proof.
  intros H. unfold format_size, Float.of_int.
  destruct (n <? 1024) eqn:E.
  - apply Z.ltb_lt in E.
    rewrite round53_small in H
      by (assert (1024 < 2 ^ 53) by reflexivity; lia).
    assert (1024 < 2 ^ 1024) by reflexivity. lia.
  - destruct (Float.round53 n <? 2 ^ 1024) eqn:E2; [|reflexivity].
    apply Z.ltb_lt in E2. lia.
Qed.

(* ===================================================================== *)
(** * The order on [str] *)
(* ===================================================================== *)

Lemma py_eqb_eq a b : Py.eqb a b = true <-> a = b.
Proof.
  revert b. induction a as [|x a IH]; intros [|y b]; cbn; try easy.
  unfold Py.char_eqb. rewrite andb_true_iff, N.eqb_eq, IH.
  split; [intros [-> ->]; reflexivity | intros H; inversion H; auto].
Qed.

Lemma py_eqb_refl a : Py.eqb a a = true.
Proof. now apply py_eqb_eq. Qed.

Lemma py_eqb_neq a b : Py.eqb a b = false <-> a <> b.
Proof.
  rewrite <- py_eqb_eq. destruct (Py.eqb a b); split; congruence.
Qed.

Lemma py_ltb_irrefl a : Py.ltb a a = false.
Proof.
  induction a as [|x a IH]; cbn; [reflexivity|].
  rewrite N.ltb_irrefl, N.eqb_refl, IH. reflexivity.
Qed.

Lemma py_ltb_trans a b c :
  Py.ltb a b = true -> Py.ltb b c = true -> Py.ltb a c = true.
Proof.
  revert b c. induction a as [|x a IH]; intros [|y b] [|z c]; cbn; try easy.
  rewrite !orb_true_iff, !andb_true_iff, !N.ltb_lt, !N.eqb_eq.
  intros [Hxy | [Hxy Hab]] [Hyz | [Hyz Hbc]].
  - left; lia.
  - left; lia.
  - left; lia.
  - right; split; [lia | eauto].
Qed.

Lemma py_ltb_connex a b :
  Py.ltb a b = false -> Py.ltb b a = false -> a = b.
Proof.
  revert b. induction a as [|x a IH]; intros [|y b]; cbn; try easy.
  rewrite !orb_false_iff, !andb_false_iff, !N.ltb_ge, !N.eqb_neq.
  intros [Hxy H1] [Hyx H2].
  assert (x = y) by lia. subst y.
  f_equal. apply IH; [destruct H1 | destruct H2]; congruence.
Qed.

Lemma py_ltb_asym a b : Py.ltb a b = true -> Py.ltb b a = false.
Proof.
  intros H. destruct (Py.ltb b a) eqn:E; [|reflexivity].
  pose proof (py_ltb_trans _ _ _ H E) as Hc.
  now rewrite py_ltb_irrefl in Hc.
Qed.

Lemma py_leb_total a b : Py.leb a b = true \/ Py.leb b a = true.
Proof.
  unfold Py.leb. destruct (Py.ltb b a) eqn:E; [right | left; reflexivity].
  now rewrite (py_ltb_asym _ _ E).
Qed.

Lemma py_leb_trans a b c :
  Py.leb a b = true -> Py.leb b c = true -> Py.leb a c = true.
Proof.
  unfold Py.leb. rewrite !negb_true_iff. intros Hba Hcb.
  destruct (Py.ltb c a) eqn:Hca; [|reflexivity].
  destruct (Py.ltb a b) eqn:Hab.
  - now rewrite (py_ltb_trans _ _ _ Hca Hab) in Hcb.
  - rewrite (py_ltb_connex _ _ Hab Hba) in Hca. congruence.
Qed.

(* ===================================================================== *)
(** * [items.sort]: a sorted permutation *)
(* ===================================================================== *)

Section Sorting.

Variable lib : Library.

Local Abbreviation le := (dirs_first_then_name lib).
Local Abbreviation key := (sort_key lib).

(** An element is not moved behind another one unless its key is
    strictly greater: [key_ltb] is the negation of the listing order. *)
Lemma key_ltb_false x y :
  key_ltb (key y) (key x) = false <-> le x y.
Proof.
  unfold key_ltb, sort_key, dirs_first_then_name, Py.leb; cbn [fst snd].
  destruct (is_dir x), (is_dir y); cbn;
    rewrite ?negb_true_iff; intuition congruence.
Qed.

Lemma key_ltb_true x y :
  key_ltb (key y) (key x) = true -> le y x.
Proof.
  unfold key_ltb, sort_key, dirs_first_then_name, Py.leb; cbn [fst snd].
  destruct (is_dir x), (is_dir y); cbn; intros H; try discriminate;
    auto; right; split; auto; now rewrite (py_ltb_asym _ _ H).
Qed.

Lemma listing_order_trans x y z : le x y -> le y z -> le x z.
Proof.
  unfold dirs_first_then_name.
  intros [[Hx Hy] | [Hxy Lxy]] [[Hy' Hz] | [Hyz Lyz]]; try congruence.
  - left; split; congruence.
  - left; split; congruence.
  - right; split; [congruence | eapply py_leb_trans; eauto].
Qed.

Lemma sort_insert_perm x l : Permutation (x :: l) (sort_insert lib x l).
Proof.
  induction l as [|y l IH]; cbn; [reflexivity|].
  destruct (key_ltb (key y) (key x)); [|reflexivity].
  rewrite perm_swap. now constructor.
Qed.

Lemma sort_insert_sorted x l :
  StronglySorted le l -> StronglySorted le (sort_insert lib x l).
Proof.
  induction 1 as [|y l Hl IH Hy]; cbn.
  - repeat constructor.
  - destruct (key_ltb (key y) (key x)) eqn:E.
    + constructor; [assumption|].
      apply (Permutation_Forall (sort_insert_perm x l)).
      constructor; [now apply key_ltb_true | assumption].
    + apply key_ltb_false in E.
      constructor; [now constructor|].
      constructor; [assumption|].
      eapply Forall_impl; [|exact Hy].
      intros z Hz. eapply listing_order_trans; eauto.
Qed.

Lemma sort_items_perm items : Permutation items (sort_items lib items).
Proof.
  induction items as [|x items IH]; cbn; [constructor|].
  rewrite <- sort_insert_perm. now constructor.
Qed.

Lemma sort_items_sorted items : StronglySorted le (sort_items lib items).
Proof.
  induction items as [|x items IH]; cbn; [constructor|].
  now apply sort_insert_sorted.
Qed.

(** Stability: entries with equal keys keep their order, so the sort is
    the one [list.sort] computes. *)
Lemma has_key_ltb k x y :
  has_key lib k x = true -> has_key lib k y = true -> key_ltb (key y) (key x) = false.
Proof.
  unfold has_key, key_ltb. rewrite !andb_true_iff, !eqb_true_iff, !py_eqb_eq.
  intros [H1 H2] [H3 H4]. rewrite <- H1, <- H3, <- H2, <- H4.
  rewrite eqb_reflx. apply py_ltb_irrefl.
Qed.

Lemma sort_insert_filter k x l :
  filter (has_key lib k) (sort_insert lib x l) = filter (has_key lib k) (x :: l).
Proof.
  induction l as [|y l IH]; [reflexivity|].
  cbn [sort_insert]. destruct (key_ltb (key y) (key x)) eqn:E; [|reflexivity].
  cbn [filter] in *. rewrite IH.
  destruct (has_key lib k x) eqn:Hx, (has_key lib k y) eqn:Hy; try reflexivity.
  now rewrite (has_key_ltb _ _ _ Hx Hy) in E.
Qed.

(** The sort of the listing is stable: the entries that share a key
    (the same kind and the same lower-cased name) come out in the order
    in which they went in, that of [os.listdir]. *)
Lemma sort_items_stable k items :
  filter (has_key lib k) (sort_items lib items) = filter (has_key lib k) items.
Proof.
  induction items as [|x items IH]; [reflexivity|].
  cbn [sort_items fold_right]. rewrite sort_insert_filter.
  cbn [filter]. fold (sort_items lib items). now rewrite IH.
Qed.

End Sorting.

(* ===================================================================== *)
(** * Running the handler *)
(* ===================================================================== *)

Lemma bind_ret {A B} t (a : A) (k : A -> M B) :
  bind (t, Ret a) k = (t ++ fst (k a), snd (k a)).
Proof. cbn. now destruct (k a). Qed.

Lemma bind_raise {A B} t e (k : A -> M B) :
  bind (t, Raise e) k = (t, Raise e).
Proof. reflexivity. Qed.

Lemma bind_lift {A B} (o : outcome A) (k : A -> M B) :
  bind (lift o) k = match o with Ret a => k a | Raise e => ([], Raise e) end.
Proof. destruct o; cbn; [now destruct (k a) | reflexivity]. Qed.

Lemma bind_emit {B} c (k : unit -> M B) :
  bind (emit c) k = (c :: fst (k tt), snd (k tt)).
Proof. cbn. now destruct (k tt). Qed.

Lemma Ret_inj {A} (a b : A) : Ret a = Ret b -> a = b.
Proof. congruence. Qed.

Lemma pair_eta {A B} (p : A * B) : p = (fst p, snd p).
Proof. now destruct p. Qed.

Lemma try_except_ret {A} t (a : A) h : try_except (t, Ret a) h = (t, Ret a).
Proof. reflexivity. Qed.

Lemma try_except_raise {A} t e (h : exn -> M A) :
  try_except (t, Raise e) h = (t ++ fst (h e), snd (h e)).
Proof. cbn. now destruct (h e). Qed.

(** ** Lines that latin-1 encodes *)

Lemma latin1_app a b : latin1 (a ++ b) = latin1 a && latin1 b.
Proof. apply forallb_app. Qed.

Lemma latin1_lit s : latin1 (Py.lit s) = true.
Proof.
  unfold latin1, Py.lit. apply forallb_forall. intros c Hc.
  apply in_map_iff in Hc. destruct Hc as (a & <- & _).
  apply N.ltb_lt, N_ascii_bounded.
Qed.

Lemma latin1_of_Z n : latin1 (Py.of_Z n) = true.
Proof. apply latin1_lit. Qed.

Lemma latin1_header_line k v :
  latin1 (header_line (Py.lit k) v) = latin1 v.
Proof.
  unfold header_line. rewrite !latin1_app, !latin1_lit.
  change (latin1 [13%N; 10%N]) with true. now rewrite andb_true_r.
Qed.

Lemma latin1_status_line code message :
  latin1 (status_line code message) = latin1 message.
Proof.
  unfold status_line. rewrite !latin1_app, !latin1_lit, latin1_of_Z.
  change (latin1 [13%N; 10%N]) with true. now rewrite andb_true_r.
Qed.

Lemma latin1_hex w n : latin1 (Codec.hex w n) = true.
Proof.
  revert n. induction w as [|w IH]; intros n; [reflexivity|].
  cbn [Codec.hex]. rewrite latin1_app, IH. cbn [andb latin1 forallb].
  rewrite andb_true_r. apply N.ltb_lt. unfold Codec.hex_digit.
  pose proof (N.mod_lt n 16 ltac:(discriminate)) as Hlt.
  destruct (n mod 16 <? 10)%N; lia.
Qed.

(** The message of a [UnicodeEncodeError] is ASCII: it shows the code
    point escaped. *)
Lemma latin1_error_message codec reason bad s :
  latin1 (Codec.error_message (Py.lit codec) (Py.lit reason) bad s) = true.
Proof.
  unfold Codec.error_message. cbv zeta.
  rewrite !latin1_app, !latin1_lit. cbn [andb]. rewrite andb_true_r.
  match goal with
  | |- latin1 (match ?r with _ => _ end) = true => destruct r as [|c [|c' r']]
  end;
    rewrite ?latin1_app, ?latin1_lit, ?latin1_of_Z; try reflexivity.
  cbn [andb]. rewrite andb_true_r. unfold Codec.escaped.
  destruct (c <=? 255)%N; [|destruct (c <=? 65535)%N];
    now rewrite latin1_app, latin1_lit, latin1_hex.
Qed.

Lemma latin1_error_latin1 line : latin1 (exn_str (latin1_error line)) = true.
Proof. apply latin1_error_message. Qed.

Lemma unicode_error_latin1 s : latin1 (exn_str (unicode_error s)) = true.
Proof. apply latin1_error_message. Qed.

Lemma self_send_header_run k v :
  self_send_header (Py.lit k) v
  = if latin1 v then emit (send_header (Py.lit k) v)
    else lift (Raise (latin1_error (header_line (Py.lit k) v))).
Proof. unfold self_send_header. now rewrite latin1_header_line. Qed.

Lemma self_send_error_run code message :
  self_send_error code message
  = if latin1 message then emit (send_error code message)
    else lift (Raise (latin1_error (status_line code message))).
Proof. unfold self_send_error. now rewrite latin1_status_line. Qed.

(** One step of a run whose head is known. *)
Ltac run_step :=
  first [ rewrite bind_ret | rewrite bind_raise | rewrite bind_emit
        | rewrite bind_lift | rewrite try_except_ret
        | rewrite try_except_raise ];
  cbn beta iota delta [fst snd].

Ltac run := repeat run_step.

Section Running.

Variable cfg : Config.
Variable fs : FileSystem.
Variable lib : Library.

(** The loop over the children keeps those that [os.stat] accepts and
    logs a warning for each of the others. *)
Lemma stat_children_run dir_path children items :
  stat_children fs dir_path children items
  = (stat_warnings fs dir_path children,
     Ret (items ++ listed_items fs dir_path children)).
Proof.
  revert items. induction children as [|c children IH]; intros items.
  - cbn. now rewrite app_nil_r.
  - cbn [stat_children stat_warnings listed_items flat_map].
    unfold stat_warning at 1, listed_item at 1.
    destruct (os_stat fs (PosixPath.join dir_path c)) as [st|e]; cbn -[PosixPath.join].
    + rewrite IH. cbn -[PosixPath.join]. now rewrite <- app_assoc.
    + rewrite IH. reflexivity.
Qed.

Lemma listed_items_names dir_path children :
  map name (listed_items fs dir_path children)
  = filter (stat_succeeds fs dir_path) children.
Proof.
  induction children as [|c children IH]; [reflexivity|].
  cbn [listed_items flat_map filter]. rewrite map_app.
  fold (listed_items fs dir_path children). rewrite IH.
  unfold listed_item, stat_succeeds.
  now destruct (os_stat fs (PosixPath.join dir_path c)).
Qed.

Lemma stat_warnings_length dir_path children :
  List.length (stat_warnings fs dir_path children)
  = List.length (filter (fun c => negb (stat_succeeds fs dir_path c)) children).
Proof.
  induction children as [|c children IH]; [reflexivity|].
  cbn [stat_warnings flat_map filter]. rewrite length_app.
  fold (stat_warnings fs dir_path children). rewrite IH.
  unfold stat_warning, stat_succeeds.
  now destruct (os_stat fs (PosixPath.join dir_path c)).
Qed.

(** Rendering makes no call: it returns the document or raises. *)
Lemma item_row_trace url_path item : fst (item_row cfg lib url_path item) = [].
Proof.
  unfold item_row. destruct (is_dir item); cbn.
  - now destruct (strftime_local lib (mtime item)).
  - destruct (format_size (size item)); cbn; [|reflexivity].
    now destruct (strftime_local lib (mtime item)).
Qed.

Lemma item_rows_trace url_path items : fst (item_rows cfg lib url_path items) = [].
Proof.
  induction items as [|x items IH]; [reflexivity|].
  cbn [item_rows].
  rewrite (pair_eta (item_row cfg lib url_path x)), item_row_trace.
  destruct (snd (item_row cfg lib url_path x)); [|reflexivity].
  rewrite bind_ret.
  rewrite (pair_eta (item_rows cfg lib url_path items)), IH.
  now destruct (snd (item_rows cfg lib url_path items)).
Qed.

Lemma item_rows_result url_path items rows :
  snd (item_rows cfg lib url_path items) = Ret rows ->
  Forall2 (fun item row => snd (item_row cfg lib url_path item) = Ret row)
    items rows.
Proof.
  revert rows. induction items as [|x items IH]; intros rows.
  - cbn. intros H; inversion H. constructor.
  - cbn [item_rows].
    rewrite (pair_eta (item_row cfg lib url_path x)), item_row_trace.
    destruct (snd (item_row cfg lib url_path x)) as [row|] eqn:Hrow;
      [|discriminate].
    rewrite bind_ret.
    rewrite (pair_eta (item_rows cfg lib url_path items)), item_rows_trace.
    destruct (snd (item_rows cfg lib url_path items)) as [rows'|] eqn:Hrows;
      [|discriminate].
    cbn. intros H; inversion H; subst. constructor; auto.
Qed.

Lemma html_parts_run items url_path :
  html_parts cfg lib items url_path
  = ([], match snd (item_rows cfg lib (with_slash url_path) items) with
         | Ret rows =>
             Ret (html_head (with_slash url_path)
                  ++ parent_rows cfg (with_slash url_path)
                  ++ rows ++ html_foot items)
         | Raise e => Raise e
         end).
Proof.
  unfold html_parts. cbv zeta.
  rewrite (pair_eta (item_rows cfg lib (with_slash url_path) items)),
    item_rows_trace.
  destruct (snd (item_rows cfg lib (with_slash url_path) items)); reflexivity.
Qed.

Lemma generate_directory_html_run items url_path :
  generate_directory_html cfg lib items url_path
  = ([], match snd (html_parts cfg lib items url_path) with
         | Ret parts => Ret (Py.join [10%N] parts)
         | Raise e => Raise e
         end).
Proof.
  unfold generate_directory_html. rewrite html_parts_run. cbn [snd].
  now destruct (snd (item_rows cfg lib (with_slash url_path) items)).
Qed.

(** The [except] clause of [serve_directory]: the error is logged; the
    500 response is sent when latin-1 encodes its message, and
    [send_error] raises otherwise. *)
Lemma serve_directory_except_run dir_path e :
  serve_directory_except lib dir_path e
  = (logger ERROR ($"Error serving directory " ++ dir_path ++ $": "
                   ++ exn_str e ++ [10%N] ++ format_exc lib e)
     :: (if latin1 (exn_str e)
         then [send_error 500 ($"Error listing directory: " ++ exn_str e)]
         else []),
     if latin1 (exn_str e) then Ret tt
     else Raise (latin1_error
                   (status_line 500 ($"Error listing directory: " ++ exn_str e)))).
Proof.
  unfold serve_directory_except.
  rewrite self_send_error_run, latin1_app, latin1_lit. cbn [andb].
  destruct (latin1 (exn_str e)); reflexivity.
Qed.

Lemma serve_directory_except_calls dir_path e c :
  In c (fst (serve_directory_except lib dir_path e)) ->
  (exists msg, c = logger ERROR msg)
  \/ c = send_error 500 ($"Error listing directory: " ++ exn_str e).
Proof.
  rewrite serve_directory_except_run. cbn [fst].
  intros [<-|H]; [left; eauto|].
  destruct (latin1 (exn_str e)); [|contradiction].
  destruct H as [<-|[]]. now right.
Qed.

(** Every run of [serve_directory]: what is called, and how it ends, in
    each of the ways the listing can go. *)
Lemma serve_directory_run dir_path url_path :
  serve_directory cfg fs lib dir_path url_path
  = (match os_listdir fs dir_path with
     | Raise e => fst (serve_directory_except lib dir_path e)
     | Ret children =>
         let items := sort_items lib (listed_items fs dir_path children) in
         stat_warnings fs dir_path children
         ++ match snd (generate_directory_html cfg lib items url_path) with
            | Raise e => fst (serve_directory_except lib dir_path e)
            | Ret html_content =>
                match Utf8.encode html_content with
                | None =>
                    [send_response 200;
                     send_header $"Content-Type" $"text/html; charset=utf-8"]
                    ++ fst (serve_directory_except lib dir_path
                              (unicode_error html_content))
                | Some body =>
                    [send_response 200;
                     send_header $"Content-Type" $"text/html; charset=utf-8";
                     send_header $"Content-Length" (Py.of_Z (Py.len body));
                     end_headers;
                     wfile_write body;
                     logger INFO (served_directory_message dir_path items)]
                end
            end
     end,
     match os_listdir fs dir_path with
     | Raise e => snd (serve_directory_except lib dir_path e)
     | Ret children =>
         let items := sort_items lib (listed_items fs dir_path children) in
         match snd (generate_directory_html cfg lib items url_path) with
         | Raise e => snd (serve_directory_except lib dir_path e)
         | Ret html_content =>
             match Utf8.encode html_content with
             | None => snd (serve_directory_except lib dir_path
                              (unicode_error html_content))
             | Some body => Ret tt
             end
         end
     end).
Proof.
  unfold serve_directory. rewrite bind_lift.
  destruct (os_listdir fs dir_path) as [children|e].
  2:{ run. reflexivity. }
  rewrite stat_children_run. run. cbn [app].
  rewrite generate_directory_html_run. cbn [fst snd].
  destruct (snd (html_parts cfg lib _ url_path)) as [parts|e].
  2:{ run. cbn [app]. now rewrite app_nil_r. }
  run. rewrite self_send_header_run, latin1_lit. unfold encode_utf8.
  destruct (Utf8.encode (Py.join [10%N] parts)) as [body|].
  - run. rewrite self_send_header_run, latin1_of_Z. run. reflexivity.
  - run. cbn [fst snd app]. now rewrite <- app_assoc.
Qed.

Lemma stat_warnings_logs dir_path children :
  Forall (fun c => is_log c = true) (stat_warnings fs dir_path children).
Proof.
  induction children as [|c children IH]; [constructor|].
  cbn [stat_warnings flat_map]. apply Forall_app. split; [|exact IH].
  unfold stat_warning. destruct (os_stat fs (PosixPath.join dir_path c));
    repeat constructor.
Qed.

Lemma stat_warnings_no_write dir_path children b :
  ~ In (wfile_write b) (stat_warnings fs dir_path children).
Proof.
  intros H. pose proof (stat_warnings_logs dir_path children) as Hl.
  rewrite Forall_forall in Hl. now apply Hl in H.
Qed.

(** A body is written only by a listing that went through. *)
Lemma serve_directory_written dir_path url_path body :
  In (wfile_write body) (trace (serve_directory cfg fs lib dir_path url_path)) ->
  exists children html_content,
    os_listdir fs dir_path = Ret children
    /\ result (generate_directory_html cfg lib
                 (sort_items lib (listed_items fs dir_path children)) url_path)
       = Ret html_content
    /\ Utf8.encode html_content = Some body.
Proof.
  unfold trace, result. rewrite serve_directory_run. cbn [fst].
  assert (Hexc : forall e, ~ In (wfile_write body)
                             (fst (serve_directory_except lib dir_path e))).
  { intros e H. apply serve_directory_except_calls in H.
    destruct H as [[msg H]|H]; discriminate. }
  destruct (os_listdir fs dir_path) as [children|e].
  2:{ intros H. now apply Hexc in H. }
  cbv zeta. intros H. apply in_app_or in H.
  destruct H as [H|H]; [now apply stat_warnings_no_write in H|].
  exists children.
  destruct (snd (generate_directory_html cfg lib _ url_path)) as [html|e].
  2:{ now apply Hexc in H. }
  exists html. destruct (Utf8.encode html) as [b|].
  2:{ apply in_app_or in H. destruct H as [H|H]; [|now apply Hexc in H].
      cbn in H. destruct H as [H|[H|[]]]; discriminate. }
  cbn in H.
  destruct H as [H|[H|[H|[H|[H|[H|[]]]]]]]; try discriminate.
  inversion H; subst. auto.
Qed.

End Running.

(* ===================================================================== *)
(** * Directory listings *)
(* ===================================================================== *)

Section Listing.

Variable cfg : Config.
Variable fs : FileSystem.
Variable lib : Library.

(** C4. Whenever [serve_directory] writes a listing, the calls of the
    response are, in this order: status 200, [Content-Type: text/html;
    charset=utf-8], [Content-Length] with the number of bytes of the
    UTF-8 encoding of the generated document, the end of the headers,
    and that encoding as the body.  Before them come only the warnings
    about children that could not be stat'ed, after them one line in
    the log. *)
Theorem listing_response_headers dir_path url_path body :
  In (wfile_write body) (trace (serve_directory cfg fs lib dir_path url_path)) ->
  exists children html_content,
    os_listdir fs dir_path = Ret children
    /\ result (generate_directory_html cfg lib
                 (sort_items lib (listed_items fs dir_path children)) url_path)
       = Ret html_content
    /\ Utf8.encode html_content = Some body
    /\ trace (serve_directory cfg fs lib dir_path url_path)
       = stat_warnings fs dir_path children
         ++ [send_response 200;
             send_header $"Content-Type" $"text/html; charset=utf-8";
             send_header $"Content-Length" (Py.of_Z (Z.of_nat (List.length body)));
             end_headers;
             wfile_write body;
             logger INFO
               (served_directory_message dir_path
                  (sort_items lib (listed_items fs dir_path children)))].
Proof.
  intros H. destruct (serve_directory_written _ _ _ _ _ _ H)
    as (children & html & Hls & Hgen & Henc).
  exists children, html. repeat split; try assumption.
  unfold trace, result in *. rewrite serve_directory_run, Hls. cbv zeta.
  now rewrite Hgen, Henc.
Qed.

(** C3. Whenever [serve_directory] writes a listing, the document has,
    between its head (with the parent link, if any) and its foot, one
    row per entry, in the order of the entries; the entries are a
    permutation of the children of the directory that [os.stat]
    accepted, their names are those children, and they are sorted:
    directories before the others and, within each group, by
    lower-cased name in lexicographic order. *)
Theorem listing_rows_sorted dir_path url_path body :
  In (wfile_write body) (trace (serve_directory cfg fs lib dir_path url_path)) ->
  exists children items rows,
    os_listdir fs dir_path = Ret children
    /\ map name (listed_items fs dir_path children)
       = filter (stat_succeeds fs dir_path) children
    /\ Permutation (listed_items fs dir_path children) items
    /\ StronglySorted (dirs_first_then_name lib) items
    /\ Forall2 (fun item row =>
                  result (item_row cfg lib (with_slash url_path) item) = Ret row)
         items rows
    /\ List.length rows
       = List.length (filter (stat_succeeds fs dir_path) children)
    /\ Utf8.encode
         (Py.join [10%N]
            (html_head (with_slash url_path)
             ++ parent_rows cfg (with_slash url_path)
             ++ rows ++ html_foot items))
       = Some body.
Proof.
  intros H. destruct (serve_directory_written _ _ _ _ _ _ H)
    as (children & html & Hls & Hgen & Henc).
  set (items := sort_items lib (listed_items fs dir_path children)) in *.
  unfold result in Hgen.
  rewrite generate_directory_html_run, html_parts_run in Hgen. cbn [snd] in Hgen.
  destruct (snd (item_rows cfg lib (with_slash url_path) items)) as [rows|e] eqn:Hrows;
    [|discriminate].
  inversion Hgen; subst html; clear Hgen.
  pose proof (item_rows_result _ _ _ _ Hrows) as HF.
  exists children, items, rows. repeat split; try assumption.
  - apply listed_items_names.
  - apply sort_items_perm.
  - apply sort_items_sorted.
  - rewrite <- (Forall2_length HF). unfold items.
    rewrite <- (Permutation_length (sort_items_perm lib _)).
    rewrite <- listed_items_names. now rewrite length_map.
Qed.

(** The children that [os.stat] refuses leave nothing in [items]: the
    listing is the one of the directory without them. *)
Lemma listed_items_accepted dir_path children :
  listed_items fs dir_path (filter (stat_succeeds fs dir_path) children)
  = listed_items fs dir_path children
  /\ stat_warnings fs dir_path (filter (stat_succeeds fs dir_path) children) = [].
Proof.
  induction children as [|c children [IH1 IH2]]; [split; reflexivity|].
  cbn [filter listed_items flat_map].
  destruct (stat_succeeds fs dir_path c) eqn:E.
  - cbn [listed_items stat_warnings flat_map].
    fold (listed_items fs dir_path (filter (stat_succeeds fs dir_path) children)).
    fold (stat_warnings fs dir_path (filter (stat_succeeds fs dir_path) children)).
    rewrite IH1, IH2. split; [reflexivity|].
    unfold stat_warning. unfold stat_succeeds in E.
    now destruct (os_stat fs (PosixPath.join dir_path c)).
  - fold (listed_items fs dir_path (filter (stat_succeeds fs dir_path) children)).
    rewrite IH1, IH2. split; [|reflexivity].
    unfold listed_item. unfold stat_succeeds in E.
    now destruct (os_stat fs (PosixPath.join dir_path c)).
Qed.

(** C8. When the directory can be enumerated and the document of the
    children that [os.stat] accepted can be rendered and encoded, the
    response is that listing (status 200), whatever the number of
    children that [os.stat] refused: each of those only leaves a warning
    in the log, in the order of the enumeration.  The foot of the
    document gives the number of children that [os.stat] accepted,
    whether or not a parent link precedes the rows. *)
Theorem failed_stats_are_dropped dir_path url_path children html_content body :
  os_listdir fs dir_path = Ret children ->
  result (generate_directory_html cfg lib
            (sort_items lib (listed_items fs dir_path children)) url_path)
  = Ret html_content ->
  Utf8.encode html_content = Some body ->
  let accepted := filter (stat_succeeds fs dir_path) children in
  let refused := filter (fun c => negb (stat_succeeds fs dir_path c)) children in
  trace (serve_directory cfg fs lib dir_path url_path)
  = stat_warnings fs dir_path children
    ++ [send_response 200;
        send_header $"Content-Type" $"text/html; charset=utf-8";
        send_header $"Content-Length" (Py.of_Z (Z.of_nat (List.length body)));
        end_headers;
        wfile_write body;
        logger INFO
          (served_directory_message dir_path
             (sort_items lib (listed_items fs dir_path children)))]
  /\ Forall2 (fun c w =>
                exists e,
                  os_stat fs (PosixPath.join dir_path c) = Raise e
                  /\ w = logger WARNING
                           ($"Failed to stat " ++ PosixPath.join dir_path c
                            ++ $": " ++ exn_str e))
       refused (stat_warnings fs dir_path children)
  /\ exists rows,
       List.length rows = List.length accepted
       /\ html_content
          = Py.join [10%N]
              (html_head (with_slash url_path)
               ++ parent_rows cfg (with_slash url_path)
               ++ rows
               ++ [ $"</table>";
                    $"<hr>";
                    $"<p>" ++ Py.of_Z (Z.of_nat (List.length accepted))
                      ++ $" items</p>";
                    $"</body>";
                    $"</html>" ]).
Proof.
  intros Hls Hgen Henc accepted refused.
  set (items := sort_items lib (listed_items fs dir_path children)) in *.
  assert (Hlen : List.length items = List.length accepted).
  { unfold items, accepted.
    rewrite <- (Permutation_length (sort_items_perm lib _)).
    rewrite <- listed_items_names. now rewrite length_map. }
  split; [|split].
  - unfold trace, result in *. rewrite serve_directory_run, Hls. cbv zeta.
    fold items. now rewrite Hgen, Henc.
  - unfold refused. clear. induction children as [|c cs IH]; [constructor|].
    cbn [filter stat_warnings flat_map].
    unfold stat_succeeds at 1, stat_warning at 1.
    destruct (os_stat fs (PosixPath.join dir_path c)) as [st|e] eqn:E;
      cbn [negb app]; [exact IH|].
    constructor; [|exact IH]. exists e. now rewrite E.
  - unfold result in Hgen.
    rewrite generate_directory_html_run, html_parts_run in Hgen.
    cbn [snd] in Hgen.
    destruct (snd (item_rows cfg lib (with_slash url_path) items))
      as [rows|e] eqn:Hrows; [|discriminate].
    inversion Hgen; subst html_content; clear Hgen.
    exists rows. split.
    + rewrite <- Hlen. symmetry.
      exact (Forall2_length (item_rows_result _ _ _ _ Hrows)).
    + unfold html_foot, Py.len. now rewrite Hlen.
Qed.

End Listing.

(** The listing of [/withings] in the sample deployment: [ghost] cannot
    be stat'ed, the six other children are listed. *)
Lemma sample_root_is_listed :
  In (wfile_write Sample.root_body)
    (trace (serve_directory Sample.cfg Sample.fs Sample.lib $"/withings" $"/")).
Proof. vm_compute. repeat (first [left; reflexivity | right]). Qed.

Lemma listing_response_headers_witness :
  In (wfile_write Sample.root_body)
    (trace (serve_directory Sample.cfg Sample.fs Sample.lib $"/withings" $"/"))
  /\ exists children html_content,
       os_listdir Sample.fs $"/withings" = Ret children
       /\ result (generate_directory_html Sample.cfg Sample.lib
                    (sort_items Sample.lib
                       (listed_items Sample.fs $"/withings" children)) $"/")
          = Ret html_content
       /\ Utf8.encode html_content = Some Sample.root_body
       /\ trace (serve_directory Sample.cfg Sample.fs Sample.lib $"/withings" $"/")
          = stat_warnings Sample.fs $"/withings" children
            ++ [send_response 200;
                send_header $"Content-Type" $"text/html; charset=utf-8";
                send_header $"Content-Length"
                  (Py.of_Z (Z.of_nat (List.length Sample.root_body)));
                end_headers;
                wfile_write Sample.root_body;
                logger INFO
                  (served_directory_message $"/withings"
                     (sort_items Sample.lib
                        (listed_items Sample.fs $"/withings" children)))].
Proof.
  split.
  - exact sample_root_is_listed.
  - exact (listing_response_headers Sample.cfg Sample.fs Sample.lib
             $"/withings" $"/" Sample.root_body sample_root_is_listed).
Defined.

Lemma listing_rows_sorted_witness :
  In (wfile_write Sample.root_body)
    (trace (serve_directory Sample.cfg Sample.fs Sample.lib $"/withings" $"/"))
  /\ exists children items rows,
       os_listdir Sample.fs $"/withings" = Ret children
       /\ map name (listed_items Sample.fs $"/withings" children)
          = filter (stat_succeeds Sample.fs $"/withings") children
       /\ Permutation (listed_items Sample.fs $"/withings" children) items
       /\ StronglySorted (dirs_first_then_name Sample.lib) items
       /\ Forall2 (fun item row =>
                     result (item_row Sample.cfg Sample.lib (with_slash $"/") item)
                     = Ret row) items rows
       /\ List.length rows
          = List.length (filter (stat_succeeds Sample.fs $"/withings") children)
       /\ Utf8.encode
            (Py.join [10%N]
               (html_head (with_slash $"/")
                ++ parent_rows Sample.cfg (with_slash $"/")
                ++ rows ++ html_foot items))
          = Some Sample.root_body.
Proof.
  split.
  - exact sample_root_is_listed.
  - exact (listing_rows_sorted Sample.cfg Sample.fs Sample.lib
             $"/withings" $"/" Sample.root_body sample_root_is_listed).
Defined.

Lemma failed_stats_are_dropped_witness :
  os_listdir Sample.fs $"/withings"
  = Ret [$"b.txt"; $"ghost"; $"sub"; $"<b>.txt"; $"A"; $"locked.bin";
         Sample.odd_name]
  /\ result (generate_directory_html Sample.cfg Sample.lib Sample.root_items $"/")
     = Ret Sample.root_html
  /\ Utf8.encode Sample.root_html = Some Sample.root_body
  /\ trace (serve_directory Sample.cfg Sample.fs Sample.lib $"/withings" $"/")
     = stat_warnings Sample.fs $"/withings"
         [$"b.txt"; $"ghost"; $"sub"; $"<b>.txt"; $"A"; $"locked.bin";
          Sample.odd_name]
       ++ [send_response 200;
           send_header $"Content-Type" $"text/html; charset=utf-8";
           send_header $"Content-Length"
             (Py.of_Z (Z.of_nat (List.length Sample.root_body)));
           end_headers;
           wfile_write Sample.root_body;
           logger INFO
             (served_directory_message $"/withings" Sample.root_items)].
Proof.
  assert (H1 : os_listdir Sample.fs $"/withings"
               = Ret [$"b.txt"; $"ghost"; $"sub"; $"<b>.txt"; $"A";
                      $"locked.bin"; Sample.odd_name]) by reflexivity.
  assert (H2 : result (generate_directory_html Sample.cfg Sample.lib
                         Sample.root_items $"/") = Ret Sample.root_html)
    by (vm_compute; reflexivity).
  assert (H3 : Utf8.encode Sample.root_html = Some Sample.root_body)
    by (vm_compute; reflexivity).
  split; [exact H1|]. split; [exact H2|]. split; [exact H3|].
  exact (proj1 (failed_stats_are_dropped Sample.cfg Sample.fs Sample.lib
                  $"/withings" $"/" H1 H2 H3)).
Defined.

(* ===================================================================== *)
(** * Streaming a file *)
(* ===================================================================== *)

Section Streaming.

Variable cfg : Config.
Variable fs : FileSystem.
Variable lib : Library.

Lemma f_read_chunk f n :
  0 < n -> read_error f = None ->
  f_read f n
  = Ret (firstn (Z.to_nat n) (data f),
         mk_file (skipn (Z.to_nat n) (data f)) None).
Proof.
  intros Hn He. unfold f_read.
  destruct (n <? -1) eqn:Elow; [apply Z.ltb_lt in Elow; lia|].
  destruct (n =? 0) eqn:E0; [apply Z.eqb_eq in E0; lia|].
  destruct (data f) as [|d ds] eqn:Hd.
  - rewrite He, firstn_nil, skipn_nil. destruct f; cbn in *. now subst.
  - destruct (n <? 0) eqn:E1; [apply Z.ltb_lt in E1; lia|].
    now rewrite He.
Qed.

(** The loop, one iteration at a time. *)
Lemma send_chunks_step f bytes_sent :
  send_chunks cfg f bytes_sent
  = match f_read f (BUFFER_SIZE cfg) with
    | Raise e => lift (Raise e)
    | Ret ([], _) => ret bytes_sent
    | Ret (c :: cs, f') =>
        emit (wfile_write (c :: cs)) ;;
        send_chunks cfg f' (bytes_sent + Py.len (c :: cs))
    end.
Proof.
  funelim (send_chunks cfg f bytes_sent);
    match goal with E : f_read _ _ = _ |- _ => rewrite E end; reflexivity.
Qed.

(** The loop of [serve_file] on a file that reads without error: the
    chunks written are the content of the file, cut every [BUFFER_SIZE]
    bytes, and [bytes_sent] counts them. *)
Lemma send_chunks_ok f bytes_sent :
  read_error f = None -> 0 < BUFFER_SIZE cfg ->
  exists chunks,
    send_chunks cfg f bytes_sent
    = (map wfile_write chunks, Ret (bytes_sent + Py.len (data f)))
    /\ List.concat chunks = data f
    /\ Forall (fun c => (0 < List.length c <= Z.to_nat (BUFFER_SIZE cfg))%nat)
         chunks
    /\ Forall (fun c => List.length c = Z.to_nat (BUFFER_SIZE cfg))
         (removelast chunks).
Proof.
  intros He Hn. remember (List.length (data f)) as m eqn:Hm.
  revert f bytes_sent He Hm.
  induction m as [m IH] using (well_founded_induction lt_wf).
  intros f bytes_sent He Hm.
  rewrite send_chunks_step, f_read_chunk by assumption.
  set (n := Z.to_nat (BUFFER_SIZE cfg)) in *.
  assert (Hn' : (0 < n)%nat) by (unfold n; lia).
  destruct (firstn n (data f)) as [|c cs] eqn:Hfirst.
  - (* end of file *)
    assert (Hd : data f = []).
    { destruct (data f) as [|d ds]; [reflexivity|].
      destruct n; [lia|discriminate]. }
    exists []. rewrite Hd. cbn. rewrite Z.add_0_r. repeat split; constructor.
  - (* a chunk, then the rest of the file *)
    set (f' := mk_file (skipn n (data f)) None).
    assert (Hsplit : data f = (c :: cs) ++ data f').
    { rewrite <- Hfirst. cbn [f' data]. symmetry. apply firstn_skipn. }
    assert (Hshort : (List.length (data f') < m)%nat).
    { rewrite Hm, Hsplit, length_app. cbn [List.length]. lia. }
    destruct (IH _ Hshort f' (bytes_sent + Py.len (c :: cs)) eq_refl eq_refl)
      as (chunks & Hrun & Hcat & Hsz & Hfull).
    assert (Hlen : (List.length (c :: cs) <= n)%nat).
    { rewrite <- Hfirst. apply firstn_le_length. }
    exists ((c :: cs) :: chunks). split; [|split; [|split]].
    + rewrite bind_emit, Hrun. cbn [fst snd map]. f_equal. f_equal.
      unfold Py.len. rewrite Hsplit, length_app. lia.
    + cbn [List.concat]. now rewrite Hcat.
    + constructor; [cbn [List.length] in *; lia | assumption].
    + destruct chunks as [|c' chunks']; [constructor|].
      change (removelast ((c :: cs) :: c' :: chunks'))
        with ((c :: cs) :: removelast (c' :: chunks')).
      constructor; [|assumption].
      rewrite <- Hfirst. apply firstn_length_le.
      destruct (Nat.le_gt_cases n (List.length (data f))) as [|Hgt];
        [assumption|].
      exfalso. assert (Hnil : data f' = []) by (apply skipn_all2; lia).
      rewrite <- Hcat in Hnil. inversion Hsz as [|? ? Hc' _]; subst.
      destruct c'; cbn in *; [lia|discriminate].
Qed.

(** With [BUFFER_SIZE=-1] the first read returns the whole content. *)
Lemma send_chunks_negative f bytes_sent :
  read_error f = None -> BUFFER_SIZE cfg = -1 -> data f <> [] ->
  send_chunks cfg f bytes_sent
  = ([wfile_write (data f)], Ret (bytes_sent + Py.len (data f))).
Proof.
  intros He Hn Hd. rewrite send_chunks_step. unfold f_read. rewrite Hn.
  change (-1 <? -1) with false. change (-1 =? 0) with false.
  change (-1 <? 0) with true. cbv iota.
  destruct (data f) as [|d ds] eqn:Hdata; [contradiction|].
  rewrite bind_emit, send_chunks_step. unfold f_read. rewrite Hn.
  change (-1 <? -1) with false. change (-1 =? 0) with false. cbv iota.
  cbn [data read_error fst snd]. rewrite He. reflexivity.
Qed.

(** With a [BUFFER_SIZE] below -1 the first read is refused. *)
Lemma send_chunks_refused f bytes_sent :
  BUFFER_SIZE cfg < -1 ->
  send_chunks cfg f bytes_sent
  = ([], Raise (Exn $"ValueError" $"read length must be non-negative or -1")).
Proof.
  intros Hn. rewrite send_chunks_step. unfold f_read.
  destruct (BUFFER_SIZE cfg <? -1) eqn:E; [reflexivity|].
  apply Z.ltb_ge in E. lia.
Qed.

(** With [BUFFER_SIZE=0] every read is empty: nothing is written. *)
Lemma send_chunks_zero f bytes_sent :
  BUFFER_SIZE cfg = 0 -> send_chunks cfg f bytes_sent = ([], Ret bytes_sent).
Proof.
  intros H0. rewrite send_chunks_step. unfold f_read. now rewrite H0.
Qed.

(** The [except] clause of [serve_file]: the error is logged; the 500
    response is sent when latin-1 encodes its message, and [send_error]
    raises otherwise. *)
Lemma serve_file_except_run file_path e :
  serve_file_except lib file_path e
  = (logger ERROR ($"Error serving file " ++ file_path ++ $": "
                   ++ exn_str e ++ [10%N] ++ format_exc lib e)
     :: (if latin1 (exn_str e)
         then [send_error 500 ($"Error serving file: " ++ exn_str e)]
         else []),
     if latin1 (exn_str e) then Ret tt
     else Raise (latin1_error
                   (status_line 500 ($"Error serving file: " ++ exn_str e)))).
Proof.
  unfold serve_file_except.
  rewrite self_send_error_run, latin1_app, latin1_lit. cbn [andb].
  destruct (latin1 (exn_str e)); reflexivity.
Qed.

Lemma serve_file_except_calls file_path e c :
  In c (fst (serve_file_except lib file_path e)) ->
  (exists msg, c = logger ERROR msg)
  \/ c = send_error 500 ($"Error serving file: " ++ exn_str e).
Proof.
  rewrite serve_file_except_run. cbn [fst].
  intros [<-|H]; [left; eauto|].
  destruct (latin1 (exn_str e)); [|contradiction].
  destruct H as [<-|[]]. now right.
Qed.

Lemma latin1_content_disposition file_path :
  latin1 (content_disposition file_path)
  = latin1 (PosixPath.basename file_path).
Proof.
  unfold content_disposition, quoted. rewrite !latin1_app, latin1_lit.
  change (latin1 [Py.dquote]) with true. cbn [andb]. apply andb_true_r.
Qed.

(** Every run of [serve_file]: what is called, and how it ends. *)
Lemma serve_file_run file_path :
  serve_file cfg fs lib file_path
  = (match os_stat fs file_path with
     | Raise e => fst (serve_file_except lib file_path e)
     | Ret st =>
         send_response 200
         :: (if latin1 (content_type_of lib file_path) then
               [ send_header $"Content-Type" (content_type_of lib file_path);
                 send_header $"Content-Length" (Py.of_Z (st_size st)) ]
               ++ (if latin1 (PosixPath.basename file_path) then
                     [ send_header $"Content-Disposition"
                         (content_disposition file_path);
                       end_headers ]
                     ++ match open_rb fs file_path with
                        | Raise e => fst (serve_file_except lib file_path e)
                        | Ret f =>
                            fst (send_chunks cfg f 0)
                            ++ match snd (send_chunks cfg f 0) with
                               | Ret bytes_sent =>
                                   [logger INFO
                                      (served_file_message file_path bytes_sent)]
                               | Raise e =>
                                   fst (serve_file_except lib file_path e)
                               end
                        end
                   else fst (serve_file_except lib file_path
                               (latin1_error
                                  (header_line $"Content-Disposition"
                                     (content_disposition file_path)))))
             else fst (serve_file_except lib file_path
                         (latin1_error
                            (header_line $"Content-Type"
                               (content_type_of lib file_path)))))
     end,
     match os_stat fs file_path with
     | Raise e => snd (serve_file_except lib file_path e)
     | Ret st =>
         if latin1 (content_type_of lib file_path) then
           if latin1 (PosixPath.basename file_path) then
             match open_rb fs file_path with
             | Raise e => snd (serve_file_except lib file_path e)
             | Ret f =>
                 match snd (send_chunks cfg f 0) with
                 | Ret _ => Ret tt
                 | Raise e => snd (serve_file_except lib file_path e)
                 end
             end
           else snd (serve_file_except lib file_path
                       (latin1_error
                          (header_line $"Content-Disposition"
                             (content_disposition file_path))))
         else snd (serve_file_except lib file_path
                     (latin1_error
                        (header_line $"Content-Type"
                           (content_type_of lib file_path))))
     end).
Proof.
  unfold serve_file, getsize. rewrite bind_lift.
  destruct (os_stat fs file_path) as [st|e].
  2:{ run. reflexivity. }
  cbv zeta. run. rewrite self_send_header_run.
  destruct (latin1 (content_type_of lib file_path)).
  2:{ run. reflexivity. }
  run. rewrite self_send_header_run, latin1_of_Z. run.
  rewrite self_send_header_run, latin1_content_disposition.
  destruct (latin1 (PosixPath.basename file_path)).
  2:{ run. reflexivity. }
  run. unfold send_content. rewrite bind_lift.
  destruct (open_rb fs file_path) as [f|e].
  2:{ cbn [fst snd]. run. reflexivity. }
  rewrite (pair_eta (send_chunks cfg f 0)).
  destruct (snd (send_chunks cfg f 0)) as [n|e].
  - run. cbn [fst snd]. run. reflexivity.
  - run. cbn [fst snd]. run. reflexivity.
Qed.

(** The runs of [serve_file] for a file whose type and base name
    latin-1 encodes: the head of the response is complete. *)
Lemma serve_file_trace file_path :
  latin1 (content_type_of lib file_path) = true ->
  latin1 (PosixPath.basename file_path) = true ->
  fst (serve_file cfg fs lib file_path)
  = match os_stat fs file_path with
    | Raise e => fst (serve_file_except lib file_path e)
    | Ret st =>
        file_headers lib file_path (st_size st)
        ++ match open_rb fs file_path with
           | Raise e => fst (serve_file_except lib file_path e)
           | Ret f =>
               fst (send_chunks cfg f 0)
               ++ match snd (send_chunks cfg f 0) with
                  | Ret bytes_sent =>
                      [logger INFO (served_file_message file_path bytes_sent)]
                  | Raise e => fst (serve_file_except lib file_path e)
                  end
           end
    end.
Proof.
  intros Hct Hcd. rewrite serve_file_run, Hct, Hcd. cbn [fst].
  now destruct (os_stat fs file_path).
Qed.

(** An exception that leaves [serve_file] or [serve_directory] is the
    one of the [send_error] of their [except] clause. *)
Lemma serve_file_raises file_path e :
  snd (serve_file cfg fs lib file_path) = Raise e ->
  exists line, e = latin1_error line.
Proof.
  rewrite serve_file_run. cbn [snd].
  assert (Hexc : forall e',
             snd (serve_file_except lib file_path e') = Raise e ->
             exists line, e = latin1_error line).
  { intros e'. rewrite serve_file_except_run. cbn [snd].
    destruct (latin1 (exn_str e')); [discriminate|].
    intros H. inversion H. eauto. }
  destruct (os_stat fs file_path) as [st|e0]; [|apply Hexc].
  destruct (latin1 (content_type_of lib file_path)); [|apply Hexc].
  destruct (latin1 (PosixPath.basename file_path)); [|apply Hexc].
  destruct (open_rb fs file_path) as [f|e0]; [|apply Hexc].
  destruct (snd (send_chunks cfg f 0)); [discriminate | apply Hexc].
Qed.

Lemma serve_directory_raises dir_path url_path e :
  snd (serve_directory cfg fs lib dir_path url_path) = Raise e ->
  exists line, e = latin1_error line.
Proof.
  rewrite serve_directory_run. cbn [snd].
  assert (Hexc : forall e',
             snd (serve_directory_except lib dir_path e') = Raise e ->
             exists line, e = latin1_error line).
  { intros e'. rewrite serve_directory_except_run. cbn [snd].
    destruct (latin1 (exn_str e')); [discriminate|].
    intros H. inversion H. eauto. }
  destruct (os_listdir fs dir_path) as [children|e0]; [|apply Hexc].
  cbv zeta.
  destruct (snd (generate_directory_html cfg lib _ url_path)); [|apply Hexc].
  destruct (Utf8.encode a); [discriminate | apply Hexc].
Qed.

(** The [except] clause of [do_GET]. *)
Lemma do_GET_except_run request_path e :
  do_GET_except lib request_path e
  = (logger ERROR ($"Error handling GET request for " ++ request_path
                   ++ $": " ++ exn_str e ++ [10%N] ++ format_exc lib e)
     :: (if latin1 (exn_str e)
         then [send_error 500 ($"Internal server error: " ++ exn_str e)]
         else []),
     if latin1 (exn_str e) then Ret tt
     else Raise (latin1_error
                   (status_line 500 ($"Internal server error: " ++ exn_str e)))).
Proof.
  unfold do_GET_except.
  rewrite self_send_error_run, latin1_app, latin1_lit. cbn [andb].
  destruct (latin1 (exn_str e)); reflexivity.
Qed.

(** What [do_GET] makes of a handler that raises: the exception is that
    of a [send_error], its message is ASCII, and the clause of [do_GET]
    logs it with the request path and answers 500. *)
Lemma rescue_latin1_error request_path line :
  rescue lib request_path (Raise (latin1_error line))
  = [ logger ERROR ($"Error handling GET request for " ++ request_path
                    ++ $": " ++ exn_str (latin1_error line)
                    ++ [10%N] ++ format_exc lib (latin1_error line));
      send_error 500 ($"Internal server error: "
                      ++ exn_str (latin1_error line)) ].
Proof.
  unfold rescue, trace. rewrite do_GET_except_run. cbn [fst].
  now rewrite latin1_error_latin1.
Qed.

Lemma rescued_run (m : M unit) request_path :
  (forall e, snd m = Raise e -> exists line, e = latin1_error line) ->
  try_except m (do_GET_except lib request_path)
  = (fst m ++ rescue lib request_path (snd m), Ret tt).
Proof.
  intros Hm. rewrite (pair_eta m).
  destruct (snd m) as [[]|e] eqn:Hs; cbn [fst snd].
  - rewrite try_except_ret. cbn [rescue]. now rewrite app_nil_r.
  - rewrite try_except_raise. unfold rescue, trace.
    rewrite do_GET_except_run. cbn [fst snd].
    destruct (Hm e eq_refl) as [line ->].
    now rewrite latin1_error_latin1.
Qed.

Lemma rescue_calls request_path o c :
  In c (rescue lib request_path o) ->
  (exists msg, c = logger ERROR msg) \/ (exists msg, c = send_error 500 msg).
Proof.
  destruct o as [u|e]; [contradiction|]. unfold rescue, trace.
  rewrite do_GET_except_run. cbn [fst].
  intros [<-|H]; [left; eauto|].
  destruct (latin1 (exn_str e)); [|contradiction].
  destruct H as [<-|[]]. right; eauto.
Qed.

(** Every run of [do_GET]: the security check, then the three kinds of
    path; the calls of its [except] clause follow those of a handler
    that raised. *)
Lemma do_GET_run request_path :
  do_GET cfg fs lib request_path
  = (let parsed_path := parse_path cfg request_path in
     let full_path := full_path_of cfg parsed_path in
     if negb (within_serve_directory cfg fs full_path) then
       [ logger WARNING ($"Attempted access outside serve directory: "
                         ++ full_path);
         send_error 403 $"Access denied" ]
     else
       logger INFO ($"Processing request for: " ++ parsed_path
                    ++ $" -> " ++ full_path)
       :: (if isdir fs full_path
           then fst (serve_directory cfg fs lib full_path parsed_path)
                ++ rescue lib request_path
                     (snd (serve_directory cfg fs lib full_path parsed_path))
           else if isfile fs full_path
                then fst (serve_file cfg fs lib full_path)
                     ++ rescue lib request_path
                          (snd (serve_file cfg fs lib full_path))
                else [ logger WARNING ($"Path not found: " ++ full_path);
                       send_error 404 $"File not found" ]),
     Ret tt).
Proof.
  unfold do_GET. cbv zeta.
  rewrite !self_send_error_run, !latin1_lit.
  destruct (negb (within_serve_directory cfg fs _)); [reflexivity|].
  set (parsed_path := parse_path cfg request_path).
  set (full_path := full_path_of cfg parsed_path).
  destruct (isdir fs full_path).
  - pose proof (@rescued_run
                  (emit (logger INFO ($"Processing request for: " ++ parsed_path
                                      ++ $" -> " ++ full_path)) ;;
                   serve_directory cfg fs lib full_path parsed_path)
                  request_path) as Hr.
    rewrite bind_emit in Hr. cbn [fst snd] in Hr.
    rewrite bind_emit. cbn [fst snd]. rewrite Hr; [reflexivity|].
    apply serve_directory_raises.
  - destruct (isfile fs full_path).
    + pose proof (@rescued_run
                    (emit (logger INFO ($"Processing request for: "
                                        ++ parsed_path ++ $" -> " ++ full_path)) ;;
                     serve_file cfg fs lib full_path)
                    request_path) as Hr.
      rewrite bind_emit in Hr. cbn [fst snd] in Hr.
      rewrite bind_emit. cbn [fst snd]. rewrite Hr; [reflexivity|].
      apply serve_file_raises.
    + reflexivity.
Qed.

End Streaming.

(* ===================================================================== *)
(** * Prefixes and containment *)
(* ===================================================================== *)

Lemma startswith_app_l p a b :
  Py.startswith p (a ++ b) = true -> Py.startswith p a = true.
Proof.
  revert p. induction a as [|x a IH]; intros p; [now destruct p|].
  destruct p as [|y p]; cbn; [discriminate|].
  rewrite !andb_true_iff. intros [H1 H2]. split; [assumption|].
  now apply IH.
Qed.

Lemma startswith_refl p : Py.startswith p p = true.
Proof.
  induction p as [|x p IH]; [reflexivity|].
  cbn. unfold Py.char_eqb. now rewrite N.eqb_refl.
Qed.

Lemma startswith_app p s : Py.startswith (p ++ s) p = true.
Proof.
  induction p as [|x p IH]; [now destruct s|].
  cbn. unfold Py.char_eqb. now rewrite N.eqb_refl.
Qed.

Lemma startswith_iff s p : Py.startswith s p = true <-> exists t, s = p ++ t.
Proof.
  split.
  - revert s. induction p as [|x p IH]; intros s H; [now exists s|].
    destruct s as [|y s]; [discriminate|]. cbn in H.
    apply andb_true_iff in H. destruct H as [H1 H2].
    apply N.eqb_eq in H1. subst y.
    destruct (IH _ H2) as [t ->]. now exists t.
  - intros [t ->]. apply startswith_app.
Qed.

(** A path inside the root passes the check of [do_GET]; the converse
    does not hold. *)
Lemma path_inside_within root p :
  Spec.path_inside root p = true -> Py.startswith p root = true.
Proof.
  unfold Spec.path_inside. rewrite orb_true_iff. intros [H|H].
  - apply py_eqb_eq in H. subst. apply startswith_refl.
  - destruct (Py.endswith root [PosixPath.sep]); [assumption|].
    now apply startswith_app_l in H.
Qed.

(* ===================================================================== *)
(** * Regular files *)
(* ===================================================================== *)

Section Files.

Variable cfg : Config.
Variable fs : FileSystem.
Variable lib : Library.

(** A GET request that resolves to a regular file inside the served
    root, whose guessed type and base name are text that latin-1
    encodes, and which opens and reads without error, with a positive
    [BUFFER_SIZE]: the calls are status 200, [Content-Type] with the
    type guessed from the file name or [application/octet-stream] when
    there is none, [Content-Length] with the size [os.stat] reports,
    [Content-Disposition], the end of the headers, and then the content
    of the file, written in order in chunks of [BUFFER_SIZE] bytes (the
    last one may be shorter). *)
Theorem regular_file_is_streamed request_path st content :
  let full_path := full_path_of cfg (parse_path cfg request_path) in
  Spec.path_inside (PosixPath.abspath (getcwd fs) (SERVE_DIRECTORY cfg))
    full_path = true ->
  os_stat fs full_path = Ret st ->
  st_kind st = RegularFile ->
  latin1 (content_type_of lib full_path) = true ->
  latin1 (PosixPath.basename full_path) = true ->
  open_rb fs full_path = Ret (mk_file content None) ->
  0 < BUFFER_SIZE cfg ->
  exists chunks,
    trace (do_GET cfg fs lib request_path)
    = [ logger INFO ($"Processing request for: " ++ parse_path cfg request_path
                     ++ $" -> " ++ full_path);
        send_response 200;
        send_header $"Content-Type" (content_type_of lib full_path);
        send_header $"Content-Length" (Py.of_Z (st_size st));
        send_header $"Content-Disposition"
          ($"inline; filename=" ++ quoted (PosixPath.basename full_path));
        end_headers ]
      ++ map wfile_write chunks
      ++ [ logger INFO (served_file_message full_path (Py.len content)) ]
    /\ List.concat chunks = content
    /\ Forall (fun c => (0 < List.length c <= Z.to_nat (BUFFER_SIZE cfg))%nat)
         chunks
    /\ Forall (fun c => List.length c = Z.to_nat (BUFFER_SIZE cfg))
         (removelast chunks)
    /\ (guess_type lib full_path = None ->
        content_type_of lib full_path = $"application/octet-stream")
    /\ (forall t, guess_type lib full_path = Some t -> t <> [] ->
        content_type_of lib full_path = t).
Proof.
  intros full_path Hin Hst Hreg Hct Hcd Hopen Hbuf.
  destruct (send_chunks_ok cfg (mk_file content None) 0 eq_refl Hbuf)
    as (chunks & Hrun & Hcat & Hsz & Hfull).
  exists chunks. split; [|repeat split; try assumption].
  - unfold trace. rewrite do_GET_run. cbv zeta. fold full_path. cbn [fst].
    unfold within_serve_directory. rewrite (path_inside_within _ _ Hin).
    cbn [negb]. unfold isdir, isfile. rewrite Hst, Hreg.
    rewrite serve_file_run, Hst, Hct, Hcd, Hopen, Hrun.
    cbn [fst snd data rescue]. unfold content_disposition.
    cbn [app]. rewrite app_nil_r. now rewrite Z.add_0_l.
  - intros Hg. unfold content_type_of. now rewrite Hg.
  - intros t Hg Ht. unfold content_type_of. rewrite Hg.
    destruct t; [contradiction|reflexivity].
Qed.

(** An unopenable file: the headers of the 200 response are complete
    when [open] raises, and the error response comes after them. *)
Lemma unopenable_file_run request_path st e :
  let full_path := full_path_of cfg (parse_path cfg request_path) in
  within_serve_directory cfg fs full_path = true ->
  os_stat fs full_path = Ret st ->
  st_kind st = RegularFile ->
  latin1 (content_type_of lib full_path) = true ->
  latin1 (PosixPath.basename full_path) = true ->
  open_rb fs full_path = Raise e ->
  latin1 (exn_str e) = true ->
  trace (do_GET cfg fs lib request_path)
  = logger INFO ($"Processing request for: " ++ parse_path cfg request_path
                 ++ $" -> " ++ full_path)
    :: file_headers lib full_path (st_size st)
    ++ [ logger ERROR ($"Error serving file " ++ full_path ++ $": "
                       ++ exn_str e ++ [10%N] ++ format_exc lib e);
         send_error 500 ($"Error serving file: " ++ exn_str e) ].
Proof.
  intros full_path Hin Hst Hreg Hct Hcd Hopen He.
  unfold trace. rewrite do_GET_run. cbv zeta. fold full_path. cbn [fst].
  rewrite Hin. cbn [negb]. unfold isdir, isfile. rewrite Hst, Hreg.
  rewrite serve_file_run, Hst, Hct, Hcd, Hopen, serve_file_except_run, He.
  cbn [fst snd rescue app]. unfold file_headers. cbn [app]. reflexivity.
Qed.

(** A file whose size cannot be read gets the error response alone. *)
Lemma unstatable_file_run file_path e :
  os_stat fs file_path = Raise e ->
  latin1 (exn_str e) = true ->
  trace (serve_file cfg fs lib file_path)
  = [ logger ERROR ($"Error serving file " ++ file_path ++ $": "
                    ++ exn_str e ++ [10%N] ++ format_exc lib e);
      send_error 500 ($"Error serving file: " ++ exn_str e) ].
Proof.
  intros Hst He. unfold trace.
  rewrite serve_file_run, Hst, serve_file_except_run, He. reflexivity.
Qed.

End Files.

Lemma regular_file_is_streamed_witness :
  Spec.path_inside
    (PosixPath.abspath (getcwd Sample.fs) (SERVE_DIRECTORY Sample.cfg4))
    (full_path_of Sample.cfg4 (parse_path Sample.cfg4 $"/wt/b.txt")) = true
  /\ os_stat Sample.fs (full_path_of Sample.cfg4 (parse_path Sample.cfg4 $"/wt/b.txt"))
     = Ret (mk_stat RegularFile 12 1700000100)
  /\ open_rb Sample.fs (full_path_of Sample.cfg4 (parse_path Sample.cfg4 $"/wt/b.txt"))
     = Ret (mk_file Sample.hello None)
  /\ 0 < BUFFER_SIZE Sample.cfg4
  /\ exists chunks,
       trace (do_GET Sample.cfg4 Sample.fs Sample.lib $"/wt/b.txt")
       = [ logger INFO ($"Processing request for: /b.txt -> /withings/b.txt");
           send_response 200;
           send_header $"Content-Type" $"text/plain";
           send_header $"Content-Length" $"12";
           send_header $"Content-Disposition"
             ($"inline; filename=" ++ quoted $"b.txt");
           end_headers ]
         ++ map wfile_write chunks
         ++ [ logger INFO $"Successfully served file: /withings/b.txt (12 bytes)" ]
       /\ List.concat chunks = Sample.hello.
Proof.
  assert (H1 : Spec.path_inside
    (PosixPath.abspath (getcwd Sample.fs) (SERVE_DIRECTORY Sample.cfg4))
    (full_path_of Sample.cfg4 (parse_path Sample.cfg4 $"/wt/b.txt")) = true)
    by (vm_compute; reflexivity).
  assert (H2 : os_stat Sample.fs
                 (full_path_of Sample.cfg4 (parse_path Sample.cfg4 $"/wt/b.txt"))
               = Ret (mk_stat RegularFile 12 1700000100))
    by (vm_compute; reflexivity).
  assert (H3 : open_rb Sample.fs
                 (full_path_of Sample.cfg4 (parse_path Sample.cfg4 $"/wt/b.txt"))
               = Ret (mk_file Sample.hello None))
    by (vm_compute; reflexivity).
  assert (H4 : 0 < BUFFER_SIZE Sample.cfg4) by (vm_compute; reflexivity).
  assert (H5 : latin1 (content_type_of Sample.lib
                         (full_path_of Sample.cfg4
                            (parse_path Sample.cfg4 $"/wt/b.txt"))) = true)
    by (vm_compute; reflexivity).
  assert (H6 : latin1 (PosixPath.basename
                         (full_path_of Sample.cfg4
                            (parse_path Sample.cfg4 $"/wt/b.txt"))) = true)
    by (vm_compute; reflexivity).
  split; [exact H1|]. split; [exact H2|]. split; [exact H3|]. split; [exact H4|].
  destruct (regular_file_is_streamed Sample.cfg4 Sample.fs Sample.lib
              $"/wt/b.txt" H1 H2 eq_refl H5 H6 H3 H4)
    as (chunks & Htrace & Hcat & _).
  exists chunks. split; [exact Htrace | exact Hcat].
Defined.

(** C7. The file [/withings/uni/] followed by the euro sign and [.txt]
    is a regular file inside the served root that opens and reads, and
    the listing of its directory links to it.  Requested by that link,
    it is not sent: the status line 200 and two headers are in the
    buffer when [send_header] cannot encode the [Content-Disposition]
    line, which names the file, as latin-1; the [except] clause of
    [serve_file] logs the error and sends the error response 500 after
    them.  No byte of the file is written. *)
Theorem non_latin1_file_name_answers_200_then_500 :
  let request_path := $"/wt/uni/%E2%82%AC.txt" in
  let full_path := $"/withings/uni/" ++ SampleFaults.euro_name in
  let message :=
    $"'latin-1' codec can't encode character '\u20ac' in position 39: ordinal not in range(256)" in
  full_path_of Sample.cfg (parse_path Sample.cfg request_path) = full_path
  /\ Spec.path_inside
       (PosixPath.abspath (getcwd SampleFaults.fs) (SERVE_DIRECTORY Sample.cfg))
       full_path = true
  /\ os_stat SampleFaults.fs full_path
     = Ret (mk_stat RegularFile 12 1700002700)
  /\ open_rb SampleFaults.fs full_path = Ret (mk_file Sample.hello None)
  /\ (exists parts body,
        result (html_parts Sample.cfg Sample.lib
                  (sort_items Sample.lib
                     (listed_items SampleFaults.fs $"/withings/uni"
                        [SampleFaults.euro_name])) $"/uni/") = Ret parts
        /\ In ($"<tr><td><a href="
               ++ quoted ($"/wt/uni/" ++ SampleFaults.euro_name)
               ++ $">" ++ SampleFaults.euro_name
               ++ $"</a></td><td class=" ++ quoted $"size"
               ++ $">12 B</td><td>T+1700002700</td></tr>") parts
        /\ Utf8.encode (Py.join [10%N] parts) = Some body
        /\ In (wfile_write body)
             (trace (do_GET Sample.cfg SampleFaults.fs Sample.lib $"/wt/uni/")))
  /\ trace (do_GET Sample.cfg SampleFaults.fs Sample.lib request_path)
     = [ logger INFO ($"Processing request for: /uni/" ++ SampleFaults.euro_name
                      ++ $" -> " ++ full_path);
         send_response 200;
         send_header $"Content-Type" $"text/plain";
         send_header $"Content-Length" $"12";
         logger ERROR
           ($"Error serving file " ++ full_path ++ $": " ++ message
            ++ [10%N] ++ $"Traceback (most recent call last): ...");
         send_error 500 ($"Error serving file: " ++ message) ]
  /\ forall body,
       ~ In (wfile_write body)
           (trace (do_GET Sample.cfg SampleFaults.fs Sample.lib request_path)).
Proof.
  cbv zeta. split; [vm_compute; reflexivity|].
  split; [vm_compute; reflexivity|].
  split; [vm_compute; reflexivity|].
  split; [vm_compute; reflexivity|].
  split.
  { eexists. eexists. split; [vm_compute; reflexivity|].
    split; [vm_compute; repeat (first [left; reflexivity | right])|].
    split; [vm_compute; reflexivity|].
    vm_compute. repeat (first [left; reflexivity | right]). }
  assert (Ht : trace (do_GET Sample.cfg SampleFaults.fs Sample.lib
                        $"/wt/uni/%E2%82%AC.txt")
               = [ logger INFO ($"Processing request for: /uni/"
                                ++ SampleFaults.euro_name
                                ++ $" -> " ++ $"/withings/uni/"
                                ++ SampleFaults.euro_name);
                   send_response 200;
                   send_header $"Content-Type" $"text/plain";
                   send_header $"Content-Length" $"12";
                   logger ERROR
                     ($"Error serving file " ++ $"/withings/uni/"
                      ++ SampleFaults.euro_name ++ $": "
                      ++ $"'latin-1' codec can't encode character '\u20ac' in position 39: ordinal not in range(256)"
                      ++ [10%N] ++ $"Traceback (most recent call last): ...");
                   send_error 500
                     ($"Error serving file: "
                      ++ $"'latin-1' codec can't encode character '\u20ac' in position 39: ordinal not in range(256)") ])
    by (vm_compute; reflexivity).
  split; [exact Ht|].
  intros body H. rewrite Ht in H. cbn [In] in H.
  repeat (destruct H as [H|H]; [discriminate|]). exact H.
Qed.

(** C9. The file [/withings/locked.bin] of the sample deployment is a
    regular file that cannot be opened.  The handler has sent the status
    line 200 and all the headers, and has ended them, when [open]
    raises; the error response 500 follows on the same connection. *)
Theorem unopenable_file_answers_200_then_500 :
  trace (do_GET Sample.cfg Sample.fs Sample.lib $"/wt/locked.bin")
  = [ logger INFO $"Processing request for: /locked.bin -> /withings/locked.bin";
      send_response 200;
      send_header $"Content-Type" $"application/octet-stream";
      send_header $"Content-Length" $"12";
      send_header $"Content-Disposition"
        ($"inline; filename=" ++ quoted $"locked.bin");
      end_headers;
      logger ERROR
        ($"Error serving file /withings/locked.bin: [Errno 13] Permission denied"
         ++ [10%N] ++ $"Traceback (most recent call last): ...");
      send_error 500 $"Error serving file: [Errno 13] Permission denied" ].
Proof. vm_compute. reflexivity. Qed.

(* ===================================================================== *)
(** * Path resolution *)
(* ===================================================================== *)

Lemma split_nonempty c s : Py.split c s <> [].
Proof.
  destruct s as [|x s]; cbn; [discriminate|].
  destruct (Py.char_eqb x c); [discriminate|].
  destruct (Py.split c s); discriminate.
Qed.

Lemma split_app_sep c s : Py.split c (s ++ [c]) = Py.split c s ++ [[]].
Proof.
  induction s as [|x s IH]; cbn.
  - unfold Py.char_eqb. now rewrite N.eqb_refl.
  - destruct (Py.char_eqb x c); rewrite IH; [reflexivity|].
    pose proof (split_nonempty c s) as Hne.
    destruct (Py.split c s); [contradiction|reflexivity].
Qed.

Lemma endswith_last s c x :
  Py.endswith (s ++ [x]) [c] = Py.char_eqb x c.
Proof.
  unfold Py.endswith. rewrite rev_app_distr. cbn.
  destruct (Py.char_eqb x c); reflexivity.
Qed.



Section Resolution.

Variable cfg : Config.
Variable fs : FileSystem.
Variable lib : Library.

(** The root-relative path is never empty: it starts with a slash. *)
Lemma parse_path_starts_with_slash request_path :
  Py.startswith (parse_path cfg request_path) $"/" = true.
Proof.
  unfold parse_path. cbv zeta.
  set (p := if Py.startswith _ (BASE_PATH cfg) then _ else _).
  destruct (Py.startswith p $"/") eqn:E; cbn [negb].
  - destruct p as [|c p]; [discriminate|]. cbn in E.
    apply andb_true_iff in E. destruct E as [E _].
    apply N.eqb_eq in E. subst c. cbn.
    destruct (Py.split 63%N p); reflexivity.
  - cbn. destruct (Py.split 63%N p); reflexivity.
Qed.



(** [serve_directory] has one error response, with status 500. *)
Lemma serve_directory_errors dir_path url_path code message :
  In (send_error code message)
    (trace (serve_directory cfg fs lib dir_path url_path)) ->
  code = 500.
Proof.
  unfold trace. rewrite serve_directory_run. cbn [fst].
  assert (Hw : forall children,
             ~ In (send_error code message) (stat_warnings fs dir_path children)).
  { intros children H. pose proof (stat_warnings_logs fs dir_path children) as Hl.
    rewrite Forall_forall in Hl. now apply Hl in H. }
  assert (Hexc : forall e, In (send_error code message)
                             (fst (serve_directory_except lib dir_path e)) ->
                           code = 500).
  { intros e H. apply serve_directory_except_calls in H.
    destruct H as [[msg H]|H]; [discriminate | now inversion H]. }
  destruct (os_listdir fs dir_path) as [children|e]; [|apply Hexc].
  cbv zeta. intros H. apply in_app_or in H.
  destruct H as [H|H]; [now apply Hw in H|].
  destruct (snd (generate_directory_html cfg lib _ url_path)) as [html|e];
    [|now apply Hexc in H].
  destruct (Utf8.encode html).
  - cbn in H. repeat (destruct H as [H|H]; [discriminate|]). contradiction.
  - apply in_app_or in H. destruct H as [H|H]; [|now apply Hexc in H].
    cbn in H. repeat (destruct H as [H|H]; [discriminate|]). contradiction.
Qed.


(** A path that fails the check of [do_GET] gets the 403 response, and
    nothing of it is read. *)
Lemma outside_prefix_is_forbidden request_path :
  let full_path := full_path_of cfg (parse_path cfg request_path) in
  within_serve_directory cfg fs full_path = false ->
  trace (do_GET cfg fs lib request_path)
  = [ logger WARNING ($"Attempted access outside serve directory: "
                      ++ full_path);
      send_error 403 $"Access denied" ].
Proof.
  intros full_path H. unfold trace. rewrite do_GET_run. cbv zeta.
  fold full_path. now rewrite H.
Qed.

End Resolution.


(* ===================================================================== *)
(** * The security check on the sample deployment *)
(* ===================================================================== *)

(** The classic traversal is refused. *)
Example traversal_is_forbidden :
  trace (do_GET Sample.cfg Sample.fs Sample.lib $"/wt/../../etc/passwd")
  = [ logger WARNING $"Attempted access outside serve directory: /etc/passwd";
      send_error 403 $"Access denied" ]
  /\ trace (do_GET Sample.cfg Sample.fs Sample.lib $"/wt/%2e%2e/%2E%2E/etc/passwd")
     = [ logger WARNING $"Attempted access outside serve directory: /etc/passwd";
         send_error 403 $"Access denied" ].
Proof. split; vm_compute; reflexivity. Qed.

(** With a relative [SERVE_DIRECTORY] the resolved path is relative and
    the absolute root is no prefix of it: the root itself is refused. *)
Example relative_root_is_forbidden :
  trace (do_GET Sample.cfg_relative Sample.fs Sample.lib $"/wt")
  = [ logger WARNING $"Attempted access outside serve directory: withings";
      send_error 403 $"Access denied" ].
Proof. vm_compute. reflexivity. Qed.

(** C1. The served root is [/withings]; [/withings2] is another
    directory, next to it.  The request [/wt/../withings2/secret.txt]
    resolves to [/withings2/secret.txt], which is not inside the root,
    but its string starts with the string of the root: the check of
    [do_GET] accepts it and the file is sent with status 200.  The same
    holds when the dots are percent-encoded. *)
Theorem sibling_directory_is_served :
  let root := PosixPath.abspath (getcwd Sample.fs) (SERVE_DIRECTORY Sample.cfg) in
  let request_path := $"/wt/../withings2/secret.txt" in
  let full_path := full_path_of Sample.cfg (parse_path Sample.cfg request_path) in
  root = $"/withings"
  /\ full_path = $"/withings2/secret.txt"
  /\ Spec.path_inside root full_path = false
  /\ within_serve_directory Sample.cfg Sample.fs full_path = true
  /\ trace (do_GET Sample.cfg Sample.fs Sample.lib request_path)
     = [ logger INFO
           $"Processing request for: /../withings2/secret.txt -> /withings2/secret.txt";
         send_response 200;
         send_header $"Content-Type" $"text/plain";
         send_header $"Content-Length" $"12";
         send_header $"Content-Disposition"
           ($"inline; filename=" ++ quoted $"secret.txt");
         end_headers;
         wfile_write Sample.hello;
         logger INFO $"Successfully served file: /withings2/secret.txt (12 bytes)" ]
  /\ In (wfile_write Sample.hello)
       (trace (do_GET Sample.cfg Sample.fs Sample.lib
                 $"/wt/%2e%2e/withings2/secret.txt")).
Proof.
  cbv zeta.
  split; [vm_compute; reflexivity|].
  split; [vm_compute; reflexivity|].
  split; [vm_compute; reflexivity|].
  split; [vm_compute; reflexivity|].
  split; [vm_compute; reflexivity|].
  vm_compute. repeat (first [left; reflexivity | right]).
Qed.

(* ===================================================================== *)
(** * Escaping *)
(* ===================================================================== *)

Lemma replace_app c r a b :
  Py.replace c r (a ++ b) = Py.replace c r a ++ Py.replace c r b.
Proof. unfold Py.replace. apply flat_map_app. Qed.

Lemma escape_flat_map s : Html.escape s = flat_map Html.escape_char s.
Proof.
  unfold Html.escape. cbv zeta.
  induction s as [|c s IH]; [reflexivity|].
  change (c :: s) with ([c] ++ s).
  rewrite !replace_app, IH. cbn [flat_map]. f_equal.
  unfold Html.escape_char, Py.char_eqb, Py.dquote.
  destruct (N.eqb_spec c (Py.ch "&")) as [->|H1]; [reflexivity|].
  destruct (N.eqb_spec c (Py.ch "<")) as [->|H2]; [reflexivity|].
  destruct (N.eqb_spec c (Py.ch ">")) as [->|H3]; [reflexivity|].
  destruct (N.eqb_spec c 34%N) as [->|H4]; [reflexivity|].
  destruct (N.eqb_spec c (Py.ch "'")) as [->|H5]; [reflexivity|].
  unfold Py.replace. cbn. unfold Py.char_eqb.
  repeat match goal with
         | H : c <> ?k |- context [N.eqb c ?k'] =>
             replace (N.eqb c k') with false
               by (symmetry; apply N.eqb_neq; exact H)
         end.
  cbn. rewrite app_nil_r.
  repeat match goal with
         | H : c <> ?k |- context [N.eqb c ?k'] =>
             replace (N.eqb c k') with false
               by (symmetry; apply N.eqb_neq; exact H); cbn
         end.
  reflexivity.
Qed.

(** Escaped text holds no character that opens or closes markup or an
    attribute value. *)
Lemma escape_no_markup s :
  forallb (fun c => negb (Html.markup_char c)) (Html.escape s) = true.
Proof.
  rewrite escape_flat_map. induction s as [|c s IH]; [reflexivity|].
  change (flat_map Html.escape_char (c :: s))
    with (Html.escape_char c ++ flat_map Html.escape_char s).
  rewrite forallb_app. apply andb_true_iff. split; [|exact IH].
  unfold Html.escape_char, Html.markup_char, Py.char_eqb, Py.dquote.
  destruct (N.eqb_spec c (Py.ch "&")) as [->|H1]; [reflexivity|].
  destruct (N.eqb_spec c (Py.ch "<")) as [->|H2]; [reflexivity|].
  destruct (N.eqb_spec c (Py.ch ">")) as [->|H3]; [reflexivity|].
  destruct (N.eqb_spec c 34%N) as [->|H4]; [reflexivity|].
  destruct (N.eqb_spec c (Py.ch "'")) as [->|H5]; [reflexivity|].
  cbn [forallb]. rewrite andb_true_r.
  apply negb_true_iff. rewrite !orb_false_iff. repeat split;
    apply N.eqb_neq; assumption.
Qed.

(** The file [<b>.txt] of the sample root appears escaped, in the link
    and in its text. *)
Example markup_in_a_name_is_escaped :
  exists parts,
    result (html_parts Sample.cfg Sample.lib Sample.root_items $"/") = Ret parts
    /\ In ($"<tr><td><a href=" ++ quoted $"/wt/&lt;b&gt;.txt"
           ++ $">&lt;b&gt;.txt</a></td><td class=" ++ quoted $"size"
           ++ $">1.5 KB</td><td>T+1700000300</td></tr>") parts.
Proof.
  eexists. split; [vm_compute; reflexivity|].
  vm_compute. repeat (first [left; reflexivity | right]).
Qed.

(** C5. The directory of the sample deployment whose name is q, a
    double quote, then [><b>], requested as [/wt/q%22%3E%3Cb%3E/]: the
    title of its listing has the URL path escaped, but the link of its
    entry [n.txt] has it as it is, so that the double quote ends the
    attribute and [<b>] is markup of the document that is sent. *)
Theorem url_path_is_raw_in_links :
  let request_path := $"/wt/q%22%3E%3Cb%3E/" in
  let url_path := parse_path Sample.cfg request_path in
  let items :=
    sort_items Sample.lib (listed_items Sample.fs Sample.odd_dir [$"n.txt"]) in
  url_path = $"/q" ++ [Py.dquote] ++ $"><b>/"
  /\ exists parts body,
       result (html_parts Sample.cfg Sample.lib items url_path) = Ret parts
       /\ In $"<title>Directory listing for /q&quot;&gt;&lt;b&gt;/</title>" parts
       /\ In ($"<tr><td><a href="
              ++ quoted ($"/wt/q" ++ [Py.dquote] ++ $"><b>/n.txt")
              ++ $">n.txt</a></td><td class=" ++ quoted $"size"
              ++ $">0 B</td><td>T+1700001000</td></tr>") parts
       /\ Utf8.encode (Py.join [10%N] parts) = Some body
       /\ In (wfile_write body)
            (trace (do_GET Sample.cfg Sample.fs Sample.lib request_path)).
Proof.
  cbv zeta. split; [vm_compute; reflexivity|].
  eexists. eexists. split; [vm_compute; reflexivity|].
  split; [vm_compute; repeat (first [left; reflexivity | right])|].
  split; [vm_compute; repeat (first [left; reflexivity | right])|].
  split; [vm_compute; reflexivity|].
  vm_compute. repeat (first [left; reflexivity | right]).
Qed.

(* ===================================================================== *)
(** * The parent-directory link *)
(* ===================================================================== *)

Lemma lstrip_spec c s :
  exists k,
    s = repeat c k ++ Py.lstrip c s
    /\ (Py.lstrip c s = [] \/ exists x t, Py.lstrip c s = x :: t /\ x <> c).
Proof.
  induction s as [|x s IH].
  - exists 0%nat. auto.
  - cbn [Py.lstrip]. unfold Py.char_eqb.
    destruct (N.eqb_spec x c) as [->|Hx].
    + destruct IH as (k & Hs & Hl). exists (S k). split; [|exact Hl].
      cbn. now rewrite <- Hs.
    + exists 0%nat. split; [reflexivity|]. right. now exists x, s.
Qed.

Lemma rstrip_spec c s :
  exists k,
    s = Py.rstrip c s ++ repeat c k
    /\ (Py.rstrip c s = [] \/ exists t x, Py.rstrip c s = t ++ [x] /\ x <> c).
Proof.
  unfold Py.rstrip. destruct (lstrip_spec c (rev s)) as (k & Hs & Hl).
  exists k. split.
  - rewrite <- (rev_involutive s), Hs at 1.
    rewrite rev_app_distr. f_equal. apply rev_repeat.
  - destruct Hl as [->|(x & t & -> & Hx)]; [now left|].
    right. exists (rev t), x. now cbn.
Qed.

Lemma rstrip_trailing c s : Py.rstrip c (s ++ [c]) = Py.rstrip c s.
Proof.
  unfold Py.rstrip. rewrite rev_app_distr. cbn.
  unfold Py.char_eqb. now rewrite N.eqb_refl.
Qed.

Lemma rstrip_with_slash url_path :
  Py.rstrip PosixPath.sep (with_slash url_path)
  = Py.rstrip PosixPath.sep url_path.
Proof.
  unfold with_slash. destruct (negb _); [|reflexivity].
  apply rstrip_trailing.
Qed.

Lemma startswith_with_slash url_path :
  Py.startswith url_path $"/" = true ->
  Py.startswith (with_slash url_path) $"/" = true.
Proof.
  unfold with_slash. destruct (negb _); [|auto].
  destruct url_path; [discriminate|auto].
Qed.

Lemma contains_In c s : Py.contains c s = true <-> In c s.
Proof.
  unfold Py.contains. rewrite existsb_exists. split.
  - intros (x & Hx & E). apply N.eqb_eq in E. now subst.
  - intros H. exists c. split; [assumption | apply N.eqb_refl].
Qed.

(** [rsplit_sep] cuts after the last separator. *)
Lemma rsplit_sep_spec p :
  p = fst (PosixPath.rsplit_sep p) ++ snd (PosixPath.rsplit_sep p)
  /\ ~ In PosixPath.sep (snd (PosixPath.rsplit_sep p))
  /\ (fst (PosixPath.rsplit_sep p) = []
      \/ exists h, fst (PosixPath.rsplit_sep p) = h ++ [PosixPath.sep]).
Proof.
  induction p as [|c p (IH1 & IH2 & IH3)].
  - cbn. auto.
  - cbn [PosixPath.rsplit_sep].
    destruct (PosixPath.rsplit_sep p) as [h t]. cbn [fst snd] in *.
    destruct (Py.contains PosixPath.sep (c :: p)) eqn:E; cbn [fst snd].
    + split; [cbn; now rewrite <- IH1|]. split; [assumption|]. right.
      destruct IH3 as [->|(h' & ->)].
      * apply contains_In in E. cbn in IH1. subst p.
        destruct E as [->|E]; [now exists [] | contradiction].
      * now exists (c :: h').
    + split; [reflexivity|]. split; [|now left].
      intros H. apply contains_In in H. congruence.
Qed.

Lemma all_seps_Forall s :
  PosixPath.all_seps s = true <-> Forall (eq PosixPath.sep) s.
Proof.
  unfold PosixPath.all_seps. rewrite forallb_forall, Forall_forall.
  split; intros H x Hx; specialize (H x Hx).
  - apply N.eqb_eq in H. now subst.
  - subst. apply N.eqb_refl.
Qed.

Lemma Forall_repeat_eq (c : N) k : Forall (eq c) (repeat c k).
Proof. induction k; cbn; constructor; auto. Qed.

(** The target of the parent link ends with a slash, and the URL path
    is that target, then the last segment between runs of slashes. *)
Lemma parent_path_spec u :
  Py.startswith u $"/" = true ->
  Py.rstrip PosixPath.sep u <> [] ->
  Py.endswith (parent_path u) $"/" = true
  /\ exists s1 seg s2,
       seg <> [] /\ ~ In PosixPath.sep seg
       /\ Forall (eq PosixPath.sep) s1 /\ Forall (eq PosixPath.sep) s2
       /\ u = parent_path u ++ s1 ++ seg ++ s2.
Proof.
  intros Hstart Hne. unfold parent_path. cbv zeta.
  set (r := Py.rstrip PosixPath.sep u) in *.
  destruct (rstrip_spec PosixPath.sep u) as (k & Hu & Hr). fold r in Hu, Hr.
  destruct Hr as [Hr|(t & x & Hr & Hx)]; [contradiction|].
  unfold PosixPath.dirname. cbv zeta.
  destruct (rsplit_sep_spec r) as (Hsplit & Hseg & Hh).
  set (h := fst (PosixPath.rsplit_sep r)) in *.
  set (seg := snd (PosixPath.rsplit_sep r)) in *.
  assert (Hsegne : seg <> []).
  { intros E. rewrite E, app_nil_r in Hsplit.
    destruct Hh as [Hh|(h' & Hh)].
    - rewrite Hh in Hsplit. congruence.
    - rewrite Hsplit, Hh in Hr. apply app_inj_tail in Hr.
      destruct Hr as [_ Hr]. congruence. }
  assert (Hhne : exists h', h = h' ++ [PosixPath.sep]).
  { destruct Hh as [Hh|Hh]; [|assumption]. exfalso.
    rewrite Hh in Hsplit. cbn in Hsplit.
    destruct u as [|c u']; [discriminate|]. cbn in Hstart.
    apply andb_true_iff in Hstart. destruct Hstart as [Hc _].
    apply N.eqb_eq in Hc. subst c.
    destruct r as [|c r']; [contradiction|].
    cbn in Hu. inversion Hu; subst c.
    apply Hseg. rewrite <- Hsplit. now left. }
  destruct Hhne as (h' & Hh').
  assert (Hhnil : Py.eqb h [] = false).
  { apply py_eqb_neq. rewrite Hh'. now destruct h'. }
  rewrite Hhnil. cbn [negb andb].
  destruct (PosixPath.all_seps h) eqn:Hall; cbn [negb].
  - (* the head is a run of separators: it is kept *)
    assert (Hend : Py.endswith h [PosixPath.sep] = true).
    { rewrite Hh', endswith_last. apply N.eqb_refl. }
    change ($"/") with [PosixPath.sep]. rewrite Hend. cbn [negb].
    split; [assumption|].
    exists [], seg, (repeat PosixPath.sep k).
    repeat split; auto using Forall_repeat_eq.
    cbn [app]. rewrite app_assoc, <- Hsplit. exact Hu.
  - (* the separators that end the head are dropped, but for one *)
    set (d := Py.rstrip PosixPath.sep h).
    destruct (rstrip_spec PosixPath.sep h) as (j & Hhd & Hd). fold d in Hhd, Hd.
    destruct Hd as [Hd|(t' & y & Hd & Hy)].
    { exfalso. rewrite Hd in Hhd. cbn in Hhd.
      assert (PosixPath.all_seps h = true)
        by (apply all_seps_Forall; rewrite Hhd; apply Forall_repeat_eq).
      congruence. }
    assert (Hend : Py.endswith d [PosixPath.sep] = false).
    { rewrite Hd, endswith_last. now apply N.eqb_neq. }
    change ($"/") with [PosixPath.sep]. rewrite Hend. cbn [negb].
    split; [apply endswith_last|].
    destruct j as [|j].
    { exfalso. cbn in Hhd. rewrite app_nil_r in Hhd.
      rewrite Hhd, Hd in Hh'. apply app_inj_tail in Hh'.
      destruct Hh' as [_ Hh']. congruence. }
    exists (repeat PosixPath.sep j), seg, (repeat PosixPath.sep k).
    repeat split; auto using Forall_repeat_eq.
    rewrite Hu, Hsplit, Hhd. cbn [repeat].
    rewrite <- !app_assoc. reflexivity.
Qed.

Section ParentLink.

Variable cfg : Config.
Variable lib : Library.

Lemma parent_rows_below u :
  Py.rstrip PosixPath.sep u <> [] ->
  parent_rows cfg u = [parent_row cfg u].
Proof.
  intros Hne. unfold parent_rows.
  destruct (Py.eqb u $"/") eqn:E.
  - apply py_eqb_eq in E. subst u. now contradiction Hne.
  - apply py_eqb_neq in Hne. now rewrite Hne.
Qed.

Lemma parent_rows_root u :
  Py.rstrip PosixPath.sep u = [] -> parent_rows cfg u = [].
Proof.
  intros H. unfold parent_rows. rewrite H. cbn.
  now rewrite andb_false_r.
Qed.

Lemma head_no_parent_row u : filter is_parent_row (html_head u) = [].
Proof. reflexivity. Qed.

Lemma foot_no_parent_row items : filter is_parent_row (html_foot items) = [].
Proof. reflexivity. Qed.

Lemma table_row_no_parent_row a b c : is_parent_row (table_row a b c) = false.
Proof. reflexivity. Qed.

Lemma parent_row_is_parent_row u : is_parent_row (parent_row cfg u) = true.
Proof. reflexivity. Qed.

Lemma item_row_shape u item row :
  snd (item_row cfg lib u item) = Ret row ->
  exists size_html mtime, row = table_row (name_html cfg u item) size_html mtime.
Proof.
  unfold item_row, ret.
  destruct (is_dir item).
  - rewrite bind_ret, bind_lift. cbn [fst snd].
    destruct (strftime_local lib (mtime item)) as [m|]; [|discriminate].
    cbn [fst snd]. intros H; inversion H. do 2 eexists; reflexivity.
  - rewrite bind_lift.
    destruct (format_size (size item)) as [sz|]; [|discriminate].
    rewrite bind_lift.
    destruct (strftime_local lib (mtime item)) as [m|]; [|discriminate].
    cbn [fst snd]. intros H; inversion H. do 2 eexists; reflexivity.
Qed.

Lemma rows_no_parent_row u items rows :
  Forall2 (fun item row => snd (item_row cfg lib u item) = Ret row) items rows ->
  filter is_parent_row rows = [].
Proof.
  induction 1 as [|item row items rows Hrow _ IH]; [reflexivity|].
  cbn [filter]. destruct (item_row_shape _ _ Hrow) as (sz & m & ->).
  now rewrite table_row_no_parent_row.
Qed.

(** C6. The listing of the URL path [/] has no parent-directory row.
    The listing of a URL path that starts with a slash and has a
    segment has exactly one, right after the head of the table and
    before the rows of the entries; its link is the base path followed
    by the parent path; the parent path ends with a slash and the URL
    path (with its final slash) is the parent path followed by the last
    segment, up to repeated slashes around that segment. *)
Theorem parent_row_below_root items :
  (forall parts,
     result (html_parts cfg lib items $"/") = Ret parts ->
     filter is_parent_row parts = [])
  /\ (forall url_path parts,
        Py.startswith url_path $"/" = true ->
        Py.rstrip PosixPath.sep url_path <> [] ->
        result (html_parts cfg lib items url_path) = Ret parts ->
        let u := with_slash url_path in
        exists rows,
          parts = html_head u ++ [parent_row cfg u] ++ rows ++ html_foot items
          /\ Forall2 (fun item row => result (item_row cfg lib u item) = Ret row)
               items rows
          /\ filter is_parent_row parts = [parent_row cfg u]
          /\ parent_row cfg u
             = $"<tr><td colspan=" ++ quoted $"3" ++ $"><a href="
               ++ quoted (BASE_PATH cfg ++ parent_path u)
               ++ $">[Parent Directory]</a></td></tr>"
          /\ Py.endswith (parent_path u) $"/" = true
          /\ exists s1 seg s2,
               seg <> [] /\ ~ In PosixPath.sep seg
               /\ Forall (eq PosixPath.sep) s1
               /\ Forall (eq PosixPath.sep) s2
               /\ u = parent_path u ++ s1 ++ seg ++ s2).
Proof.
  split.
  - intros parts. unfold result. rewrite html_parts_run. cbn [snd].
    destruct (snd (item_rows cfg lib (with_slash $"/") items)) as [rows|] eqn:E;
      [|discriminate].
    intros H. apply Ret_inj in H. subst parts.
    rewrite !filter_app, head_no_parent_row, foot_no_parent_row.
    rewrite (@rows_no_parent_row _ _ _ (item_rows_result _ _ _ _ E)).
    reflexivity.
  - intros url_path parts Hstart Hne. unfold result.
    rewrite html_parts_run. cbn [snd]. intros Hparts.
    set (u := with_slash url_path) in *.
    destruct (snd (item_rows cfg lib u items)) as [rows|] eqn:E;
      [|discriminate].
    apply Ret_inj in Hparts. subst parts.
    assert (Hne' : Py.rstrip PosixPath.sep u <> [])
      by (unfold u; now rewrite rstrip_with_slash).
    pose proof (item_rows_result _ _ _ _ E) as HF.
    destruct (parent_path_spec u (startswith_with_slash _ Hstart) Hne')
      as (Hend & Hdec).
    exists rows. rewrite (@parent_rows_below u Hne').
    repeat split; try assumption.
    rewrite !filter_app, head_no_parent_row, foot_no_parent_row.
    rewrite (@rows_no_parent_row _ _ _ HF). cbn [filter].
    now rewrite parent_row_is_parent_row.
Qed.

End ParentLink.

(** The test for the parent link is on the text of the URL path: the
    root requested as [/wt/./] is listed with a link to [/wt/]. *)
Example dot_segment_root_has_parent_row :
  full_path_of Sample.cfg (parse_path Sample.cfg $"/wt/./") = $"/withings"
  /\ parent_rows Sample.cfg (parse_path Sample.cfg $"/wt/./")
     = [ $"<tr><td colspan=" ++ quoted $"3" ++ $"><a href="
         ++ quoted $"/wt/" ++ $">[Parent Directory]</a></td></tr>" ].
Proof. split; vm_compute; reflexivity. Qed.

Lemma parent_row_below_root_witness :
  Py.startswith $"/sub/" $"/" = true
  /\ Py.rstrip PosixPath.sep $"/sub/" <> []
  /\ result (html_parts Sample.cfg Sample.lib Sample.sub_items $"/sub/")
     = Ret Sample.sub_parts
  /\ exists rows,
       Sample.sub_parts
       = html_head $"/sub/"
         ++ [ $"<tr><td colspan=" ++ quoted $"3" ++ $"><a href="
              ++ quoted $"/wt/" ++ $">[Parent Directory]</a></td></tr>" ]
         ++ rows ++ html_foot Sample.sub_items.
Proof.
  assert (H1 : Py.startswith $"/sub/" $"/" = true) by reflexivity.
  assert (H2 : Py.rstrip PosixPath.sep $"/sub/" <> []) by (vm_compute; discriminate).
  assert (H3 : result (html_parts Sample.cfg Sample.lib Sample.sub_items $"/sub/")
               = Ret Sample.sub_parts) by (vm_compute; reflexivity).
  split; [exact H1|]. split; [exact H2|]. split; [exact H3|].
  destruct (proj2 (parent_row_below_root Sample.cfg Sample.lib Sample.sub_items)
              $"/sub/" Sample.sub_parts H1 H2 H3) as (rows & Hparts & _).
  exists rows. exact Hparts.
Defined.

(* ===================================================================== *)
(** * Start-up *)
(* ===================================================================== *)

Lemma bindP_done {A B} t (a : A) (k : A -> P B) :
  bindP (t, Done a) k = (t ++ fst (k a), snd (k a)).
Proof. cbn. now destruct (k a). Qed.

Lemma bindP_call {B} c (k : unit -> P B) :
  bindP (callP c) k = (c :: fst (k tt), snd (k tt)).
Proof. cbn. now destruct (k tt). Qed.

Section StartupFacts.

Variable cfg : Config.
Variable scfg : ServerConfig.
Variable fs : FileSystem.
Variable lib : Library.
Variable host : Host.

Lemma isdir_exists p : isdir fs p = true -> path_exists fs p = true.
Proof. unfold isdir, path_exists. now destruct (os_stat fs p). Qed.

(** [main] up to the assignment of [server], by cases. *)
Lemma main_start_run :
  main_start cfg scfg fs host
  = if negb (path_exists fs (SERVE_DIRECTORY cfg)) then
      (start_lines cfg scfg
       ++ [ log_line ERROR ($"Serve directory does not exist: "
                            ++ SERVE_DIRECTORY cfg);
            log_line ERROR
              $"Please create the directory or update SERVE_DIRECTORY variable" ],
       Raised (SystemExit 1))
    else if negb (isdir fs (SERVE_DIRECTORY cfg)) then
      (start_lines cfg scfg
       ++ [ log_line ERROR ($"Serve path is not a directory: "
                            ++ SERVE_DIRECTORY cfg) ],
       Raised (SystemExit 1))
    else
      (start_lines cfg scfg
       ++ [ http_server (BIND_ADDRESS scfg) (SERVER_PORT scfg) ],
       bind_server host).
Proof.
  unfold main_start. rewrite !bindP_call.
  destruct (negb (path_exists fs (SERVE_DIRECTORY cfg))); [reflexivity|].
  destruct (negb (isdir fs (SERVE_DIRECTORY cfg))); [reflexivity|].
  cbn. now destruct (bind_server host).
Qed.

Lemma main_serve_run :
  main_serve cfg scfg host = (serving_lines cfg scfg host, serving host).
Proof.
  unfold main_serve. rewrite !bindP_call. cbn. now destruct (serving host).
Qed.

(** Every run of [main], by cases: the served root, the construction
    of the server, the end of [serve_forever]. *)
Lemma main_run :
  main cfg scfg fs lib host
  = if negb (path_exists fs (SERVE_DIRECTORY cfg)) then
      (start_lines cfg scfg
       ++ [ log_line ERROR ($"Serve directory does not exist: "
                            ++ SERVE_DIRECTORY cfg);
            log_line ERROR
              $"Please create the directory or update SERVE_DIRECTORY variable" ]
       ++ final_lines,
       Raised (SystemExit 1))
    else if negb (isdir fs (SERVE_DIRECTORY cfg)) then
      (start_lines cfg scfg
       ++ [ log_line ERROR ($"Serve path is not a directory: "
                            ++ SERVE_DIRECTORY cfg) ]
       ++ final_lines,
       Raised (SystemExit 1))
    else
      let started :=
        start_lines cfg scfg
        ++ [ http_server (BIND_ADDRESS scfg) (SERVER_PORT scfg) ] in
      match bind_server host with
      | Done _ =>
          let served := started ++ serving_lines cfg scfg host in
          match serving host with
          | Done _ => (served ++ final_lines, Done tt)
          | Raised KeyboardInterrupt =>
              (served
               ++ [ interrupt_line; socket_close;
                    log_line INFO $"Server stopped successfully" ]
               ++ final_lines, Done tt)
          | Raised (Exception e) =>
              (served ++ [ failed_line lib e ] ++ final_lines,
               Raised (SystemExit 1))
          | Raised (SystemExit c) =>
              (served ++ final_lines, Raised (SystemExit c))
          end
      | Raised KeyboardInterrupt =>
          (started ++ [ interrupt_line ] ++ final_lines,
           Raised (Exception unbound_server))
      | Raised (Exception e) =>
          (started ++ [ failed_line lib e ] ++ final_lines,
           Raised (SystemExit 1))
      | Raised (SystemExit c) =>
          (started ++ final_lines, Raised (SystemExit c))
      end.
Proof.
  unfold main. rewrite main_start_run, main_serve_run.
  destruct (negb (path_exists fs (SERVE_DIRECTORY cfg))); [reflexivity|].
  destruct (negb (isdir fs (SERVE_DIRECTORY cfg))); [reflexivity|].
  cbv zeta.
  destruct (bind_server host) as [[]|[e| |c]].
  - rewrite bindP_done. cbn [fst snd].
    destruct (serving host) as [[]|[e| |c]]; cbn [try_statement];
      unfold try_statement; cbn -[start_lines serving_lines final_lines];
      rewrite <- ?app_assoc; reflexivity.
  - unfold try_statement. cbn -[start_lines final_lines].
    rewrite <- ?app_assoc. reflexivity.
  - unfold try_statement. cbn -[start_lines final_lines].
    rewrite <- ?app_assoc. reflexivity.
  - unfold try_statement. cbn -[start_lines final_lines].
    rewrite <- ?app_assoc. reflexivity.
Qed.

(** Every run of [main] ends with the lines of the [finally] clause,
    whatever happened: [sys.exit], Ctrl+C or a failure. *)
Theorem main_always_logs_termination :
  exists t, fst (main cfg scfg fs lib host) = t ++ final_lines.
Proof.
  rewrite main_run.
  destruct (negb (path_exists fs _)); [cbn [fst]; rewrite app_assoc; eauto|].
  destruct (negb (isdir fs _)); [cbn [fst]; rewrite app_assoc; eauto|].
  cbv zeta.
  destruct (bind_server host) as [[]|[e| |c]];
    [destruct (serving host) as [[]|[e| |c]]| | |];
    cbn [fst]; rewrite ?app_assoc; eauto.
Qed.

(** A served root that is missing or is not a directory: [main] logs
    the error and exits with status 1; it makes no call but on the
    logger, so that the server is never constructed. *)
Theorem main_refuses_bad_root :
  isdir fs (SERVE_DIRECTORY cfg) = false ->
  snd (main cfg scfg fs lib host) = Raised (SystemExit 1)
  /\ (exists msg, In (log_line ERROR msg) (fst (main cfg scfg fs lib host)))
  /\ (forall c, In c (fst (main cfg scfg fs lib host)) ->
                exists l msg, c = log_line l msg).
Proof.
  intros Hdir. rewrite main_run, Hdir. cbn [negb].
  destruct (negb (path_exists fs (SERVE_DIRECTORY cfg))); cbn [fst snd].
  - repeat split.
    + eexists. apply in_or_app. right. now left.
    + intros c Hc. rewrite !in_app_iff in Hc. cbn in Hc.
      repeat destruct Hc as [Hc|Hc]; subst; try contradiction; eauto.
  - repeat split.
    + eexists. apply in_or_app. right. now left.
    + intros c Hc. rewrite !in_app_iff in Hc. cbn in Hc.
      repeat destruct Hc as [Hc|Hc]; subst; try contradiction; eauto.
Qed.

(** Ctrl+C while the server runs: the socket is closed, after
    [serve_forever] and once, and [main] returns. *)
Theorem main_interrupt_closes_socket :
  isdir fs (SERVE_DIRECTORY cfg) = true ->
  bind_server host = Done tt ->
  serving host = Raised KeyboardInterrupt ->
  main cfg scfg fs lib host
  = (start_lines cfg scfg
     ++ [ http_server (BIND_ADDRESS scfg) (SERVER_PORT scfg) ]
     ++ serving_lines cfg scfg host
     ++ [ interrupt_line; socket_close;
          log_line INFO $"Server stopped successfully" ]
     ++ final_lines,
     Done tt).
Proof.
  intros Hdir Hbind Hserve.
  rewrite main_run, (isdir_exists _ Hdir), Hdir, Hbind, Hserve. cbn [negb].
  cbv zeta. now rewrite <- !app_assoc.
Qed.

(** An exception of the construction of the server (a port in use) or
    of [serve_forever]: [main] logs it as a failure to start and exits
    with status 1; the socket is not closed. *)
Theorem main_failure_exits_1 e :
  isdir fs (SERVE_DIRECTORY cfg) = true ->
  bind_server host = Raised (Exception e)
  \/ (bind_server host = Done tt /\ serving host = Raised (Exception e)) ->
  snd (main cfg scfg fs lib host) = Raised (SystemExit 1)
  /\ In (failed_line lib e) (fst (main cfg scfg fs lib host))
  /\ ~ In socket_close (fst (main cfg scfg fs lib host)).
Proof.
  intros Hdir Hfail.
  rewrite main_run, (isdir_exists _ Hdir), Hdir. cbn [negb]. cbv zeta.
  destruct Hfail as [Hbind | [Hbind Hserve]].
  - rewrite Hbind. cbn [fst snd]. repeat split.
    + rewrite !in_app_iff. right. left. now left.
    + rewrite !in_app_iff. cbn. intros H.
      repeat destruct H as [H|H]; try discriminate; contradiction.
  - rewrite Hbind, Hserve. cbn [fst snd]. repeat split.
    + rewrite !in_app_iff. right. left. now left.
    + rewrite !in_app_iff. cbn. intros H.
      repeat destruct H as [H|H]; try discriminate; contradiction.
Qed.

(** Ctrl+C while the server is constructed: the clause for the
    interrupt reads [server] before it was assigned; [main] ends with
    [UnboundLocalError], without the line that the server stopped. *)
Theorem main_interrupt_before_server :
  isdir fs (SERVE_DIRECTORY cfg) = true ->
  bind_server host = Raised KeyboardInterrupt ->
  main cfg scfg fs lib host
  = (start_lines cfg scfg
     ++ [ http_server (BIND_ADDRESS scfg) (SERVER_PORT scfg) ]
     ++ [ interrupt_line ]
     ++ final_lines,
     Raised (Exception unbound_server)).
Proof.
  intros Hdir Hbind.
  rewrite main_run, (isdir_exists _ Hdir), Hdir, Hbind. cbn [negb].
  cbv zeta. now rewrite <- !app_assoc.
Qed.

(** [setup_logging] never fails and always logs to the console: the
    level is set and the console handler added first.  The directory of
    the log file is made only when the path has one and it does not
    exist.  The file handler is added, last, exactly when that step and
    the opening of the file succeed; otherwise one error is logged. *)
Theorem setup_logging_keeps_console :
  let log_dir := PosixPath.dirname (LOG_FILE scfg) in
  let need_dir := negb (Py.eqb log_dir []) && negb (path_exists fs log_dir) in
  let made :=
    if need_dir then
      match makedirs host log_dir with Ret _ => true | Raise _ => false end
    else true in
  let opened :=
    match open_log host (LOG_FILE scfg) with Ret _ => true | Raise _ => false end in
  snd (setup_logging scfg fs host) = Done tt
  /\ exists rest,
       fst (setup_logging scfg fs host)
       = [set_level INFO; add_handler StreamHandler]
         ++ (if need_dir then [os_makedirs log_dir] else [])
         ++ rest
       /\ (if made && opened
           then rest = [add_handler (FileHandler (LOG_FILE scfg))]
           else exists e,
                  rest = [log_line ERROR ($"Failed to create log file at "
                                          ++ LOG_FILE scfg ++ $": " ++ exn_str e)]
                  /\ (makedirs host log_dir = Raise e
                      \/ open_log host (LOG_FILE scfg) = Raise e)).
Proof.
  cbv zeta. unfold setup_logging, create_file_handler. cbv zeta.
  destruct (negb (Py.eqb (PosixPath.dirname (LOG_FILE scfg)) [])
            && negb (path_exists fs (PosixPath.dirname (LOG_FILE scfg))));
    [destruct (makedirs host (PosixPath.dirname (LOG_FILE scfg))) as [[]|e]|];
    destruct (open_log host (LOG_FILE scfg)) as [[]|e'];
    cbn; (split; [reflexivity|]); eexists; (split; [reflexivity|]);
    try reflexivity; eauto.
Qed.

End StartupFacts.

Lemma main_refuses_bad_root_witness :
  isdir Sample.fs (SERVE_DIRECTORY SampleHost.cfg_file_root) = false
  /\ snd (main SampleHost.cfg_file_root SampleHost.scfg Sample.fs Sample.lib
            SampleHost.host) = Raised (SystemExit 1).
Proof.
  assert (H : isdir Sample.fs (SERVE_DIRECTORY SampleHost.cfg_file_root) = false)
    by (vm_compute; reflexivity).
  split; [exact H|].
  exact (proj1 (main_refuses_bad_root SampleHost.cfg_file_root SampleHost.scfg
                  Sample.fs Sample.lib SampleHost.host H)).
Defined.

Lemma main_interrupt_closes_socket_witness :
  isdir Sample.fs (SERVE_DIRECTORY Sample.cfg) = true
  /\ bind_server SampleHost.host = Done tt
  /\ serving SampleHost.host = Raised KeyboardInterrupt
  /\ main Sample.cfg SampleHost.scfg Sample.fs Sample.lib SampleHost.host
     = (start_lines Sample.cfg SampleHost.scfg
        ++ [ http_server $"0.0.0.0" 7200 ]
        ++ serving_lines Sample.cfg SampleHost.scfg SampleHost.host
        ++ [ interrupt_line; socket_close;
             log_line INFO $"Server stopped successfully" ]
        ++ final_lines,
        Done tt).
Proof.
  assert (H : isdir Sample.fs (SERVE_DIRECTORY Sample.cfg) = true)
    by (vm_compute; reflexivity).
  split; [exact H|]. split; [reflexivity|]. split; [reflexivity|].
  exact (main_interrupt_closes_socket Sample.cfg SampleHost.scfg Sample.fs
           Sample.lib SampleHost.host H eq_refl eq_refl).
Defined.

Lemma main_failure_exits_1_witness :
  isdir Sample.fs (SERVE_DIRECTORY Sample.cfg) = true
  /\ bind_server SampleHost.busy_host = Raised (Exception SampleHost.EADDRINUSE)
  /\ snd (main Sample.cfg SampleHost.scfg Sample.fs Sample.lib
            SampleHost.busy_host) = Raised (SystemExit 1).
Proof.
  assert (H : isdir Sample.fs (SERVE_DIRECTORY Sample.cfg) = true)
    by (vm_compute; reflexivity).
  split; [exact H|]. split; [reflexivity|].
  exact (proj1 (main_failure_exits_1 Sample.cfg SampleHost.scfg Sample.fs
                  Sample.lib SampleHost.busy_host H (or_introl eq_refl))).
Defined.

Lemma main_interrupt_before_server_witness :
  isdir Sample.fs (SERVE_DIRECTORY Sample.cfg) = true
  /\ bind_server SampleHost.hasty_host = Raised KeyboardInterrupt
  /\ snd (main Sample.cfg SampleHost.scfg Sample.fs Sample.lib
            SampleHost.hasty_host) = Raised (Exception unbound_server).
Proof.
  assert (H : isdir Sample.fs (SERVE_DIRECTORY Sample.cfg) = true)
    by (vm_compute; reflexivity).
  split; [exact H|]. split; [reflexivity|].
  exact (f_equal snd
           (main_interrupt_before_server Sample.cfg SampleHost.scfg Sample.fs
              Sample.lib SampleHost.hasty_host H eq_refl)).
Defined.

(** The defaults on a machine where [/var/log] cannot be written: the
    console handler is alone. *)
Example setup_logging_without_file :
  setup_logging SampleHost.scfg Sample.fs SampleHost.busy_host
  = ([ set_level INFO; add_handler StreamHandler; os_makedirs $"/var/log";
       log_line ERROR
         $"Failed to create log file at /var/log/file_server.log: [Errno 13] Permission denied" ],
     Done tt).
Proof. vm_compute. reflexivity. Qed.

(* ===================================================================== *)
(** * The answers of [do_GET] *)
(* ===================================================================== *)

Section Answers.

Variable cfg : Config.
Variable fs : FileSystem.
Variable lib : Library.

(** The loop of [serve_file] only writes chunks. *)
Lemma send_chunks_writes f bytes_sent :
  Forall (fun c => exists b, c = wfile_write b)
    (fst (send_chunks cfg f bytes_sent)).
Proof.
  remember (List.length (data f)) as m eqn:Hm.
  revert f bytes_sent Hm.
  induction m as [m IH] using (well_founded_induction lt_wf).
  intros f bytes_sent Hm. rewrite send_chunks_step.
  destruct (f_read f (BUFFER_SIZE cfg)) as [[[|c cs] f']|e] eqn:Hread;
    try (cbn; constructor).
  rewrite bind_emit. cbn [fst]. constructor; [eauto|].
  apply (IH (List.length (data f'))); [|reflexivity].
  subst m. revert Hread. unfold f_read.
  destruct (BUFFER_SIZE cfg <? -1) eqn:Hlow; [discriminate|].
  destruct (BUFFER_SIZE cfg =? 0) eqn:Hn0; [discriminate|].
  destruct (data f) as [|d ds] eqn:Hd.
  - destruct (read_error f); discriminate.
  - destruct (BUFFER_SIZE cfg <? 0) eqn:Hneg; intros H; inversion H; subst;
      cbn [data].
    + simpl; lia.
    + apply Z.eqb_neq in Hn0. apply Z.ltb_ge in Hneg.
      rewrite length_skipn. simpl List.length. lia.
Qed.

Lemma serve_file_except_statuses file_path e :
  Forall serving_status (fst (serve_file_except lib file_path e)).
Proof.
  rewrite serve_file_except_run. cbn [fst].
  destruct (latin1 (exn_str e)); repeat constructor.
Qed.

Lemma serve_directory_except_statuses dir_path e :
  Forall serving_status (fst (serve_directory_except lib dir_path e)).
Proof.
  rewrite serve_directory_except_run. cbn [fst].
  destruct (latin1 (exn_str e)); repeat constructor.
Qed.

Lemma rescue_statuses request_path o :
  Forall serving_status (rescue lib request_path o).
Proof.
  apply Forall_forall. intros c Hc. apply rescue_calls in Hc.
  destruct Hc as [[msg ->]|[msg ->]]; [exact I | reflexivity].
Qed.

Lemma serve_file_statuses file_path :
  Forall serving_status (trace (serve_file cfg fs lib file_path)).
Proof.
  unfold trace. rewrite serve_file_run. cbn [fst].
  pose proof (serve_file_except_statuses file_path) as Hexc.
  destruct (os_stat fs file_path) as [st|e]; [|apply Hexc].
  constructor; [reflexivity|].
  destruct (latin1 (content_type_of lib file_path)); [|apply Hexc].
  apply Forall_app. split; [repeat constructor|].
  destruct (latin1 (PosixPath.basename file_path)); [|apply Hexc].
  apply Forall_app. split; [repeat constructor|].
  destruct (open_rb fs file_path) as [f|e]; [|apply Hexc].
  apply Forall_app. split.
  - eapply Forall_impl; [|apply send_chunks_writes].
    intros c [b ->]. exact I.
  - destruct (snd (send_chunks cfg f 0)); [repeat constructor | apply Hexc].
Qed.

Lemma serve_directory_statuses dir_path url_path :
  Forall serving_status (trace (serve_directory cfg fs lib dir_path url_path)).
Proof.
  unfold trace. rewrite serve_directory_run. cbn [fst].
  pose proof (serve_directory_except_statuses dir_path) as Hexc.
  destruct (os_listdir fs dir_path) as [children|e]; [|apply Hexc].
  cbv zeta. apply Forall_app. split.
  - eapply Forall_impl; [|apply stat_warnings_logs].
    intros c Hc. destruct c; try discriminate. exact I.
  - destruct (snd (generate_directory_html cfg lib _ url_path)) as [html|e];
      [|apply Hexc].
    destruct (Utf8.encode html).
    + repeat constructor.
    + apply Forall_app. split; [repeat constructor | apply Hexc].
Qed.

(** An [except] clause whose [send_error] raises leaves the answer to
    the clause of [do_GET]. *)
Lemma serve_file_except_answers request_path file_path e t :
  existsb starts_response
    (t ++ fst (serve_file_except lib file_path e)
     ++ rescue lib request_path (snd (serve_file_except lib file_path e)))
  = true.
Proof.
  rewrite existsb_app. apply orb_true_iff. right.
  rewrite serve_file_except_run. cbn [fst snd].
  destruct (latin1 (exn_str e)); [reflexivity|].
  rewrite rescue_latin1_error. reflexivity.
Qed.

Lemma serve_directory_except_answers request_path dir_path e t :
  existsb starts_response
    (t ++ fst (serve_directory_except lib dir_path e)
     ++ rescue lib request_path (snd (serve_directory_except lib dir_path e)))
  = true.
Proof.
  rewrite existsb_app. apply orb_true_iff. right.
  rewrite serve_directory_except_run. cbn [fst snd].
  destruct (latin1 (exn_str e)); [reflexivity|].
  rewrite rescue_latin1_error. reflexivity.
Qed.

Lemma serve_file_answers request_path file_path :
  existsb starts_response
    (fst (serve_file cfg fs lib file_path)
     ++ rescue lib request_path (snd (serve_file cfg fs lib file_path)))
  = true.
Proof.
  rewrite serve_file_run. cbn [fst snd].
  destruct (os_stat fs file_path) as [st|e]; [reflexivity|].
  apply (serve_file_except_answers request_path file_path e []).
Qed.

Lemma serve_directory_answers request_path dir_path url_path :
  existsb starts_response
    (fst (serve_directory cfg fs lib dir_path url_path)
     ++ rescue lib request_path
          (snd (serve_directory cfg fs lib dir_path url_path)))
  = true.
Proof.
  rewrite serve_directory_run. cbn [fst snd].
  destruct (os_listdir fs dir_path) as [children|e].
  2:{ apply (serve_directory_except_answers request_path dir_path e []). }
  cbv zeta. rewrite <- app_assoc.
  destruct (snd (generate_directory_html cfg lib _ url_path)) as [html|e].
  2:{ apply serve_directory_except_answers. }
  rewrite existsb_app. apply orb_true_iff. right.
  destruct (Utf8.encode html); reflexivity.
Qed.

(** Every request gets an answer: some response is started; a status
    sent by [send_response] is 200, one sent by [send_error] is 403,
    404 or 500; 403 is sent exactly when the resolved path fails the
    check, 404 exactly when it passes and is neither a directory nor a
    regular file. *)
Theorem do_GET_always_answers request_path :
  let full_path := full_path_of cfg (parse_path cfg request_path) in
  let t := trace (do_GET cfg fs lib request_path) in
  existsb starts_response t = true
  /\ (forall code, In (send_response code) t -> code = 200)
  /\ (forall code message,
        In (send_error code message) t ->
        code = 403 \/ code = 404 \/ code = 500)
  /\ ((exists message, In (send_error 403 message) t)
      <-> within_serve_directory cfg fs full_path = false)
  /\ ((exists message, In (send_error 404 message) t)
      <-> within_serve_directory cfg fs full_path = true
          /\ isdir fs full_path = false /\ isfile fs full_path = false).
Proof.
  intros full_path t. subst t. unfold trace.
  rewrite do_GET_run. cbv zeta. fold full_path. cbn [fst snd].
  assert (Hd : forall c,
             In c (fst (serve_directory cfg fs lib full_path
                          (parse_path cfg request_path))
                   ++ rescue lib request_path
                        (snd (serve_directory cfg fs lib full_path
                                (parse_path cfg request_path)))) ->
             serving_status c).
  { apply Forall_forall, Forall_app. split;
      [apply serve_directory_statuses | apply rescue_statuses]. }
  assert (Hf : forall c,
             In c (fst (serve_file cfg fs lib full_path)
                   ++ rescue lib request_path
                        (snd (serve_file cfg fs lib full_path))) ->
             serving_status c).
  { apply Forall_forall, Forall_app. split;
      [apply serve_file_statuses | apply rescue_statuses]. }
  pose proof (serve_directory_answers request_path full_path
                (parse_path cfg request_path)) as Hda.
  pose proof (serve_file_answers request_path full_path) as Hfa.
  destruct (within_serve_directory cfg fs full_path); cbn [negb].
  2:{ split; [reflexivity|].
      split; [intros code [H|[H|[]]]; discriminate|].
      split; [intros code m [H|[H|[]]]; [discriminate|]; inversion H; auto|].
      split; [split; [reflexivity | intros _; eexists; right; left; reflexivity]|].
      split; [intros (m & [H|[H|[]]]); discriminate | intros (H & _); discriminate]. }
  destruct (isdir fs full_path).
  - split; [exact Hda|].
    split; [intros code [H|H]; [discriminate | exact (Hd _ H)]|].
    split; [intros code m [H|H]; [discriminate | right; right; exact (Hd _ H)]|].
    split; [split; [|discriminate];
            intros (m & [H|H]); [discriminate | apply Hd in H; discriminate]|].
    split; [|intros (_ & H & _); discriminate].
    intros (m & [H|H]); [discriminate | apply Hd in H; discriminate].
  - destruct (isfile fs full_path).
    + split; [exact Hfa|].
      split; [intros code [H|H]; [discriminate | exact (Hf _ H)]|].
      split; [intros code m [H|H]; [discriminate | right; right; exact (Hf _ H)]|].
      split; [split; [|discriminate];
              intros (m & [H|H]); [discriminate | apply Hf in H; discriminate]|].
      split; [|intros (_ & _ & H); discriminate].
      intros (m & [H|H]); [discriminate | apply Hf in H; discriminate].
    + split; [reflexivity|].
      split; [intros code [H|[H|[H|[]]]]; discriminate|].
      split; [intros code m [H|[H|[H|[]]]]; try discriminate; inversion H; auto|].
      split; [split; [|discriminate]; intros (m & [H|[H|[H|[]]]]); discriminate|].
      split; [auto|]. intros _. eexists. right. right. left. reflexivity.
Qed.

End Answers.

(* ===================================================================== *)
(** * The root-relative path *)
(* ===================================================================== *)

Lemma split_hd_no_sep c s : ~ In c (hd [] (Py.split c s)).
Proof.
  induction s as [|x s IH]; cbn; [tauto|].
  unfold Py.char_eqb. destruct (N.eqb_spec x c) as [->|Hx]; [cbn; tauto|].
  destruct (Py.split c s) as [|w ws]; cbn in *; intuition congruence.
Qed.

Lemma split_hd_plain c s : ~ In c s -> hd [] (Py.split c s) = s.
Proof.
  induction s as [|x s IH]; cbn; [reflexivity|]. intros H.
  unfold Py.char_eqb. destruct (N.eqb_spec x c) as [->|Hx]; [tauto|].
  assert (Hs : ~ In c s) by tauto. specialize (IH Hs).
  destruct (Py.split c s) as [|w ws]; cbn in *; [now subst | now subst].
Qed.

Lemma split_hd_app c a q :
  ~ In c a -> hd [] (Py.split c (a ++ c :: q)) = a.
Proof.
  induction a as [|x a IH]; cbn.
  - unfold Py.char_eqb. now rewrite N.eqb_refl.
  - intros H. unfold Py.char_eqb.
    destruct (N.eqb_spec x c) as [->|Hx]; [tauto|].
    assert (Ha : ~ In c a) by tauto. specialize (IH Ha).
    destruct (Py.split c (a ++ c :: q)) as [|w ws]; cbn in *; now subst.
Qed.

(** A prefix without [c] that is not found in [d] is not found when
    [c] and more follow [d]. *)
Lemma startswith_cut d c q p :
  ~ In c p ->
  Py.startswith (d ++ c :: q) p = Py.startswith d p.
Proof.
  revert d. induction p as [|y p IH]; intros d Hp; [reflexivity|].
  destruct d as [|x d]; cbn.
  - unfold Py.char_eqb. destruct (N.eqb_spec c y) as [->|Hy]; [|reflexivity].
    exfalso. apply Hp. now left.
  - f_equal. apply IH. intros H. apply Hp. now right.
Qed.

Lemma In_skipn {A} (x : A) n l : In x (skipn n l) -> In x l.
Proof.
  revert l. induction n as [|n IH]; intros [|y l]; cbn; auto.
Qed.

Section RelativePath.

Variable cfg : Config.
Variable fs : FileSystem.
Variable lib : Library.

(** The clause of [do_GET] names the request in its log line only. *)
Lemma rescue_parsed r r' o :
  (forall e, o = Raise e -> exists line, e = latin1_error line) ->
  responses (rescue lib r' o) = responses (rescue lib r o)
  /\ ((forall message,
         ~ In (send_error 500 ($"Internal server error: " ++ message))
             (rescue lib r o)) ->
      rescue lib r' o = rescue lib r o).
Proof.
  intros Ho. destruct o as [u|e]; [split; reflexivity|].
  destruct (Ho e eq_refl) as [line ->].
  rewrite !rescue_latin1_error. split; [reflexivity|].
  intros H. exfalso. apply (H (exn_str (latin1_error line))).
  right. left. reflexivity.
Qed.

(** The response depends on the request through [parsed_path] only; so
    do the lines of the log, but for the one of the [except] clause of
    [do_GET], which names the request. *)
Lemma do_GET_parsed r r' :
  parse_path cfg r' = parse_path cfg r ->
  responses (trace (do_GET cfg fs lib r'))
  = responses (trace (do_GET cfg fs lib r))
  /\ ((forall message,
         ~ In (send_error 500 ($"Internal server error: " ++ message))
             (trace (do_GET cfg fs lib r))) ->
      trace (do_GET cfg fs lib r') = trace (do_GET cfg fs lib r)).
Proof.
  intros H. unfold trace. rewrite !do_GET_run. cbv zeta. rewrite H.
  cbn [fst].
  set (parsed_path := parse_path cfg r).
  set (full_path := full_path_of cfg parsed_path).
  destruct (negb (within_serve_directory cfg fs full_path));
    [split; reflexivity|].
  destruct (isdir fs full_path).
  - destruct (@rescue_parsed r r'
                (snd (serve_directory cfg fs lib full_path parsed_path)))
      as [Hr Ht].
    { intros e He. now apply serve_directory_raises in He. }
    split.
    + unfold responses in *. cbn [filter is_log negb].
      now rewrite !filter_app, Hr.
    + intros Hno. rewrite Ht; [reflexivity|].
      intros message Hin. apply (Hno message). right.
      apply in_or_app. now right.
  - destruct (isfile fs full_path); [|split; reflexivity].
    destruct (@rescue_parsed r r' (snd (serve_file cfg fs lib full_path)))
      as [Hr Ht].
    { intros e He. now apply serve_file_raises in He. }
    split.
    + unfold responses in *. cbn [filter is_log negb].
      now rewrite !filter_app, Hr.
    + intros Hno. rewrite Ht; [reflexivity|].
      intros message Hin. apply (Hno message). right.
      apply in_or_app. now right.
Qed.

(** The root-relative path that [do_GET] resolves starts with a slash
    and holds no question mark, whatever the request: a file whose name
    holds one cannot be requested, also with [%3F]. *)
Theorem parsed_path_shape request_path :
  Py.startswith (parse_path cfg request_path) $"/" = true
  /\ ~ In (Py.ch "?") (parse_path cfg request_path).
Proof.
  split; [apply parse_path_starts_with_slash|].
  unfold parse_path. cbv zeta. apply split_hd_no_sep.
Qed.

(** The query string is ignored: a decoded path and the same followed
    by a question mark and anything get the same response (the base
    path holding no question mark).  The lines of the log are the same
    too, unless the [except] clause of [do_GET] answered: its line
    names the request as it came. *)
Theorem query_string_is_ignored request_path request_path' query :
  ~ In (Py.ch "?") (Urllib.unquote request_path) ->
  ~ In (Py.ch "?") (BASE_PATH cfg) ->
  Urllib.unquote request_path'
  = Urllib.unquote request_path ++ Py.ch "?" :: query ->
  parse_path cfg request_path' = parse_path cfg request_path
  /\ responses (trace (do_GET cfg fs lib request_path'))
     = responses (trace (do_GET cfg fs lib request_path))
  /\ ((forall message,
         ~ In (send_error 500 ($"Internal server error: " ++ message))
             (trace (do_GET cfg fs lib request_path))) ->
      trace (do_GET cfg fs lib request_path')
      = trace (do_GET cfg fs lib request_path)).
Proof.
  intros Hd Hb Hq.
  assert (Hp : parse_path cfg request_path' = parse_path cfg request_path).
  { unfold parse_path. cbv zeta. rewrite Hq.
    set (d := Urllib.unquote request_path) in *.
    rewrite (@startswith_cut d _ query _ Hb).
    assert (Hcut : forall p : pystr,
               ~ In (Py.ch "?") p ->
               hd [] (Py.split (Py.ch "?")
                        (if negb (Py.startswith (p ++ Py.ch "?" :: query) $"/")
                         then $"/" ++ p ++ Py.ch "?" :: query
                         else p ++ Py.ch "?" :: query))
               = hd [] (Py.split (Py.ch "?")
                          (if negb (Py.startswith p $"/")
                           then $"/" ++ p else p))).
    { intros p Hp.
      assert (Hs : Py.startswith (p ++ Py.ch "?" :: query) $"/"
                   = Py.startswith p $"/")
        by (apply startswith_cut; cbn; intros [H|[]]; discriminate).
      rewrite Hs. destruct (negb (Py.startswith p $"/")).
      - change ($"/" ++ p ++ Py.ch "?" :: query)
          with (($"/" ++ p) ++ Py.ch "?" :: query).
        assert (Hp' : ~ In (Py.ch "?") ($"/" ++ p))
          by (cbn; intros [H|H]; [discriminate | tauto]).
        now rewrite (@split_hd_app _ _ query Hp'), (@split_hd_plain _ _ Hp').
      - now rewrite (@split_hd_app _ _ query Hp), (@split_hd_plain _ _ Hp). }
    destruct (Py.startswith d (BASE_PATH cfg)) eqn:E.
    - apply startswith_iff in E. destruct E as [t Ht].
      rewrite Ht, <- app_assoc, !skipn_app, !skipn_all, Nat.sub_diag.
      cbn [skipn app]. apply Hcut. intros H. apply Hd. rewrite Ht.
      apply in_or_app. now right.
    - now apply Hcut. }
  split; [exact Hp | now apply do_GET_parsed].
Qed.

(** The base path is optional: a decoded path that does not begin with
    it and the same path after it get the same response.  The lines of
    the log are the same too, unless the [except] clause of [do_GET]
    answered: its line names the request as it came. *)
Theorem base_path_is_optional request_path request_path' :
  Py.startswith (Urllib.unquote request_path) (BASE_PATH cfg) = false ->
  Urllib.unquote request_path' = BASE_PATH cfg ++ Urllib.unquote request_path ->
  parse_path cfg request_path' = parse_path cfg request_path
  /\ responses (trace (do_GET cfg fs lib request_path'))
     = responses (trace (do_GET cfg fs lib request_path))
  /\ ((forall message,
         ~ In (send_error 500 ($"Internal server error: " ++ message))
             (trace (do_GET cfg fs lib request_path))) ->
      trace (do_GET cfg fs lib request_path')
      = trace (do_GET cfg fs lib request_path)).
Proof.
  intros Hno Hq.
  assert (Hp : parse_path cfg request_path' = parse_path cfg request_path).
  { unfold parse_path. cbv zeta. rewrite Hq, Hno, startswith_app.
    now rewrite skipn_app, skipn_all, Nat.sub_diag. }
  split; [exact Hp | now apply do_GET_parsed].
Qed.

End RelativePath.

Lemma query_string_is_ignored_witness :
  ~ In (Py.ch "?") (Urllib.unquote $"/wt/sub/")
  /\ ~ In (Py.ch "?") (BASE_PATH Sample.cfg)
  /\ Urllib.unquote $"/wt/sub/?C=M;O=A"
     = Urllib.unquote $"/wt/sub/" ++ Py.ch "?" :: $"C=M;O=A"
  /\ parse_path Sample.cfg $"/wt/sub/?C=M;O=A" = parse_path Sample.cfg $"/wt/sub/".
Proof.
  assert (H1 : ~ In (Py.ch "?") (Urllib.unquote $"/wt/sub/"))
    by (vm_compute; intuition discriminate).
  assert (H2 : ~ In (Py.ch "?") (BASE_PATH Sample.cfg))
    by (vm_compute; intuition discriminate).
  assert (H3 : Urllib.unquote $"/wt/sub/?C=M;O=A"
               = Urllib.unquote $"/wt/sub/" ++ Py.ch "?" :: $"C=M;O=A")
    by reflexivity.
  split; [exact H1|]. split; [exact H2|]. split; [exact H3|].
  exact (proj1 (@query_string_is_ignored Sample.cfg Sample.fs Sample.lib
                  $"/wt/sub/" $"/wt/sub/?C=M;O=A" $"C=M;O=A" H1 H2 H3)).
Defined.

Lemma base_path_is_optional_witness :
  Py.startswith (Urllib.unquote $"/sub/x.json") (BASE_PATH Sample.cfg) = false
  /\ Urllib.unquote $"/wt/sub/x.json"
     = BASE_PATH Sample.cfg ++ Urllib.unquote $"/sub/x.json"
  /\ parse_path Sample.cfg $"/wt/sub/x.json" = parse_path Sample.cfg $"/sub/x.json".
Proof.
  assert (H1 : Py.startswith (Urllib.unquote $"/sub/x.json")
                 (BASE_PATH Sample.cfg) = false) by reflexivity.
  assert (H2 : Urllib.unquote $"/wt/sub/x.json"
               = BASE_PATH Sample.cfg ++ Urllib.unquote $"/sub/x.json")
    by reflexivity.
  split; [exact H1|]. split; [exact H2|].
  exact (proj1 (@base_path_is_optional Sample.cfg Sample.fs Sample.lib
                  $"/sub/x.json" $"/wt/sub/x.json" H1 H2)).
Defined.

(** The base path is cut as characters, not as a segment, and a
    percent-encoded question mark cuts the path like a plain one. *)
Example base_path_and_query_edges :
  parse_path Sample.cfg $"/wtsub/x.json" = $"/sub/x.json"
  /\ parse_path Sample.cfg $"/wt/wt/a" = $"/wt/a"
  /\ parse_path Sample.cfg $"/wt/a%3Fb.txt" = $"/a".
Proof. repeat split. Qed.

(* ===================================================================== *)
(** * The resolved path *)
(* ===================================================================== *)

Lemma normpath_unfold p :
  PosixPath.normpath p
  = if Py.eqb p [] then $"."
    else
      let out :=
        repeat PosixPath.sep (initial_slashes p)
        ++ Py.join [PosixPath.sep]
             (fold_left (PosixPath.normpath_step (initial_slashes p))
                (Py.split PosixPath.sep p) []) in
      if Py.eqb out [] then $"." else out.
Proof. reflexivity. Qed.

Lemma split_no_sep c s : Forall (fun w => ~ In c w) (Py.split c s).
Proof.
  induction s as [|x s IH]; cbn; [repeat constructor; tauto|].
  unfold Py.char_eqb. destruct (N.eqb_spec x c) as [->|Hx].
  - constructor; [tauto | exact IH].
  - destruct (Py.split c s) as [|w ws]; [repeat constructor; cbn; intuition|].
    inversion IH; subst. constructor; [|assumption].
    cbn. intuition.
Qed.

Lemma split_cons_sep c s : Py.split c (c :: s) = [] :: Py.split c s.
Proof. cbn. unfold Py.char_eqb. now rewrite N.eqb_refl. Qed.

(** Splitting distributes over a separator. *)
Lemma split_app c a b :
  Py.split c (a ++ c :: b) = Py.split c a ++ Py.split c b.
Proof.
  induction a as [|x a IH].
  - cbn [app]. now rewrite split_cons_sep.
  - cbn [app Py.split]. destruct (Py.char_eqb x c); rewrite IH; [reflexivity|].
    pose proof (split_nonempty c a) as Hne.
    destruct (Py.split c a); [contradiction|reflexivity].
Qed.

Lemma Forall_removelast {A} (P : A -> Prop) l :
  Forall P l -> Forall P (removelast l).
Proof.
  induction 1 as [|x l Hx Hl IH]; cbn; [constructor|].
  destruct l; [constructor|]. constructor; assumption.
Qed.

Lemma last_In {A} (l : list A) d : l <> [] -> In (last l d) l.
Proof.
  induction l as [|x l IH]; [congruence|]. intros _.
  destruct l as [|y l]; [now left|]. right. apply IH. discriminate.
Qed.

(** With initial slashes, the loop of [normpath] keeps plain components
    only. *)
Lemma normpath_step_plain k new_comps comp :
  k <> 0%nat -> Forall plain_component new_comps -> ~ In PosixPath.sep comp ->
  Forall plain_component (PosixPath.normpath_step k new_comps comp).
Proof.
  intros Hk Hnc Hsep. unfold PosixPath.normpath_step.
  destruct (Py.eqb comp []) eqn:E0; [assumption|].
  destruct (Py.eqb comp $".") eqn:E1; [assumption|]. cbn [orb].
  apply py_eqb_neq in E0, E1.
  destruct (Py.eqb comp $"..") eqn:E2; cbn [negb orb].
  - replace (Nat.eqb k 0) with false by (symmetry; now apply Nat.eqb_neq).
    cbn [andb orb].
    destruct new_comps as [|c cs]; [constructor|].
    destruct (Py.eqb (last (c :: cs) []) $"..") eqn:E3.
    + exfalso. apply py_eqb_eq in E3.
      assert (Hin : In (last (c :: cs) []) (c :: cs))
        by (apply last_In; discriminate).
      rewrite Forall_forall in Hnc. destruct (Hnc _ Hin) as (_ & _ & H & _).
      now apply H.
    + now apply Forall_removelast.
  - apply py_eqb_neq in E2. apply Forall_app. split; [assumption|].
    repeat constructor; assumption.
Qed.

Lemma normpath_fold_plain k comps new_comps :
  k <> 0%nat -> Forall plain_component new_comps ->
  Forall (fun c => ~ In PosixPath.sep c) comps ->
  Forall plain_component
    (fold_left (PosixPath.normpath_step k) comps new_comps).
Proof.
  intros Hk. revert new_comps.
  induction comps as [|c comps IH]; intros nc Hnc Hc; [assumption|].
  inversion Hc; subst. cbn [fold_left]. apply IH; [|assumption].
  now apply normpath_step_plain.
Qed.

(** Components other than [..] are appended, or skipped. *)
Lemma normpath_fold_append k comps new_comps :
  Forall (fun c => c <> $"..") comps ->
  fold_left (PosixPath.normpath_step k) comps new_comps
  = new_comps ++ filter kept_component comps.
Proof.
  revert new_comps. induction comps as [|c comps IH]; intros nc Hc.
  - cbn. now rewrite app_nil_r.
  - inversion Hc as [|? ? Hc1 Hc2]; subst. cbn [fold_left filter].
    rewrite IH by assumption. unfold PosixPath.normpath_step, kept_component.
    destruct (Py.eqb c [] || Py.eqb c $"."); cbn [negb]; [reflexivity|].
    apply py_eqb_neq in Hc1. rewrite Hc1. cbn [negb orb].
    now rewrite <- app_assoc.
Qed.

Lemma initial_slashes_range p :
  Py.startswith p [PosixPath.sep] = true ->
  initial_slashes p = 1%nat \/ initial_slashes p = 2%nat.
Proof.
  intros H. unfold initial_slashes. rewrite H.
  destruct (_ && _); auto.
Qed.

(** A tail that does not begin with a separator does not change the
    run of separators at the front. *)
Lemma startswith_seps_tail a tail p :
  Py.startswith tail [PosixPath.sep] = false ->
  Forall (eq PosixPath.sep) p ->
  Py.startswith (a ++ tail) p = Py.startswith a p.
Proof.
  intros Ht. revert p. induction a as [|y a IH]; intros p Hp.
  - destruct p as [|c p]; [reflexivity|]. inversion Hp; subst.
    cbn [app]. destruct tail as [|z tail]; [reflexivity|].
    cbn [Py.startswith] in *. rewrite andb_true_r in Ht. now rewrite Ht.
  - destruct p as [|c p]; [reflexivity|]. inversion Hp; subst.
    cbn [app Py.startswith]. f_equal. now apply IH.
Qed.

Lemma initial_slashes_tail a tail :
  Py.startswith tail [PosixPath.sep] = false ->
  initial_slashes (a ++ tail) = initial_slashes a.
Proof.
  intros Ht. unfold initial_slashes.
  now rewrite !(startswith_seps_tail a tail Ht) by repeat constructor.
Qed.

Lemma initial_slashes_mid s x tail :
  Py.char_eqb x PosixPath.sep = false ->
  initial_slashes ((s ++ [x]) ++ tail) = initial_slashes (s ++ [x]).
Proof.
  intros Hx. rewrite <- app_assoc.
  rewrite (initial_slashes_tail s ([x] ++ tail)), (initial_slashes_tail s [x]);
    [reflexivity | |]; cbn [app Py.startswith]; now rewrite Hx.
Qed.

Lemma lstrip_no_sep c s : Py.startswith (Py.lstrip c s) [c] = false.
Proof.
  destruct (lstrip_spec c s) as (k & _ & [H | (x & t & H & Hx)]); rewrite H.
  - reflexivity.
  - cbn. unfold Py.char_eqb.
    destruct (N.eqb_spec x c); [contradiction|reflexivity].
Qed.

Lemma split_repeat_sep c k s :
  Py.split c (repeat c k ++ s) = repeat [] k ++ Py.split c s.
Proof.
  induction k as [|k IH]; [reflexivity|].
  cbn [repeat app]. now rewrite split_cons_sep, IH.
Qed.

Lemma join_app_prefix sep a b :
  exists t, Py.join sep (a ++ b) = Py.join sep a ++ t
            /\ (a <> [] -> b <> [] -> exists t', t = sep ++ t').
Proof.
  induction a as [|x a IH].
  - exists (Py.join sep b). split; [reflexivity|]. congruence.
  - destruct IH as (t & Ht & Hsep).
    destruct a as [|y a].
    + cbn [app]. destruct b as [|z b].
      * exists []. split; [now rewrite app_nil_r|]. congruence.
      * exists (sep ++ Py.join sep (z :: b)). split; [reflexivity|]. eauto.
    + exists t. split.
      * change (Py.join sep ((x :: y :: a) ++ b))
          with (x ++ sep ++ Py.join sep ((y :: a) ++ b)).
        rewrite Ht. change (Py.join sep (x :: y :: a))
          with (x ++ sep ++ Py.join sep (y :: a)).
        now rewrite <- !app_assoc.
      * intros _ Hb. apply Hsep; [discriminate | assumption].
Qed.

Lemma join_absolute root x :
  PosixPath.isabs root = true ->
  Py.startswith (PosixPath.join root x) [PosixPath.sep] = true.
Proof.
  unfold PosixPath.isabs, PosixPath.join. intros Habs.
  destruct (Py.startswith x [PosixPath.sep]) eqn:Ex; [assumption|].
  destruct root as [|c root]; [discriminate|].
  cbn [Py.startswith] in Habs. rewrite andb_true_r in Habs.
  destruct (_ || _); cbn [app Py.startswith]; now rewrite Habs.
Qed.

Lemma normpath_step_skip k new_comps :
  PosixPath.normpath_step k new_comps [] = new_comps.
Proof. reflexivity. Qed.

(** Joining a relative path to an absolute root: the components of the
    root come first, and the initial slashes are those of the root. *)
Lemma join_components root x :
  PosixPath.isabs root = true ->
  Py.startswith x [PosixPath.sep] = false ->
  initial_slashes (PosixPath.join root x) = initial_slashes root
  /\ exists pre,
       Py.split PosixPath.sep (PosixPath.join root x)
       = pre ++ Py.split PosixPath.sep x
       /\ forall k,
            fold_left (PosixPath.normpath_step k) pre []
            = fold_left (PosixPath.normpath_step k)
                (Py.split PosixPath.sep root) [].
Proof.
  intros Habs Hx. unfold PosixPath.join. rewrite Hx.
  assert (Hne : root <> []) by (intros E; rewrite E in Habs; discriminate).
  replace (Py.eqb root []) with false
    by (symmetry; now apply py_eqb_neq). cbn [orb].
  destruct (exists_last Hne) as (s & c & ->).
  rewrite endswith_last.
  destruct (Py.char_eqb c PosixPath.sep) eqn:Ec.
  - apply N.eqb_eq in Ec. subst c. split.
    + now apply initial_slashes_tail.
    + exists (Py.split PosixPath.sep s). split.
      * rewrite <- app_assoc. cbn [app]. apply split_app.
      * intros k. rewrite split_app_sep, fold_left_app. reflexivity.
  - split.
    + now apply initial_slashes_mid.
    + exists (Py.split PosixPath.sep (s ++ [c])). split.
      * cbn [app]. apply split_app.
      * reflexivity.
Qed.

Lemma repeat_sep_nonempty k (rest : pystr) :
  k = 1%nat \/ k = 2%nat ->
  Py.eqb (repeat PosixPath.sep k ++ rest) [] = false.
Proof. intros [->| ->]; reflexivity. Qed.

Section Normalized.

Variable cfg : Config.
Variable fs : FileSystem.
Variable lib : Library.

(** With an absolute [SERVE_DIRECTORY], the path that [do_GET] checks
    and hands to the file system is normalized: one or two slashes,
    then components separated by single slashes, none of them empty,
    [.] or [..]. *)
Theorem full_path_is_normalized parsed_path :
  PosixPath.isabs (SERVE_DIRECTORY cfg) = true ->
  exists k comps,
    (k = 1%nat \/ k = 2%nat)
    /\ full_path_of cfg parsed_path
       = repeat PosixPath.sep k ++ Py.join [PosixPath.sep] comps
    /\ Forall plain_component comps.
Proof.
  intros Habs. unfold full_path_of.
  set (j := PosixPath.join (SERVE_DIRECTORY cfg)
              (Py.lstrip PosixPath.sep parsed_path)).
  pose proof (join_absolute _ (Py.lstrip PosixPath.sep parsed_path) Habs) as Hj.
  fold j in Hj.
  pose proof (initial_slashes_range _ Hj) as Hk.
  rewrite normpath_unfold.
  replace (Py.eqb j []) with false
    by (symmetry; apply py_eqb_neq; intros E; rewrite E in Hj; discriminate).
  cbv zeta. rewrite (repeat_sep_nonempty _ Hk).
  exists (initial_slashes j), (fold_left
            (PosixPath.normpath_step (initial_slashes j))
            (Py.split PosixPath.sep j) []).
  split; [assumption|]. split; [reflexivity|].
  apply normpath_fold_plain.
  - destruct Hk as [-> | ->]; discriminate.
  - constructor.
  - apply split_no_sep.
Qed.

(** With an absolute [SERVE_DIRECTORY], a request whose root-relative
    path has no [..] segment resolves inside the served root: it passes
    the check and never gets the 403 response. *)
Theorem dot_dot_free_requests_pass request_path :
  PosixPath.isabs (SERVE_DIRECTORY cfg) = true ->
  ~ In $".." (Py.split PosixPath.sep (parse_path cfg request_path)) ->
  let root := PosixPath.abspath (getcwd fs) (SERVE_DIRECTORY cfg) in
  let full_path := full_path_of cfg (parse_path cfg request_path) in
  Spec.path_inside root full_path = true
  /\ within_serve_directory cfg fs full_path = true
  /\ forall message,
       ~ In (send_error 403 message) (trace (do_GET cfg fs lib request_path)).
Proof.
  intros Habs Hdots root full_path.
  assert (Hin : Spec.path_inside root full_path = true).
  { subst root full_path. unfold PosixPath.abspath, full_path_of.
    rewrite Habs.
    set (x := Py.lstrip PosixPath.sep (parse_path cfg request_path)).
    assert (Hx : Py.startswith x [PosixPath.sep] = false)
      by apply lstrip_no_sep.
    assert (Hxd : Forall (fun c => c <> $"..") (Py.split PosixPath.sep x)).
    { apply Forall_forall. intros c Hc E. subst c. apply Hdots.
      destruct (lstrip_spec PosixPath.sep (parse_path cfg request_path))
        as (k & Hs & _).
      fold x in Hs. rewrite Hs, split_repeat_sep. apply in_or_app. now right. }
    destruct (join_components _ x Habs Hx) as (Hinit & pre & Hsplit & Hpre).
    pose proof (join_absolute _ x Habs) as Hj.
    set (j := PosixPath.join (SERVE_DIRECTORY cfg) x) in *.
    assert (Hroot : Py.startswith (SERVE_DIRECTORY cfg) [PosixPath.sep] = true)
      by exact Habs.
    pose proof (initial_slashes_range _ Hroot) as Hk.
    rewrite !normpath_unfold.
    replace (Py.eqb j []) with false
      by (symmetry; apply py_eqb_neq; intros E; rewrite E in Hj; discriminate).
    replace (Py.eqb (SERVE_DIRECTORY cfg) []) with false
      by (symmetry; apply py_eqb_neq; intros E; rewrite E in Hroot;
          discriminate).
    cbv zeta. rewrite Hinit, Hsplit, fold_left_app, Hpre.
    set (k := initial_slashes (SERVE_DIRECTORY cfg)) in *.
    set (ncr := fold_left (PosixPath.normpath_step k)
                  (Py.split PosixPath.sep (SERVE_DIRECTORY cfg)) []).
    pose proof (@normpath_fold_append k _ ncr Hxd) as Hap.
    unfold pystr, Py.str, Py.char in *. rewrite Hap.
    rewrite !(repeat_sep_nonempty _ Hk).
    set (ex := @filter (list N) kept_component (Py.split PosixPath.sep x)).
    clear Hap. clearbody ex ncr. clearbody k.
    unfold Spec.path_inside. apply orb_true_iff.
    destruct ex as [|e ex'].
    { left. rewrite app_nil_r. apply py_eqb_refl. }
    right.
    destruct (join_app_prefix [PosixPath.sep] ncr (e :: ex')) as (t & Ht & Hsep).
    unfold pystr, Py.str, Py.char in *. rewrite Ht.
    destruct ncr as [|c ncr'].
    - assert (HR : Py.endswith
                     (repeat PosixPath.sep k ++ Py.join [PosixPath.sep] [])
                     [PosixPath.sep] = true)
        by (destruct Hk as [-> | ->]; reflexivity).
      unfold pystr, Py.str, Py.char in *.
      rewrite HR. rewrite app_assoc. apply startswith_app.
    - destruct (Hsep ltac:(discriminate) ltac:(discriminate)) as (t' & ->).
      match goal with
      | |- context [Py.endswith ?a ?b] => destruct (Py.endswith a b)
      end.
      + rewrite app_assoc. apply startswith_app.
      + rewrite !app_assoc. apply startswith_app. }
  split; [exact Hin|].
  assert (Hw : within_serve_directory cfg fs full_path = true)
    by (apply path_inside_within; exact Hin).
  split; [exact Hw|].
  intros message. unfold trace. rewrite do_GET_run. cbv zeta.
  fold full_path. rewrite Hw. cbn [negb fst].
  intros [H|H]; [discriminate|].
  assert (Hres : forall o, ~ In (send_error 403 message)
                             (rescue lib request_path o)).
  { intros o Hr. apply rescue_calls in Hr.
    destruct Hr as [[msg Hr]|[msg Hr]]; discriminate. }
  destruct (isdir fs full_path).
  - apply in_app_or in H. destruct H as [H|H]; [|now apply Hres in H].
    pose proof (serve_directory_errors _ _ _ _ _ _ _ H) as Hc. discriminate.
  - destruct (isfile fs full_path).
    + apply in_app_or in H. destruct H as [H|H]; [|now apply Hres in H].
      pose proof (serve_file_statuses cfg fs lib full_path) as Hf.
      rewrite Forall_forall in Hf. apply Hf in H. discriminate.
    + destruct H as [H|[H|[]]]; discriminate.
Qed.

End Normalized.

Lemma full_path_is_normalized_witness :
  PosixPath.isabs (SERVE_DIRECTORY Sample.cfg) = true
  /\ exists k comps,
       (k = 1%nat \/ k = 2%nat)
       /\ full_path_of Sample.cfg $"/sub/../A//./x"
          = repeat PosixPath.sep k ++ Py.join [PosixPath.sep] comps
       /\ Forall plain_component comps.
Proof.
  assert (H : PosixPath.isabs (SERVE_DIRECTORY Sample.cfg) = true)
    by reflexivity.
  split; [exact H|].
  exact (full_path_is_normalized Sample.cfg $"/sub/../A//./x" H).
Defined.

Lemma dot_dot_free_requests_pass_witness :
  PosixPath.isabs (SERVE_DIRECTORY Sample.cfg) = true
  /\ ~ In $".." (Py.split PosixPath.sep (parse_path Sample.cfg $"/wt/sub/x.json"))
  /\ within_serve_directory Sample.cfg Sample.fs
       (full_path_of Sample.cfg (parse_path Sample.cfg $"/wt/sub/x.json")) = true.
Proof.
  assert (H1 : PosixPath.isabs (SERVE_DIRECTORY Sample.cfg) = true)
    by reflexivity.
  assert (H2 : ~ In $".." (Py.split PosixPath.sep
                             (parse_path Sample.cfg $"/wt/sub/x.json")))
    by (vm_compute; intuition discriminate).
  split; [exact H1|]. split; [exact H2|].
  exact (proj1 (proj2 (@dot_dot_free_requests_pass Sample.cfg Sample.fs
                         Sample.lib $"/wt/sub/x.json" H1 H2))).
Defined.

(* ===================================================================== *)
(** * Streaming: failures and sizes of the buffer *)
(* ===================================================================== *)

Section StreamingEdges.

Variable cfg : Config.
Variable fs : FileSystem.
Variable lib : Library.




(** With [BUFFER_SIZE=0] the first read is empty and ends the loop: for
    a file whose guessed type and base name latin-1 encodes, the head
    of the response announces the size of the file and no byte of it
    follows. *)
Theorem zero_buffer_sends_no_body file_path st f :
  os_stat fs file_path = Ret st ->
  latin1 (content_type_of lib file_path) = true ->
  latin1 (PosixPath.basename file_path) = true ->
  open_rb fs file_path = Ret f ->
  BUFFER_SIZE cfg = 0 ->
  trace (serve_file cfg fs lib file_path)
  = file_headers lib file_path (st_size st)
    ++ [ logger INFO (served_file_message file_path 0) ].
Proof.
  intros Hst Hct Hcd Hopen Hbuf.
  unfold trace. rewrite (serve_file_trace cfg fs lib file_path Hct Hcd).
  rewrite Hst, Hopen. now rewrite send_chunks_zero.
Qed.

(** With [BUFFER_SIZE=-1] the first read returns the whole file: a file
    that is not empty (its guessed type and base name being text that
    latin-1 encodes) is sent in one write. *)
Theorem negative_buffer_sends_one_chunk file_path st content :
  os_stat fs file_path = Ret st ->
  latin1 (content_type_of lib file_path) = true ->
  latin1 (PosixPath.basename file_path) = true ->
  open_rb fs file_path = Ret (mk_file content None) ->
  content <> [] ->
  BUFFER_SIZE cfg = -1 ->
  trace (serve_file cfg fs lib file_path)
  = file_headers lib file_path (st_size st)
    ++ [ wfile_write content;
         logger INFO (served_file_message file_path (Py.len content)) ].
Proof.
  intros Hst Hct Hcd Hopen Hne Hbuf.
  unfold trace. rewrite (serve_file_trace cfg fs lib file_path Hct Hcd).
  rewrite Hst, Hopen.
  rewrite (send_chunks_negative cfg (mk_file content None) 0 eq_refl Hbuf Hne).
  cbn [fst snd data app]. now rewrite Z.add_0_l.
Qed.

(** With a [BUFFER_SIZE] below -1 no file is sent: the first read is
    refused with [ValueError] when the head of the 200 response is
    complete, and the 500 response follows it, whatever the file
    holds. *)
Theorem buffer_below_minus_one_sends_no_file file_path st f :
  os_stat fs file_path = Ret st ->
  latin1 (content_type_of lib file_path) = true ->
  latin1 (PosixPath.basename file_path) = true ->
  open_rb fs file_path = Ret f ->
  BUFFER_SIZE cfg < -1 ->
  let e := Exn $"ValueError" $"read length must be non-negative or -1" in
  trace (serve_file cfg fs lib file_path)
  = file_headers lib file_path (st_size st)
    ++ [ logger ERROR ($"Error serving file " ++ file_path ++ $": "
                       ++ exn_str e ++ [10%N] ++ format_exc lib e);
         send_error 500 ($"Error serving file: " ++ exn_str e) ].
Proof.
  intros Hst Hct Hcd Hopen Hbuf e.
  unfold trace. rewrite (serve_file_trace cfg fs lib file_path Hct Hcd).
  rewrite Hst, Hopen, (send_chunks_refused cfg f 0 Hbuf). cbn [fst snd app].
  rewrite serve_file_except_run. reflexivity.
Qed.

End StreamingEdges.


Lemma zero_buffer_sends_no_body_witness :
  os_stat Sample.fs $"/withings/b.txt" = Ret (mk_stat RegularFile 12 1700000100)
  /\ open_rb Sample.fs $"/withings/b.txt" = Ret (mk_file Sample.hello None)
  /\ BUFFER_SIZE SampleFaults.cfg0 = 0
  /\ trace (serve_file SampleFaults.cfg0 Sample.fs Sample.lib $"/withings/b.txt")
     = file_headers Sample.lib $"/withings/b.txt" 12
       ++ [ logger INFO (served_file_message $"/withings/b.txt" 0) ].
Proof.
  assert (H1 : os_stat Sample.fs $"/withings/b.txt"
               = Ret (mk_stat RegularFile 12 1700000100)) by reflexivity.
  assert (H2 : open_rb Sample.fs $"/withings/b.txt"
               = Ret (mk_file Sample.hello None)) by reflexivity.
  assert (H3 : BUFFER_SIZE SampleFaults.cfg0 = 0) by reflexivity.
  assert (H4 : latin1 (content_type_of Sample.lib $"/withings/b.txt") = true)
    by reflexivity.
  assert (H5 : latin1 (PosixPath.basename $"/withings/b.txt") = true)
    by reflexivity.
  split; [exact H1|]. split; [exact H2|]. split; [exact H3|].
  exact (@zero_buffer_sends_no_body SampleFaults.cfg0 Sample.fs Sample.lib
           $"/withings/b.txt" _ _ H1 H4 H5 H2 H3).
Defined.

Lemma negative_buffer_sends_one_chunk_witness :
  os_stat Sample.fs $"/withings/b.txt" = Ret (mk_stat RegularFile 12 1700000100)
  /\ open_rb Sample.fs $"/withings/b.txt" = Ret (mk_file Sample.hello None)
  /\ Sample.hello <> []
  /\ BUFFER_SIZE SampleFaults.cfg_negative = -1
  /\ trace (serve_file SampleFaults.cfg_negative Sample.fs Sample.lib
              $"/withings/b.txt")
     = file_headers Sample.lib $"/withings/b.txt" 12
       ++ [ wfile_write Sample.hello;
            logger INFO (served_file_message $"/withings/b.txt"
                           (Py.len Sample.hello)) ].
Proof.
  assert (H1 : os_stat Sample.fs $"/withings/b.txt"
               = Ret (mk_stat RegularFile 12 1700000100)) by reflexivity.
  assert (H2 : open_rb Sample.fs $"/withings/b.txt"
               = Ret (mk_file Sample.hello None)) by reflexivity.
  assert (H3 : Sample.hello <> []) by discriminate.
  assert (H4 : BUFFER_SIZE SampleFaults.cfg_negative = -1) by reflexivity.
  assert (H5 : latin1 (content_type_of Sample.lib $"/withings/b.txt") = true)
    by reflexivity.
  assert (H6 : latin1 (PosixPath.basename $"/withings/b.txt") = true)
    by reflexivity.
  split; [exact H1|]. split; [exact H2|]. split; [exact H3|]. split; [exact H4|].
  exact (@negative_buffer_sends_one_chunk SampleFaults.cfg_negative Sample.fs
           Sample.lib $"/withings/b.txt" _ _ H1 H5 H6 H2 H3 H4).
Defined.

Lemma buffer_below_minus_one_sends_no_file_witness :
  os_stat Sample.fs $"/withings/b.txt" = Ret (mk_stat RegularFile 12 1700000100)
  /\ open_rb Sample.fs $"/withings/b.txt" = Ret (mk_file Sample.hello None)
  /\ BUFFER_SIZE SampleFaults.cfg_minus_two < -1
  /\ trace (serve_file SampleFaults.cfg_minus_two Sample.fs Sample.lib
              $"/withings/b.txt")
     = file_headers Sample.lib $"/withings/b.txt" 12
       ++ [ logger ERROR
              ($"Error serving file /withings/b.txt: read length must be non-negative or -1"
               ++ [10%N] ++ $"Traceback (most recent call last): ...");
            send_error 500
              $"Error serving file: read length must be non-negative or -1" ].
Proof.
  assert (H1 : os_stat Sample.fs $"/withings/b.txt"
               = Ret (mk_stat RegularFile 12 1700000100)) by reflexivity.
  assert (H2 : open_rb Sample.fs $"/withings/b.txt"
               = Ret (mk_file Sample.hello None)) by reflexivity.
  assert (H3 : BUFFER_SIZE SampleFaults.cfg_minus_two < -1) by reflexivity.
  assert (H4 : latin1 (content_type_of Sample.lib $"/withings/b.txt") = true)
    by reflexivity.
  assert (H5 : latin1 (PosixPath.basename $"/withings/b.txt") = true)
    by reflexivity.
  split; [exact H1|]. split; [exact H2|]. split; [exact H3|].
  exact (@buffer_below_minus_one_sends_no_file SampleFaults.cfg_minus_two
           Sample.fs Sample.lib $"/withings/b.txt" _ _ H1 H4 H5 H2 H3).
Defined.

(* ===================================================================== *)
(** * Listings that fail *)
(* ===================================================================== *)

Section ListingFailures.

Variable cfg : Config.
Variable fs : FileSystem.
Variable lib : Library.

Lemma item_row_renders url_path item :
  row_renders lib item = true ->
  exists size_html mtime_text,
    snd (item_row cfg lib url_path item)
    = Ret (table_row (name_html cfg url_path item) size_html mtime_text).
Proof.
  unfold row_renders, item_row. rewrite andb_true_iff. intros [Hsize Htime].
  destruct (strftime_local lib (mtime item)) as [text|] eqn:Ht;
    [|discriminate].
  destruct (is_dir item).
  - cbv [bind ret lift]. cbn [snd]. eauto.
  - cbn [orb] in Hsize. apply Z.ltb_lt in Hsize.
    rewrite (format_size_refines (size item) Hsize). cbv [bind ret lift]. cbn [snd]. eauto.
Qed.

Lemma item_row_fails url_path item :
  row_renders lib item = false ->
  exists e,
    snd (item_row cfg lib url_path item) = Raise e
    /\ (e = Exn $"OverflowError" $"int too large to convert to float"
        \/ strftime_local lib (mtime item) = Raise e).
Proof.
  unfold row_renders, item_row. rewrite andb_false_iff. intros [Hsize|Htime].
  - apply orb_false_iff in Hsize. destruct Hsize as [Hdir Hsize].
    rewrite Hdir. apply Z.ltb_ge in Hsize.
    rewrite (format_size_overflow (size item) Hsize). cbv [bind ret lift]. cbn [snd]. eauto.
  - destruct (strftime_local lib (mtime item)) as [text|e] eqn:Ht;
      [discriminate|].
    destruct (is_dir item).
    + cbv [bind ret lift]. cbn [snd]. eauto.
    + destruct (format_size (size item)) as [s|e'] eqn:Hs;
        cbv [bind ret lift]; cbn [snd].
      * eauto.
      * exists e'. split; [reflexivity|]. left.
        unfold format_size in Hs.
        destruct (size item <? 1024); [discriminate|].
        unfold Float.of_int in Hs.
        destruct (Float.round53 (size item) <? 2 ^ 1024); [discriminate|].
        now inversion Hs.
Qed.

Lemma item_rows_cons url_path item items :
  snd (item_rows cfg lib url_path (item :: items))
  = match snd (item_row cfg lib url_path item) with
    | Raise e => Raise e
    | Ret row =>
        match snd (item_rows cfg lib url_path items) with
        | Raise e => Raise e
        | Ret rows => Ret (row :: rows)
        end
    end.
Proof.
  cbn [item_rows].
  rewrite (pair_eta (item_row cfg lib url_path item)), item_row_trace.
  destruct (snd (item_row cfg lib url_path item)); [|reflexivity].
  rewrite bind_ret. cbn [snd].
  rewrite (pair_eta (item_rows cfg lib url_path items)), item_rows_trace.
  now destruct (snd (item_rows cfg lib url_path items)).
Qed.

Lemma item_rows_render url_path items :
  forallb (row_renders lib) items = true ->
  exists rows, snd (item_rows cfg lib url_path items) = Ret rows.
Proof.
  induction items as [|x items IH]; [exists []; reflexivity|].
  cbn [forallb]. rewrite andb_true_iff. intros [Hx Hrest].
  destruct (item_row_renders url_path x Hx) as (s & m & Hrow).
  destruct (IH Hrest) as (rows & Hrows).
  rewrite item_rows_cons, Hrow, Hrows. eauto.
Qed.

Lemma item_rows_fail url_path items :
  forallb (row_renders lib) items = false ->
  exists e,
    snd (item_rows cfg lib url_path items) = Raise e
    /\ (e = Exn $"OverflowError" $"int too large to convert to float"
        \/ exists item, In item items
                        /\ strftime_local lib (mtime item) = Raise e).
Proof.
  induction items as [|x items IH]; [discriminate|].
  cbn [forallb]. rewrite item_rows_cons. intros H.
  destruct (row_renders lib x) eqn:Hx.
  - destruct (item_row_renders url_path x Hx) as (s & m & Hrow).
    rewrite Hrow. destruct (IH H) as (e & He & Hwhy).
    rewrite He. exists e. split; [reflexivity|].
    destruct Hwhy as [Hwhy|(item & Hin & Hwhy)]; [now left|].
    right. exists item. split; [now right | assumption].
  - destruct (item_row_fails url_path x Hx) as (e & He & Hwhy).
    rewrite He. exists e. split; [reflexivity|].
    destruct Hwhy as [Hwhy|Hwhy]; [now left|].
    right. exists x. split; [now left | assumption].
Qed.

Lemma forallb_perm {A} (f : A -> bool) l l' :
  Permutation l l' -> forallb f l = forallb f l'.
Proof.
  induction 1 as [|x l l' _ IH|x y l|l l' l'' _ IH1 _ IH2]; cbn [forallb].
  - reflexivity.
  - now rewrite IH.
  - now rewrite !andb_assoc, (andb_comm (f y)).
  - now rewrite IH1.
Qed.

Lemma generate_directory_html_result items url_path :
  snd (generate_directory_html cfg lib items url_path)
  = match snd (item_rows cfg lib (with_slash url_path) items) with
    | Ret rows =>
        Ret (Py.join [10%N]
               (html_head (with_slash url_path)
                ++ parent_rows cfg (with_slash url_path)
                ++ rows ++ html_foot items))
    | Raise e => Raise e
    end.
Proof.
  rewrite generate_directory_html_run, html_parts_run. cbn [snd].
  now destruct (snd (item_rows cfg lib (with_slash url_path) items)).
Qed.

(** A request for a directory that passes the containment check and
    that [os.listdir] refuses is answered by one 500 response, after
    the error is logged.  When latin-1 encodes the message of the
    exception, the response is that of [serve_directory] and carries
    the message.  When it does not (the message names a path with a
    character beyond U+00FF), the [send_error] of [serve_directory]
    raises: the [except] clause of [do_GET] logs that exception with
    the request path and sends the response, which carries the message
    of the encoding error. *)
Theorem unreadable_directory_answers_500 request_path e :
  let parsed_path := parse_path cfg request_path in
  let full_path := full_path_of cfg parsed_path in
  let e' := latin1_error
              (status_line 500 ($"Error listing directory: " ++ exn_str e)) in
  within_serve_directory cfg fs full_path = true ->
  isdir fs full_path = true ->
  os_listdir fs full_path = Raise e ->
  trace (do_GET cfg fs lib request_path)
  = [ logger INFO ($"Processing request for: " ++ parsed_path
                   ++ $" -> " ++ full_path);
      logger ERROR ($"Error serving directory " ++ full_path ++ $": "
                    ++ exn_str e ++ [10%N] ++ format_exc lib e) ]
    ++ (if latin1 (exn_str e)
        then [ send_error 500 ($"Error listing directory: " ++ exn_str e) ]
        else [ logger ERROR ($"Error handling GET request for "
                             ++ request_path ++ $": " ++ exn_str e'
                             ++ [10%N] ++ format_exc lib e');
               send_error 500 ($"Internal server error: " ++ exn_str e') ]).
Proof.
  intros parsed_path full_path e' Hin Hdir Hlist.
  unfold trace. rewrite do_GET_run. cbv zeta.
  fold parsed_path. fold full_path.
  rewrite Hin, Hdir. cbn [negb fst].
  rewrite serve_directory_run, Hlist. cbn [fst snd].
  rewrite serve_directory_except_run. cbn [fst snd].
  destruct (latin1 (exn_str e)); [reflexivity|].
  fold e'. unfold e'. now rewrite rescue_latin1_error.
Qed.

(** When the row of an entry cannot be rendered (its timestamp does not
    format, or the size of a file does not convert to a float), the
    listing is abandoned before any header is sent: after the warnings
    of the children that could not be examined, the error is logged and
    a 500 response is the only one. *)
Theorem unrenderable_entry_answers_500 dir_path url_path children :
  os_listdir fs dir_path = Ret children ->
  forallb (row_renders lib) (listed_items fs dir_path children) = false ->
  exists e,
    (e = Exn $"OverflowError" $"int too large to convert to float"
     \/ exists item, In item (listed_items fs dir_path children)
                     /\ strftime_local lib (mtime item) = Raise e)
    /\ trace (serve_directory cfg fs lib dir_path url_path)
       = stat_warnings fs dir_path children
         ++ [ logger ERROR ($"Error serving directory " ++ dir_path ++ $": "
                            ++ exn_str e ++ [10%N] ++ format_exc lib e);
              send_error 500 ($"Error listing directory: " ++ exn_str e) ].
Proof.
  intros Hlist Hbad.
  pose proof (sort_items_perm lib (listed_items fs dir_path children)) as Hperm.
  rewrite (forallb_perm (row_renders lib) Hperm) in Hbad.
  destruct (item_rows_fail (with_slash url_path) _ Hbad) as (e & He & Hwhy).
  exists e. split.
  - destruct Hwhy as [Hwhy|(item & Hin & Hwhy)]; [now left|].
    right. exists item. split; [|assumption].
    eapply Permutation_in; [symmetry; exact Hperm | exact Hin].
  - unfold trace. rewrite serve_directory_run, Hlist. cbv zeta. cbn [fst].
    rewrite generate_directory_html_result, He.
    rewrite serve_directory_except_run. cbn [fst].
    assert (Hl : latin1 (exn_str e) = true).
    { destruct Hwhy as [->|(item & _ & Hwhy)]; [reflexivity|].
      exact (strftime_error_latin1 lib _ Hwhy). }
    now rewrite Hl.
Qed.

Lemma encode_unencodable s c :
  In c s -> unencodable c = true -> Utf8.encode s = None.
Proof.
  unfold unencodable, Utf8.encode. intros Hin Hc.
  enough (H : Utf8.encode_N s = None) by now rewrite H.
  induction s as [|x s IH]; [contradiction|].
  cbn [Utf8.encode_N]. destruct Hin as [->|Hin].
  - destruct (Utf8.encode_char c); [discriminate | reflexivity].
  - rewrite (IH Hin). now destruct (Utf8.encode_char x).
Qed.

Lemma join_In (sep : pystr) parts (p : pystr) (c : N) :
  In p parts -> In c p -> In c (Py.join sep parts).
Proof.
  induction parts as [|q parts IH]; [contradiction|].
  intros Hp Hc. destruct parts as [|q' parts'].
  - destruct Hp as [->|[]]. exact Hc.
  - change (Py.join sep (q :: q' :: parts'))
      with (q ++ sep ++ Py.join sep (q' :: parts')).
    destruct Hp as [->|Hp].
    + apply in_or_app. now left.
    + apply in_or_app. right. apply in_or_app. right. now apply IH.
Qed.

Lemma unencodable_escape s c :
  In c s -> unencodable c = true -> In c (Html.escape s).
Proof.
  intros Hin Hc. rewrite escape_flat_map. apply in_flat_map.
  exists c. split; [exact Hin|].
  assert (Hbig : (0x80 <= c)%N).
  { unfold unencodable, Utf8.encode_char in Hc.
    destruct (c <? 0x80)%N eqn:E; [discriminate|]. now apply N.ltb_ge in E. }
  unfold Html.escape_char, Py.char_eqb, Py.dquote.
  repeat match goal with
         | |- context [N.eqb c ?k] =>
             let E := fresh in
             destruct (N.eqb_spec c k) as [E|E];
             [exfalso; rewrite E in Hbig; vm_compute in Hbig; now apply Hbig|]
         end.
  now left.
Qed.

Lemma name_html_holds_name url_path item c :
  In c (Html.escape (name item)) -> In c (name_html cfg url_path item).
Proof.
  intros H. unfold name_html. cbv zeta.
  destruct (is_dir item);
    repeat first [ apply in_or_app; left; exact H | apply in_or_app; right ].
Qed.

Lemma rows_hold_row u items rows :
  Forall2 (fun item row => snd (item_row cfg lib u item) = Ret row) items rows ->
  forall x, In x items ->
  exists row, In row rows /\ snd (item_row cfg lib u x) = Ret row.
Proof.
  induction 1 as [|y row ys rows' Hy _ IH]; intros x Hx; [contradiction|].
  destruct Hx as [->|Hx].
  - exists row. split; [now left | exact Hy].
  - destruct (IH x Hx) as (row' & Hin & Hrow'). exists row'.
    split; [now right | exact Hrow'].
Qed.

(** A listed name that holds a code point UTF-8 cannot encode (a lone
    surrogate, as [os.listdir] gives for a file name that is not UTF-8)
    breaks the listing after its head: the document is rendered, status
    200 and the content type are sent, then the encoding of the
    document fails, the error is logged and a 500 response follows,
    with the message of the [UnicodeEncodeError] of the document.  No
    length, no end of headers and no body are sent. *)
Theorem unencodable_name_answers_200_then_500
    dir_path url_path children item c :
  os_listdir fs dir_path = Ret children ->
  In item children ->
  stat_succeeds fs dir_path item = true ->
  In c item -> unencodable c = true ->
  forallb (row_renders lib) (listed_items fs dir_path children) = true ->
  exists html_content,
    result (generate_directory_html cfg lib
              (sort_items lib (listed_items fs dir_path children)) url_path)
    = Ret html_content
    /\ Utf8.encode html_content = None
    /\ trace (serve_directory cfg fs lib dir_path url_path)
       = stat_warnings fs dir_path children
         ++ [ send_response 200;
              send_header $"Content-Type" $"text/html; charset=utf-8";
              logger ERROR ($"Error serving directory " ++ dir_path ++ $": "
                            ++ exn_str (unicode_error html_content) ++ [10%N]
                            ++ format_exc lib (unicode_error html_content));
              send_error 500 ($"Error listing directory: "
                              ++ exn_str (unicode_error html_content)) ].
Proof.
  intros Hlist Hitem Hstat Hc Hbad Hok.
  pose proof (sort_items_perm lib (listed_items fs dir_path children)) as Hperm.
  rewrite (forallb_perm (row_renders lib) Hperm) in Hok.
  set (items := sort_items lib (listed_items fs dir_path children)) in *.
  destruct (item_rows_render (with_slash url_path) items Hok) as (rows & Hrows).
  (* the entry of the name, and its row *)
  assert (Hentry : exists x, In x items /\ name x = item).
  { assert (Hn : In item (map name (listed_items fs dir_path children))).
    { rewrite listed_items_names. apply filter_In. now split. }
    apply in_map_iff in Hn. destruct Hn as (x & Hx & Hin).
    exists x. split; [|exact Hx].
    eapply Permutation_in; [exact Hperm | exact Hin]. }
  destruct Hentry as (x & Hx & Hname).
  assert (Hrow : exists row, In row rows /\ In c row).
  { pose proof (item_rows_result cfg lib _ _ Hrows) as HF.
    destruct (@rows_hold_row _ _ _ HF x Hx) as (row & Hin & Hy).
    exists row. split; [exact Hin|].
    apply item_row_shape in Hy. destruct Hy as (s & m & ->).
    unfold table_row. apply in_or_app. right. apply in_or_app. left.
    apply name_html_holds_name, unencodable_escape; [|exact Hbad].
    now rewrite Hname. }
  destruct Hrow as (row & Hrow & Hcrow).
  set (html_content :=
         Py.join [10%N]
           (html_head (with_slash url_path)
            ++ parent_rows cfg (with_slash url_path)
            ++ rows ++ html_foot items)).
  assert (Henc : Utf8.encode html_content = None).
  { apply (@encode_unencodable _ c); [|exact Hbad].
    apply (@join_In [10%N] _ row c); [|exact Hcrow].
    apply in_or_app. right. apply in_or_app. right. apply in_or_app. now left. }
  exists html_content. split; [|split; [exact Henc|]].
  - unfold result. now rewrite generate_directory_html_result, Hrows.
  - unfold trace. rewrite serve_directory_run, Hlist. cbv zeta. cbn [fst].
    fold items. rewrite generate_directory_html_result, Hrows.
    fold html_content. rewrite Henc, serve_directory_except_run.
    cbn [fst]. now rewrite unicode_error_latin1.
Qed.

(** The name of an entry adds no character that opens or closes markup
    or an attribute value to its link: those of the link are the ones
    of the same link for an empty name. *)
Theorem name_adds_no_markup url_path item :
  filter Html.markup_char (name_html cfg url_path item)
  = filter Html.markup_char (name_html cfg url_path (unnamed item)).
Proof.
  assert (Hesc : forall s, filter Html.markup_char (Html.escape s) = []).
  { intros s. pose proof (escape_no_markup s) as H.
    induction (Html.escape s) as [|c l IH]; [reflexivity|].
    cbn [forallb] in H. apply andb_true_iff in H. destruct H as [Hc Hl].
    cbn [filter]. apply negb_true_iff in Hc. rewrite Hc. now apply IH. }
  unfold name_html, unnamed, quoted. cbv zeta. cbn [name is_dir].
  destruct (is_dir item); rewrite !filter_app, !Hesc; reflexivity.
Qed.

End ListingFailures.

Lemma unreadable_directory_answers_500_witness :
  within_serve_directory Sample.cfg SampleFaults.fs SampleFaults.euro_sealed
  = true
  /\ isdir SampleFaults.fs SampleFaults.euro_sealed = true
  /\ os_listdir SampleFaults.fs SampleFaults.euro_sealed
     = Raise SampleFaults.EACCES_euro_sealed
  /\ trace (do_GET Sample.cfg SampleFaults.fs Sample.lib $"/wt/%E2%82%ACsealed")
     = [ logger INFO ($"Processing request for: /" ++ [0x20AC%N] ++ $"sealed -> "
                      ++ SampleFaults.euro_sealed);
         logger ERROR
           ($"Error serving directory " ++ SampleFaults.euro_sealed
            ++ $": [Errno 13] Permission denied: '" ++ SampleFaults.euro_sealed
            ++ $"'" ++ [10%N] ++ $"Traceback (most recent call last): ...");
         logger ERROR
           ($"Error handling GET request for /wt/%E2%82%ACsealed: 'latin-1' codec can't encode character '\u20ac' in position 79: ordinal not in range(256)"
            ++ [10%N] ++ $"Traceback (most recent call last): ...");
         send_error 500
           $"Internal server error: 'latin-1' codec can't encode character '\u20ac' in position 79: ordinal not in range(256)" ].
Proof.
  assert (H1 : within_serve_directory Sample.cfg SampleFaults.fs
                 (full_path_of Sample.cfg
                    (parse_path Sample.cfg $"/wt/%E2%82%ACsealed"))
               = true) by (vm_compute; reflexivity).
  assert (H2 : isdir SampleFaults.fs
                 (full_path_of Sample.cfg
                    (parse_path Sample.cfg $"/wt/%E2%82%ACsealed"))
               = true) by (vm_compute; reflexivity).
  assert (H3 : os_listdir SampleFaults.fs
                 (full_path_of Sample.cfg
                    (parse_path Sample.cfg $"/wt/%E2%82%ACsealed"))
               = Raise SampleFaults.EACCES_euro_sealed)
    by (vm_compute; reflexivity).
  split; [exact H1|]. split; [exact H2|]. split; [exact H3|].
  pose proof (@unreadable_directory_answers_500 Sample.cfg SampleFaults.fs
                Sample.lib $"/wt/%E2%82%ACsealed"
                SampleFaults.EACCES_euro_sealed H1 H2 H3) as H.
  vm_compute in H. vm_compute. exact H.
Defined.

Lemma unrenderable_entry_answers_500_witness :
  os_listdir SampleFaults.fs $"/withings/old" = Ret [$"a.txt"; $"gone"]
  /\ forallb (row_renders Sample.lib)
       (listed_items SampleFaults.fs $"/withings/old" [$"a.txt"; $"gone"])
     = false
  /\ exists e,
       trace (serve_directory Sample.cfg SampleFaults.fs Sample.lib
                $"/withings/old" $"/old")
       = stat_warnings SampleFaults.fs $"/withings/old" [$"a.txt"; $"gone"]
         ++ [ logger ERROR ($"Error serving directory /withings/old: "
                            ++ exn_str e ++ [10%N]
                            ++ format_exc Sample.lib e);
              send_error 500 ($"Error listing directory: " ++ exn_str e) ].
Proof.
  assert (H1 : os_listdir SampleFaults.fs $"/withings/old"
               = Ret [$"a.txt"; $"gone"]) by reflexivity.
  assert (H2 : forallb (row_renders Sample.lib)
                 (listed_items SampleFaults.fs $"/withings/old"
                    [$"a.txt"; $"gone"]) = false)
    by (vm_compute; reflexivity).
  split; [exact H1|]. split; [exact H2|].
  destruct (@unrenderable_entry_answers_500 Sample.cfg SampleFaults.fs
              Sample.lib $"/withings/old" $"/old" _ H1 H2) as (e & _ & Ht).
  exists e. exact Ht.
Defined.

Lemma unencodable_name_answers_200_then_500_witness :
  os_listdir SampleFaults.fs $"/withings/legacy"
  = Ret [SampleFaults.latin1_name; $"gone"]
  /\ stat_succeeds SampleFaults.fs $"/withings/legacy" SampleFaults.latin1_name
     = true
  /\ unencodable 0xDCE9%N = true
  /\ trace (serve_directory Sample.cfg SampleFaults.fs Sample.lib
              $"/withings/legacy" $"/legacy")
     = [ logger WARNING
           $"Failed to stat /withings/legacy/gone: [Errno 2] No such file or directory";
         send_response 200;
         send_header $"Content-Type" $"text/html; charset=utf-8";
         logger ERROR
           ($"Error serving directory /withings/legacy: 'utf-8' codec can't encode character '\udce9' in position 715: surrogates not allowed"
            ++ [10%N] ++ $"Traceback (most recent call last): ...");
         send_error 500
           $"Error listing directory: 'utf-8' codec can't encode character '\udce9' in position 715: surrogates not allowed" ].
Proof.
  assert (H1 : os_listdir SampleFaults.fs $"/withings/legacy"
               = Ret [SampleFaults.latin1_name; $"gone"]) by reflexivity.
  assert (H2 : In SampleFaults.latin1_name [SampleFaults.latin1_name; $"gone"])
    by (left; reflexivity).
  assert (H3 : stat_succeeds SampleFaults.fs $"/withings/legacy"
                 SampleFaults.latin1_name = true) by (vm_compute; reflexivity).
  assert (H4 : In 0xDCE9%N SampleFaults.latin1_name)
    by (vm_compute; tauto).
  assert (H5 : unencodable 0xDCE9%N = true) by reflexivity.
  assert (H6 : forallb (row_renders Sample.lib)
                 (listed_items SampleFaults.fs $"/withings/legacy"
                    [SampleFaults.latin1_name; $"gone"]) = true)
    by (vm_compute; reflexivity).
  split; [exact H1|]. split; [exact H3|]. split; [exact H5|].
  destruct (@unencodable_name_answers_200_then_500 Sample.cfg SampleFaults.fs
              Sample.lib $"/withings/legacy" $"/legacy" _ _ _
              H1 H2 H3 H4 H5 H6) as (html_content & Hgen & _ & Ht).
  rewrite Ht. vm_compute in Hgen. apply Ret_inj in Hgen. subst html_content.
  vm_compute. reflexivity.
Defined.

(* ===================================================================== *)
(** * Sizes at the edge of a unit *)
(* ===================================================================== *)

Lemma div_half_even_is a b t :
  0 < b -> Z.even t = true -> 2 * t * b - b <= 2 * a < 2 * t * b + b ->
  Float.div_half_even a b = t.
Proof.
  intros Hb Ht Ha. unfold Float.div_half_even.
  pose proof (Z.mod_pos_bound a b Hb) as Hr.
  pose proof (Z.div_mod a b ltac:(lia)) as Hdm.
  set (r := a mod b) in *. set (q := a / b) in *. cbv zeta.
  destruct (Z.ltb_spec (2 * r) b) as [H1|H1]; [nia|].
  destruct (Z.ltb_spec b (2 * r)) as [H2|H2]; [nia|].
  assert (Hq : q = t - 1) by nia.
  assert (Hodd : Z.even q = false).
  { rewrite Hq, Z.even_sub, Ht. reflexivity. }
  rewrite Hodd. lia.
Qed.

Lemma format_1f_1024 n s :
  0 <= s -> 20479 * 2 ^ s <= 20 * n -> n < 1024 * 2 ^ s ->
  Float.format_1f (Float.mk n s) = $"1024.0".
Proof.
  intros Hs Hlo Hhi. unfold Float.format_1f, Float.tenths.
  cbn [Float.mant Float.scale].
  assert (HP : 0 < 2 ^ s) by (apply Z.pow_pos_nonneg; lia).
  rewrite (@div_half_even_is (10 * n) (2 ^ s) 10240) by (try reflexivity; lia).
  reflexivity.
Qed.

(** A size within a twentieth of a unit below the next unit is printed
    as 1024.0 of the smaller unit, not as 1.0 of the next: one byte
    less than a mebibyte reads 1024.0 KB. *)
Theorem size_just_below_a_unit_prints_1024 k unit n :
  In (k, unit) [(1, $"KB"); (2, $"MB"); (3, $"GB"); (4, $"TB")] ->
  20479 * 1024 ^ k <= 20 * n -> n < 1024 ^ (k + 1) ->
  format_size n = Ret ($"1024.0 " ++ unit).
Proof.
  intros Hk Hlo Hhi.
  assert (Hrange : 1 <= k <= 4).
  { cbn [In] in Hk.
    destruct Hk as [Hk|[Hk|[Hk|[Hk|[]]]]]; inversion Hk; lia. }
  assert (Hmax : 1024 ^ 5 < 2 ^ 53) by reflexivity.
  assert (Hfar : 2 ^ 53 < 2 ^ 1024) by reflexivity.
  assert (Htop : 1024 ^ (k + 1) <= 1024 ^ 5)
    by (apply Z.pow_le_mono_r; lia).
  assert (Hbot : 1024 ^ 1 <= 1024 ^ k)
    by (apply Z.pow_le_mono_r; lia).
  assert (Hexact : Float.round53 n = n) by (apply round53_small; lia).
  assert (Hbig : 1024 <= n) by (change (1024 ^ 1) with 1024 in Hbot; lia).
  unfold format_size, Float.of_int.
  destruct (Z.ltb_spec n 1024) as [|_]; [lia|].
  rewrite Hexact.
  destruct (Z.ltb_spec n (2 ^ 1024)) as [_|Hov]; [|lia].
  clear Hmax Hfar Htop Hbot Hexact.
  f_equal. unfold Float.div1024. cbn [Float.mant Float.scale Z.add].
  assert (E1 : 1024 ^ 1 = 1024) by reflexivity.
  assert (E2 : 1024 ^ 2 = 1048576) by reflexivity.
  assert (E3 : 1024 ^ 3 = 1073741824) by reflexivity.
  assert (E4 : 1024 ^ 4 = 1099511627776) by reflexivity.
  assert (E5 : 1024 ^ 5 = 1125899906842624) by reflexivity.
  assert (P1 : 2 ^ 10 = 1024) by reflexivity.
  assert (P2 : 2 ^ 20 = 1048576) by reflexivity.
  assert (P3 : 2 ^ 30 = 1073741824) by reflexivity.
  assert (P4 : 2 ^ 40 = 1099511627776) by reflexivity.
  cbn in Hk.
  destruct Hk as [Hk|[Hk|[Hk|[Hk|[]]]]]; inversion Hk; subst k unit; clear Hk;
    cbn [Z.add Pos.add Pos.succ] in Hhi;
    repeat (cbn [format_size_units];
            unfold Float.lt1024, Float.div1024;
            cbn [Float.mant Float.scale Z.add Pos.add Pos.succ];
            match goal with
            | |- context [Z.ltb ?a ?b] => destruct (Z.ltb_spec a b); [|lia]
            | |- context [Z.ltb ?a ?b] => destruct (Z.ltb_spec a b); [lia|]
            end);
    try (rewrite format_1f_1024 by lia; reflexivity).
Qed.

Lemma size_just_below_a_unit_prints_1024_witness :
  In (1, $"KB") [(1, $"KB"); (2, $"MB"); (3, $"GB"); (4, $"TB")]
  /\ 20479 * 1024 ^ 1 <= 20 * 1048575
  /\ 1048575 < 1024 ^ (1 + 1)
  /\ format_size 1048575 = Ret $"1024.0 KB".
Proof.
  assert (H1 : In (1, $"KB") [(1, $"KB"); (2, $"MB"); (3, $"GB"); (4, $"TB")])
    by (left; reflexivity).
  assert (H2 : 20479 * 1024 ^ 1 <= 20 * 1048575) by (vm_compute; discriminate).
  assert (H3 : 1048575 < 1024 ^ (1 + 1)) by reflexivity.
  split; [exact H1|]. split; [exact H2|]. split; [exact H3|].
  exact (@size_just_below_a_unit_prints_1024 1 $"KB" 1048575 H1 H2 H3).
Defined.

(* ===================================================================== *)
(** * Links and names *)
(* ===================================================================== *)

Lemma escape_char_inj c d (s t : list N) :
  Html.escape_char c ++ s = Html.escape_char d ++ t -> c = d /\ s = t.
Proof.
  unfold Html.escape_char, Py.char_eqb, Py.dquote.
  destruct (N.eqb_spec c (Py.ch "&")) as [->|C1];
    [|destruct (N.eqb_spec c (Py.ch "<")) as [->|C2];
      [|destruct (N.eqb_spec c (Py.ch ">")) as [->|C3];
        [|destruct (N.eqb_spec c 34%N) as [->|C4];
          [|destruct (N.eqb_spec c (Py.ch "'")) as [->|C5]]]]];
    (destruct (N.eqb_spec d (Py.ch "&")) as [->|D1];
     [|destruct (N.eqb_spec d (Py.ch "<")) as [->|D2];
       [|destruct (N.eqb_spec d (Py.ch ">")) as [->|D3];
         [|destruct (N.eqb_spec d 34%N) as [->|D4];
           [|destruct (N.eqb_spec d (Py.ch "'")) as [->|D5]]]]]);
    intros H; vm_compute in H; try discriminate H;
    try (injection H as H; subst; split; reflexivity);
    try (injection H as H; exfalso; subst; vm_compute in *; congruence).
Qed.

Lemma escape_injective s t : Html.escape s = Html.escape t -> s = t.
Proof.
  rewrite !escape_flat_map. revert t.
  induction s as [|c s IH]; intros [|d t] H.
  - reflexivity.
  - exfalso. cbn [flat_map] in H.
    unfold Html.escape_char in H.
    repeat match type of H with
           | context [if ?b then _ else _] => destruct b
           end; discriminate H.
  - exfalso. cbn [flat_map] in H.
    unfold Html.escape_char in H.
    repeat match type of H with
           | context [if ?b then _ else _] => destruct b
           end; discriminate H.
  - cbn [flat_map] in H. apply escape_char_inj in H.
    destruct H as [-> H]. f_equal. now apply IH.
Qed.

Lemma first_quote (a b r r' : list N) :
  ~ In Py.dquote a -> ~ In Py.dquote b ->
  a ++ Py.dquote :: r = b ++ Py.dquote :: r' -> a = b.
Proof.
  revert b. induction a as [|x a IH]; intros [|y b] Ha Hb H.
  - reflexivity.
  - exfalso. cbn [app] in H. injection H as H _. apply Hb. now left.
  - exfalso. cbn [app] in H. injection H as H _. apply Ha. now left.
  - cbn [app] in H. injection H as -> H. f_equal.
    apply IH with (2 := fun Hin => Hb (or_intror Hin)) (3 := H).
    intros Hin. apply Ha. now right.
Qed.

Lemma escape_no_quote s : ~ In Py.dquote (Html.escape s).
Proof.
  intros H. pose proof (escape_no_markup s) as Hm.
  rewrite forallb_forall in Hm. apply Hm in H.
  vm_compute in H. discriminate.
Qed.

Section Links.

Variable cfg : Config.

(** In one listing, two entries of the same kind have the same link
    only if they have the same name: escaping keeps names apart. *)
Theorem links_identify_names url_path x y :
  is_dir x = is_dir y ->
  name_html cfg url_path x = name_html cfg url_path y ->
  name x = name y.
Proof.
  intros Hdir H. unfold name_html, quoted in H. cbv zeta in H.
  rewrite <- Hdir in H.
  assert (Hq : forall e, ~ In Py.dquote (Html.escape e ++ $"/")).
  { intros e Hin. apply in_app_or in Hin. destruct Hin as [Hin|Hin].
    - now apply escape_no_quote in Hin.
    - vm_compute in Hin. destruct Hin as [Hin|[]]. discriminate. }
  apply escape_injective.
  destruct (is_dir x).
  - apply app_inv_head in H. rewrite <- !app_assoc in H.
    cbn [app] in H. injection H as H.
    do 2 apply app_inv_head in H.
    assert (Hmid : forall (a : list N) c r, a ++ c :: r = (a ++ [c]) ++ r)
      by (intros; now rewrite <- app_assoc).
    rewrite (Hmid (Html.escape (name x))), (Hmid (Html.escape (name y))) in H.
    apply first_quote in H; [|apply Hq|apply Hq].
    now apply app_inv_tail in H.
  - apply app_inv_head in H. rewrite <- !app_assoc in H.
    cbn [app] in H. injection H as H.
    do 2 apply app_inv_head in H.
    apply first_quote in H; [exact H | apply escape_no_quote ..].
Qed.

End Links.

Lemma links_identify_names_witness :
  is_dir (mk_item $"a&b" $"/withings/a&b" false 1 0)
  = is_dir (mk_item $"a&b" $"/elsewhere" false 2 5)
  /\ name (mk_item $"a&b" $"/withings/a&b" false 1 0)
     = name (mk_item $"a&b" $"/elsewhere" false 2 5).
Proof.
  assert (H1 : is_dir (mk_item $"a&b" $"/withings/a&b" false 1 0)
               = is_dir (mk_item $"a&b" $"/elsewhere" false 2 5))
    by reflexivity.
  assert (H2 : name_html Sample.cfg $"/" (mk_item $"a&b" $"/withings/a&b" false 1 0)
               = name_html Sample.cfg $"/" (mk_item $"a&b" $"/elsewhere" false 2 5))
    by reflexivity.
  split; [exact H1|].
  exact (@links_identify_names Sample.cfg $"/" _ _ H1 H2).
Defined.

Lemma do_GET_always_answers_witness :
  existsb starts_response
    (trace (do_GET Sample.cfg Sample.fs Sample.lib $"/wt/nothing")) = true
  /\ exists message,
       In (send_error 404 message)
         (trace (do_GET Sample.cfg Sample.fs Sample.lib $"/wt/nothing")).
Proof.
  pose proof (@do_GET_always_answers Sample.cfg Sample.fs Sample.lib
                $"/wt/nothing") as H.
  cbv zeta in H.
  destruct H as (Hans & _ & _ & _ & H404).
  split; [exact Hans|].
  apply H404. vm_compute. auto.
Defined.
